(** * Gettext add-ons of Weblate: a shallow embedding of
      [weblate/addons/gettext.py] and the properties of its editors,
      differ, change gate and orchestrators.

    Conventions of the embedding.
    - A Python [str] is a [string]; each character stands for one code
      point below 256.  Order on strings is the byte-wise lexicographic one,
      which is Python's order on such strings.
    - A text file is the list of lines [readlines()] returns; every line
      carries its own line terminator.  [writelines()] stores the lines it
      is given, and [PyMore.readlines] tells what a read makes of their
      text.
    - A Python [set] whose iteration order reaches the output is a list
      (its elements in iteration order); a set that is only tested and
      intersected is a [gset].
    - Calls to collaborators (alerts, logging, repository, external tools)
      are recorded in a trace, in the order the code performs them. *)

From Stdlib Require Import Ascii String ZArith DecimalString DecimalZ.
From stdpp Require Import base decidable option list sorting gmap strings.

Local Open Scope stdpp_scope.
Local Open Scope nat_scope.

(** ** Python strings *)

Module Py.

(** The line feed, [chr(10)]. *)
Definition LF : ascii := ascii_of_nat 10.
(** The double quote, [chr(34)]. *)
Definition DQ : ascii := ascii_of_nat 34.
(** The backslash, [chr(92)]. *)
Definition BS : ascii := ascii_of_nat 92.

Definition nl : string := String LF "".
Definition dq : string := String DQ "".

(** [str.isspace] on one character, that is the set [str.strip()]
    removes: U+0009..U+000D, U+001C..U+0020, U+0085 and U+00A0. *)
Definition isspace (c : ascii) : bool :=
  let n := nat_of_ascii c in
  ((9 <=? n) && (n <=? 13)) || ((28 <=? n) && (n <=? 32))
  || (n =? 133) || (n =? 160).

(** [c in s] for a one-character [c]. *)
Fixpoint contains (c : ascii) (s : string) : bool :=
  match s with
  | "" => false
  | String a s' => Ascii.eqb a c || contains c s'
  end.

(** [s.split(c, 1)[0]]: the part of [s] before the first [c]. *)
Fixpoint split_head (c : ascii) (s : string) : string :=
  match s with
  | "" => ""
  | String a s' => if Ascii.eqb a c then "" else String a (split_head c s')
  end.

(** [s.lstrip(chars)], the characters to strip given as a predicate. *)
Fixpoint lstrip_with (p : ascii → bool) (s : string) : string :=
  match s with
  | "" => ""
  | String a s' => if p a then lstrip_with p s' else s
  end.

(** [s.rstrip(chars)]. *)
Fixpoint rstrip_with (p : ascii → bool) (s : string) : string :=
  match s with
  | "" => ""
  | String a s' =>
      match rstrip_with p s' with
      | "" => if p a then "" else String a ""
      | r => String a r
      end
  end.

(** [s.strip()]. *)
Definition strip (s : string) : string :=
  rstrip_with isspace (lstrip_with isspace s).

(** [s.startswith(p)]. *)
Definition startswith (s p : string) : bool := String.prefix p s.

(** [s.endswith(p)]: [p] is [s] or ends the tail of [s]. *)
Fixpoint endswith (s p : string) : bool :=
  String.eqb s p
  || match s with
     | "" => false
     | String _ s' => endswith s' p
     end.

(** [sep.join(l)]. *)
Definition join (sep : string) (l : list string) : string :=
  String.concat sep l.

(** [sorted(l)] on strings. *)
Definition sorted (l : list string) : list string :=
  merge_sort String.le l.

(** [enumerate(l)], counting from [k]. *)
Fixpoint enumerate_from {A} (k : nat) (l : list A) : list (nat * A) :=
  match l with
  | [] => []
  | x :: l' => (k, x) :: enumerate_from (S k) l'
  end.
Definition enumerate {A} (l : list A) : list (nat * A) :=
  enumerate_from 0 l.

(** Truth value of an optional string: [None] and the empty string are
    false. *)
Definition truthy (o : option string) : bool :=
  match o with
  | Some s => negb (String.eqb s "")
  | None => false
  end.

(** [os.path.dirname] of [posixpath]: everything up to the last slash,
    with trailing slashes removed unless the head consists of slashes
    only. *)
Fixpoint dirname_head (s : string) : string :=
  match s with
  | "" => ""
  | String a s' =>
      if contains "/" s' then String a (dirname_head s')
      else if Ascii.eqb a "/" then String a "" else ""
  end.
Definition dirname (p : string) : string :=
  let head := dirname_head p in
  match rstrip_with (Ascii.eqb "/") head with
  | "" => head
  | h => h
  end.

(** [os.path.join(a, b)] of [posixpath], for two components. *)
Definition path_join (a b : string) : string :=
  if startswith b "/" then b
  else if String.eqb a "" || endswith a "/" then a +:+ b
  else a +:+ "/" +:+ b.

End Py.

(** ** [UpdateLinguasAddon] *)

Module UpdateLinguasAddon.

(** [line.split("#", 1)[0].strip()]. *)
Definition stripped_of (line : string) : string :=
  Py.strip (Py.split_head "#" line).

(** The local variables of [update_linguas] that its loop changes. *)
Record loop_state := LoopState {
  ls_lines : list string;
  ls_codes : list string;
  ls_remove : list nat;
  ls_changed : bool
}.

(** [" ".join(sorted(codes))]. *)
Definition expected_line (codes : list string) : string :=
  Py.join " " (Py.sorted codes).

(** [codes.remove(x)]. *)
Definition set_remove (x : string) (codes : list string) : list string :=
  filter (λ c, c ≠ x) codes.

(** The [for i, line in enumerate(lines)] loop.  [continue] goes on with
    the remaining items, [break] returns the state. *)
Fixpoint scan (items : list (nat * string)) (st : loop_state) : loop_state :=
  match items with
  | [] => st
  | (i, line) :: rest =>
      let stripped := stripped_of line in
      if String.eqb stripped "" then scan rest st
      else if Py.contains " " stripped then
        let expected := expected_line (ls_codes st) in
        let st1 :=
          if negb (String.eqb stripped expected) then
            LoopState (<[i := expected +:+ Py.nl]> (ls_lines st))
                      (ls_codes st) (ls_remove st) true
          else st in
        LoopState (ls_lines st1) [] (ls_remove st1) (ls_changed st1)
      else if bool_decide (stripped ∈ ls_codes st) then
        scan rest (LoopState (ls_lines st) (set_remove stripped (ls_codes st))
                             (ls_remove st) (ls_changed st))
      else
        scan rest (LoopState (ls_lines st) (ls_codes st)
                             (ls_remove st ++ [i]) (ls_changed st))
  end.

(** [for i in reversed(remove): del lines[i]]. *)
Definition delete_all (remove : list nat) (lines : list string) : list string :=
  foldl (λ l i, delete i l) lines (reverse remove).

Definition update_linguas (lines codes : list string) : bool * list string :=
  let st := scan (Py.enumerate lines) (LoopState lines codes [] false) in
  let '(lines1, changed1) :=
    match ls_remove st with
    | [] => (ls_lines st, ls_changed st)
    | _ => (delete_all (ls_remove st) (ls_lines st), true)
    end in
  match ls_codes st with
  | [] => (changed1, lines1)
  | _ => (true, lines1 ++ ((λ code, code +:+ Py.nl) <$> ls_codes st))
  end.

End UpdateLinguasAddon.

(** ** Files, alerts and the trace of calls to collaborators *)

(** One entry of [self.alerts]. *)
Record alert := Alert {
  a_addon : string;
  a_command : string;
  a_output : option string;
  a_error : string
}.

(** Calls that leave the add-on, in program order. *)
Inductive event :=
  | OpenWrite (path : string)
  | TriggerAlerts (occurrences : list alert)
  | LogInfo (format : string)
  | ListChangedFiles (previous_head : string)
  | ResolveSymlinks (path : string)
  | UpdateBilingual (filename template : string) (args : list string)
  | NamedTemporaryFile (dir : string)
  | ExecuteProcess (cmd : list string)
  | OsReplace (src dst : string)
  | CommitAndPush (files : list string) (skip_push : bool).

(** The state an add-on run reads and changes: the files of the working
    tree, [self.alerts], and the trace. *)
Record world := World {
  w_fs : gmap string (list string);
  w_alerts : list alert;
  w_trace : list event
}.

Definition emit (e : event) (w : world) : world :=
  World (w_fs w) (w_alerts w) (w_trace w ++ [e]).

(** [self.alerts.append(a)]. *)
Definition alerts_append (a : alert) (w : world) : world :=
  World (w_fs w) (w_alerts w ++ [a]) (w_trace w).

(** [os.path.exists(path)]. *)
Definition path_exists (path : string) (w : world) : bool :=
  bool_decide (is_Some (w_fs w !! path)).

(** [with open(path, "w") as handle: handle.writelines(lines)].  The file
    then holds the text of the lines, one after the other; the world
    keeps the lines, which is what a later read gives when they are lines
    as a read gives them ([Shape.as_read], [readlines_as_read]).  A
    property that reads a written file again shows that of the lines
    written. *)
Definition write_lines (path : string) (lines : list string) (w : world) : world :=
  emit (OpenWrite path) (World (<[path := lines]> (w_fs w)) (w_alerts w) (w_trace w)).

(** Modelled from the spec: [BaseAddon.trigger_alerts] lives in
    [weblate.addons.base], outside this module; the spec has it hand the
    alerts recorded so far to the host.  The call is recorded with those
    alerts. *)
Definition trigger_alerts (w : world) : world :=
  emit (TriggerAlerts (w_alerts w)) w.

(** [component.log_info(format, ...)]. *)
Definition log_info (format : string) (w : world) : world :=
  emit (LogInfo format) w.

(** A run either returns or raises; both leave a world behind. *)
Inductive res (A : Type) :=
  | Ok (a : A) (w : world)
  | Raise (exn : string) (w : world).
Arguments Ok {A} a w.
Arguments Raise {A} exn w.

Definition res_world {A} (r : res A) : world :=
  match r with Ok _ w => w | Raise _ w => w end.

(** ** [UpdateConfigureAddon] *)

Module UpdateConfigureAddon.

(** The key with its equals sign and opening double quote. *)
Definition key_prefix : string := "ALL_LINGUAS=" +:+ Py.dq.

(** The assignment line the file should hold: the key prefix, the
    language codes joined by a space in the order the query returns them,
    a closing double quote and a line feed. *)
Definition expected_line (codes : list string) : string :=
  key_prefix +:+ Py.join " " codes +:+ Py.dq +:+ Py.nl.

(** The inner loop over one file; [added] is the flag of the enclosing
    function. *)
Fixpoint scan (expected : string) (items : list (nat * string))
    (lines : list string) (added : bool) : list string * bool :=
  match items with
  | [] => (lines, added)
  | (i, line) :: rest =>
      let stripped := Py.strip line in
      if Py.startswith stripped "#" then scan expected rest lines added
      else if negb (Py.startswith stripped key_prefix) then
        scan expected rest lines added
      else if negb (String.eqb line expected) then
        scan expected rest (<[i := expected]> lines) true
      else scan expected rest lines added
  end.

(** The loop over [paths]; opening a missing file raises. *)
Fixpoint sync_paths (expected : string) (paths : list string)
    (added : bool) (w : world) : res bool :=
  match paths with
  | [] => Ok added w
  | path :: rest =>
      match w_fs w !! path with
      | None => Raise "FileNotFoundError" w
      | Some lines =>
          let '(lines', added') := scan expected (Py.enumerate lines) lines added in
          let w' := if added' then write_lines path lines' w else w in
          sync_paths expected rest added' w'
      end
  end.

Definition sync_linguas (codes : list string) (paths : list string)
    (w : world) : res bool :=
  sync_paths (expected_line codes) paths false w.

End UpdateConfigureAddon.

(** ** [GettextCustomizeAddon] *)

(** A value stored in an add-on configuration under [width]. *)
Inductive pyval :=
  | PyInt (z : Z)
  | PyStr (s : string).

Module GettextCustomizeAddon.

Record configuration := Configuration {
  width : option pyval
}.

Definition digit_of (c : ascii) : option Z :=
  let n := nat_of_ascii c in
  if (48 <=? n) && (n <=? 57) then Some (Z.of_nat (n - 48)) else None.

(** Digits of a decimal literal; an underscore may stand between two
    digits. *)
Fixpoint digits (acc : Z) (after_digit : bool) (s : string) : option Z :=
  match s with
  | "" => if after_digit then Some acc else None
  | String c s' =>
      match digit_of c with
      | Some d => digits (10 * acc + d)%Z true s'
      | None =>
          if Ascii.eqb c "_" && after_digit then
            match s' with
            | "" => None
            | String c' _ =>
                match digit_of c' with
                | Some _ => digits acc false s'
                | None => None
                end
            end
          else None
      end
  end.

(** The white space [int(s)] skips around the number: the white space of
    the C locale, U+0009..U+000D and U+0020, and the code points U+0085
    and U+00A0, which the conversion of a string that is not ASCII turns
    into spaces.  The separators U+001C..U+001F, which [str.strip]
    removes, are not skipped. *)
Definition int_space (c : ascii) : bool :=
  let n := nat_of_ascii c in
  ((9 <=? n) && (n <=? 13)) || (n =? 32) || (n =? 133) || (n =? 160).

(** The characters a string that [int] accepts is made of: white space
    it skips, digits, signs and underscores. *)
Definition int_char (a : ascii) : bool :=
  int_space a || bool_decide (is_Some (digit_of a))
  || Ascii.eqb a "+" || Ascii.eqb a "-" || Ascii.eqb a "_".

(** The number of digits of a literal, its underscores left out. *)
Fixpoint count_digits (s : string) : nat :=
  match s with
  | "" => 0
  | String c s' =>
      (if digit_of c is Some _ then 1 else 0) + count_digits s'
  end.

(** The default of [sys.int_max_str_digits]: a decimal literal with more
    digits is refused with [ValueError]. *)
Definition max_str_digits : nat := 4300.

(** The digits after the sign. *)
Definition numeral (s : string) : option Z :=
  z ← digits 0 false s;
  if max_str_digits <? count_digits s then None else Some z.

(** [int(s)] for a string: white space around the number is skipped, one
    sign may come first, the digits follow.  [None] stands for
    [ValueError]. *)
Definition int_of_str (s : string) : option Z :=
  let t := Py.rstrip_with int_space (Py.lstrip_with int_space s) in
  match t with
  | "" => None
  | String c s' =>
      if Ascii.eqb c "+" then numeral s'
      else if Ascii.eqb c "-" then Z.opp <$> numeral s'
      else numeral t
  end.

(** [int(v)]. *)
Definition py_int (v : pyval) : option Z :=
  match v with
  | PyInt z => Some z
  | PyStr s => int_of_str s
  end.

(** [int(self.instance.configuration.get("width", 77))]. *)
Definition configured_width (cfg : configuration) : option Z :=
  py_int (default (PyInt 77) (width cfg)).

(** [None] stands for the [ValueError] of [int]. *)
Definition get_msgmerge_args (cfg : configuration) : option (list string) :=
  w ← configured_width cfg;
  Some (if bool_decide (w ≠ 77%Z) then ["--no-wrap"] else []).

Definition get_xgettext_args (cfg : configuration) : option (list string) :=
  get_msgmerge_args cfg.

(** The argument list as the specification words it, from the configured
    width. *)
Definition spec_args (w : Z) : list string :=
  if bool_decide (w = 77%Z) then [] else ["--no-wrap"].

End GettextCustomizeAddon.

(** ** The component an add-on works on *)

(** [UpdateError] of [weblate.formats.base], with [str(error)]. *)
Record update_error := UpdateError {
  ue_cmd : string;
  ue_output : string;
  ue_str : string
}.

Record translation := Translation {
  is_source : bool;
  is_template : bool;
  get_filename : option string
}.

(** What the add-ons read from [component] and its repository.  Functions
    stand for the collaborators' answers during one run. *)
Record component := Component {
  new_base : string;
  get_new_base_filename : option string;
  (** names of the alerts currently stored for the component *)
  alert_set : gset string;
  (** [repository.list_changed_files(repository.ref_to_remote.format(head))] *)
  list_changed_files : string → list string;
  (** [repository.resolve_symlinks(path)]: [Some text] when it raises
      [OSError] or [ValueError] with that text *)
  resolve_symlinks : string → option string;
  translation_set : list translation;
  (** [file_format_cls.update_bilingual(filename, template, args)]:
      [Some error] when it raises [UpdateError] *)
  update_bilingual : string → string → list string → option update_error;
  (** [component.get_addon(GettextCustomizeAddon.name)] *)
  customize_addon : option GettextCustomizeAddon.configuration;
  report_source_bugs : string
}.

(** [previous_head and not component.alert_set.filter(name=alert).exists()] *)
Definition unchanged_check_applies (c : component) (alert_name : string)
    (previous_head : option string) : bool :=
  Py.truthy previous_head && negb (bool_decide (alert_name ∈ alert_set c)).

(** ** [MsgmergeAddon] *)

Module MsgmergeAddon.

Definition name : string := "weblate.gettext.msgmerge".
Definition alert_name : string := "MsgmergeAddonError".

Record configuration := Configuration {
  fuzzy : option bool;
  previous : option bool;
  no_location : option bool
}.

Definition get_msgmerge_args (cfg : configuration) (c : component)
    : option (list string) :=
  let args := [] in
  let args := if negb (default true (fuzzy cfg))
              then args ++ ["--no-fuzzy-matching"] else args in
  let args := if default true (previous cfg)
              then args ++ ["--previous"] else args in
  let args := if default false (no_location cfg)
              then args ++ ["--no-location"] else args in
  match customize_addon c with
  | Some custom =>
      extra ← GettextCustomizeAddon.get_msgmerge_args custom;
      Some (args ++ extra)
  | None => Some args
  end.

(** The loop over [component.translation_set]. *)
Fixpoint merge_all (c : component) (template : string) (args : list string)
    (ts : list translation) (w : world) : world :=
  match ts with
  | [] => w
  | t :: rest =>
      let skip :=
        (is_source t && negb (is_template t))
        || negb (Py.truthy (get_filename t))
        || negb (path_exists (default "" (get_filename t)) w) in
      if skip then merge_all c template args rest w
      else
        let filename := default "" (get_filename t) in
        let w1 := emit (UpdateBilingual filename template args) w in
        match update_bilingual c filename template args with
        | None => merge_all c template args rest w1
        | Some error =>
            let w2 := alerts_append
                        (Alert name (ue_cmd error) (Some (ue_output error))
                               (ue_str error)) w1 in
            merge_all c template args rest
                      (log_info "%s addon failed: %s" w2)
        end
  end.

Definition update_translations (cfg : configuration) (c : component)
    (previous_head : option string) (w : world) : res unit :=
  let gate_open :=
    if unchanged_check_applies c alert_name previous_head then
      bool_decide (new_base c ∈
                   list_changed_files c (default "" previous_head))
    else true in
  let w0 :=
    if unchanged_check_applies c alert_name previous_head
    then emit (ListChangedFiles (default "" previous_head)) w else w in
  if negb gate_open then
    Ok () (log_info "%s addon skipped, new base was not updated in %s..%s" w0)
  else
    let template := get_new_base_filename c in
    if negb (Py.truthy template)
       || negb (path_exists (default "" template) w0) then
      let w1 := alerts_append
                  (Alert name "msgmerge" template
                         "Template for new translations not found") w0 in
      Ok () (log_info "%s addon skipped, new base was not found"
                      (trigger_alerts w1))
    else
      match get_msgmerge_args cfg c with
      | None => Raise "ValueError" w0
      | Some args =>
          Ok () (trigger_alerts
                   (merge_all c (default "" template) args
                              (translation_set c) w0))
      end.

End MsgmergeAddon.

(** ** [XGettextAddon] *)

(** Modelled from the spec: the outcome of running an external tool whose
    effect is to produce one output file ([ToolOutcome] of the
    specification), with the lines it wrote when it succeeded. *)
Record tool_outcome := ToolOutcome {
  succeeded : bool;
  captured_output : string;
  exit_diagnostic : string;
  produced : list string
}.

Module XGettextAddon.

Definition name : string := "weblate.gettext.xgettext".
Definition alert_name : string := "XGettextAddonError".

Record configuration := Configuration {
  directory : option string;
  files_from : option string;
  from_code : option string;
  add_comments : option bool;
  add_comments_tags : option string;
  no_default_keywords : option bool;
  keywords : option string;
  flags : option string
}.

(** The add-on instance: its configuration, the two attributes
    [post_update] reads from [self], and the answers of the operating
    system during one run. *)
Record addon := Addon {
  instance_configuration : configuration;
  (** whether [self] has the attribute of that name.  [post_update] reads
      [self.get_new_base_filename] and [self.new_base]; no class of this
      module defines either (the other methods read both from
      [component]), and the base class [BaseAddon] lives outside this
      module.  Reading an attribute that is not there raises
      [AttributeError]. *)
  has_attribute : string → bool;
  (** what the two attributes answer where [self] has them *)
  self_get_new_base_filename : option string;
  self_new_base : string;
  (** the name of the file [tempfile.NamedTemporaryFile(dir=...)] makes *)
  tmpfile_name : string → string;
  (** the run of the command line handed to [execute_process] *)
  run_process : list string → tool_outcome
}.

Definition get_directory (self : addon) : string :=
  let path := default "" (directory (instance_configuration self)) in
  if String.eqb path "." then "" else path.

Definition get_files_from (self : addon) (c : component) : option string :=
  match get_new_base_filename c with
  | None => None
  | Some base =>
      let filename :=
        default "POTFILES.in" (files_from (instance_configuration self)) in
      Some (Py.path_join (Py.dirname base) filename)
  end.

(** Line boundaries of [str.splitlines] among the code points below 256. *)
Definition is_linebreak (c : ascii) : bool :=
  let n := nat_of_ascii c in
  ((10 <=? n) && (n <=? 13)) || ((28 <=? n) && (n <=? 30)) || (n =? 133).

(** [s.splitlines()]; [acc] holds the current line reversed, [after_cr]
    tells that the previous character was a carriage return. *)
Fixpoint splitlines_go (acc : string) (after_cr : bool) (s : string)
    : list string :=
  match s with
  | "" => if String.eqb acc "" then [] else [String.rev acc]
  | String c s' =>
      if after_cr && Ascii.eqb c Py.LF then splitlines_go acc false s'
      else if is_linebreak c then
        String.rev acc :: splitlines_go "" (Ascii.eqb c (ascii_of_nat 13)) s'
      else splitlines_go (String c acc) false s'
  end.
Definition splitlines (s : string) : list string := splitlines_go "" false s.

Definition nonempty (s : string) : bool := negb (String.eqb s "").

Definition get_xgettext_args (self : addon) (c : component)
    : option (list string) :=
  let cfg := instance_configuration self in
  let args := ["--files-from=" +:+ default "None" (get_files_from self c)] in
  let args := if nonempty (get_directory self)
              then args ++ ["--directory=" +:+ get_directory self] else args in
  let args := if nonempty (default "UTF-8" (from_code cfg))
              then args ++ ["--from-code=" +:+ default "UTF-8" (from_code cfg)]
              else args in
  let args :=
    if default false (add_comments cfg) then args ++ ["--add-comments"]
    else args ++ ((λ tag, "--add-comments=" +:+ tag) <$>
                  filter (λ tag, nonempty tag = true)
                         (splitlines (default "" (add_comments_tags cfg)))) in
  let args := if default false (no_default_keywords cfg)
              then args ++ ["--keyword"] else args in
  let args := args ++ ((λ keyword, "--keyword=" +:+ keyword) <$>
                filter (λ keyword, nonempty keyword = true)
                       (splitlines (default "" (keywords cfg)))) in
  let args := args ++ ((λ flag, "--flag=" +:+ flag) <$>
                filter (λ flag, nonempty flag = true)
                       (splitlines (default "" (flags cfg)))) in
  let args := if nonempty (report_source_bugs c)
              then args ++ ["--msgid-bugs-address=" +:+ report_source_bugs c]
              else args in
  match customize_addon c with
  | Some custom =>
      extra ← GettextCustomizeAddon.get_xgettext_args custom;
      Some (args ++ extra)
  | None => Some args
  end.

(** [load_file_list] on the lines of the opened file. *)
Definition load_file_list (lines : list string) : list string :=
  (λ line, Py.rstrip_with (λ a, Ascii.eqb a " " || Ascii.eqb a (ascii_of_nat 9)
                                || Ascii.eqb a (ascii_of_nat 13))
             (Py.rstrip_with (λ a, Ascii.eqb a Py.LF) line))
  <$> filter (λ line, nonempty line && negb (Py.startswith line "#") = true)
             lines.

(** The text every POT creation date line starts with. *)
Definition creation_date_prefix : string := Py.dq +:+ "POT-Creation-Date: ".
(** The text it ends with: backslash, n, double quote, line feed. *)
Definition creation_date_suffix : string :=
  String Py.BS ("n" +:+ Py.dq +:+ Py.nl).

Definition is_pot_creation_date (line : option string) : bool :=
  match line with
  | None => false
  | Some line =>
      Py.startswith line creation_date_prefix
      && Py.endswith line creation_date_suffix
  end.

(** [itertools.zip_longest]. *)
Fixpoint zip_longest {A B} (l1 : list A) (l2 : list B)
    : list (option A * option B) :=
  match l1, l2 with
  | [], [] => []
  | x :: l1', [] => (Some x, None) :: zip_longest l1' []
  | [], y :: l2' => (None, Some y) :: ((λ y, (None, Some y)) <$> l2')
  | x :: l1', y :: l2' => (Some x, Some y) :: zip_longest l1' l2'
  end.

(** The loop of [pot_files_same] over the pairs of lines. *)
Fixpoint same_pairs (pairs : list (option string * option string)) : bool :=
  match pairs with
  | [] => true
  | (line_a, line_b) :: rest =>
      if negb (bool_decide (line_a = line_b)) then
        if negb (is_pot_creation_date line_a) then false
        else if negb (is_pot_creation_date line_b) then false
        else same_pairs rest
      else same_pairs rest
  end.

(** [pot_files_same] on the lines of the two opened files. *)
Definition pot_files_same (file_a file_b : list string) : bool :=
  same_pairs (zip_longest file_a file_b).

(** Modelled from the spec: [BaseAddon.execute_process] lives in
    [weblate.addons.base], outside this module.  The run never raises: a
    success stores the lines the tool produced in its output target, a
    failure appends one alert built from the command line, the captured
    output and the error. *)
Definition execute_process (self : addon) (cmd : list string)
    (target : string) (w : world) : world :=
  let w1 := emit (ExecuteProcess cmd) w in
  let out := run_process self cmd in
  if succeeded out then
    World (<[target := produced out]> (w_fs w1)) (w_alerts w1) (w_trace w1)
  else
    alerts_append (Alert name (Py.join " " cmd) (Some (captured_output out))
                         (exit_diagnostic out)) w1.

(** Leaving the [with] block removes the temporary file if it is still
    there. *)
Definition tmpfile_cleanup (tmp : string) (w : world) : world :=
  World (delete tmp (w_fs w)) (w_alerts w) (w_trace w).

(** [os.replace(src, dst)]. *)
Definition os_replace (src dst : string) (w : world) : world :=
  emit (OsReplace src dst)
    (World (match w_fs w !! src with
            | Some lines => delete src (<[dst := lines]> (w_fs w))
            | None => w_fs w
            end) (w_alerts w) (w_trace w)).

(** [for repo_path in repo_files: resolve_symlinks(repo_path)] inside
    [try]: the text of the first error, if any. *)
Fixpoint resolve_all (c : component) (paths : list string) (w : world)
    : option string * world :=
  match paths with
  | [] => (None, w)
  | p :: rest =>
      let w1 := emit (ResolveSymlinks p) w in
      match resolve_symlinks c p with
      | Some ex => (Some ex, w1)
      | None => resolve_all c rest w1
      end
  end.

Section WithCleanupPath.

(** [weblate.trans.util.cleanup_path], a helper defined outside this
    module. *)
Variable cleanup_path : string → string.

(** The set comprehension that builds [repo_files]. *)
Definition repo_files_of (self : addon) (input_files : list string)
    : gset string :=
  list_to_set ((λ input_path,
                 cleanup_path (Py.path_join (get_directory self) input_path))
               <$> input_files).

(** The part of [post_update] inside the [with] block and after it. *)
Definition regenerate (self : addon) (c : component) (output : string)
    (args : list string) (skip_push : bool) (w : world) : res unit :=
  let dir := Py.dirname output in
  let tmp := tmpfile_name self dir in
  let w1 := emit (NamedTemporaryFile dir)
              (World (<[tmp := []]> (w_fs w)) (w_alerts w) (w_trace w)) in
  let w2 := execute_process self (["xgettext"] ++ args ++ ["-o"; tmp]) tmp w1 in
  match w_alerts w2 with
  | _ :: _ => Ok () (tmpfile_cleanup tmp (trigger_alerts w2))
  | [] =>
      if path_exists output w2
         && pot_files_same (default [] (w_fs w2 !! tmp))
                           (default [] (w_fs w2 !! output))
      then Ok () (tmpfile_cleanup tmp (log_info "%s addon: no updates" w2))
      else
        let w3 := tmpfile_cleanup tmp (os_replace tmp output w2) in
        if has_attribute self "new_base"
        then Ok () (emit (CommitAndPush [self_new_base self] skip_push) w3)
        else Raise "AttributeError" w3
  end.

(** The statements of [post_update] after the first, for the value
    [output] the first statement bound. *)
Definition post_update_from (self : addon) (c : component)
    (output : option string) (previous_head : option string)
    (skip_push child : bool) (w : world) : res unit :=
  let files_from := get_files_from self c in
  if negb (Py.truthy files_from)
     || negb (path_exists (default "" files_from) w) then
    let w1 := alerts_append
                (Alert name "xgettext" output
                       "Input list (POTFILES.in) file not found") w in
    Ok () (log_info "%s addon skipped, input file list not found"
                    (trigger_alerts w1))
  else
    let input_files :=
      load_file_list (default [] (w_fs w !! default "" files_from)) in
    let repo_files := repo_files_of self input_files in
    let check := unchanged_check_applies c alert_name previous_head in
    let w0 := if check
              then emit (ListChangedFiles (default "" previous_head)) w
              else w in
    let changes : gset string :=
      list_to_set (list_changed_files c (default "" previous_head)) in
    if check && bool_decide (changes ∩ repo_files = ∅) then
      Ok () (log_info "%s addon skipped, input files not updated in %s..%s" w0)
    else
      match resolve_all c (elements repo_files) w0 with
      | (Some ex, w1) =>
          let w2 := alerts_append (Alert name "xgettext" output ex) w1 in
          Ok () (log_info "%s addon skipped, input file list is invalid: %s"
                          (trigger_alerts w2))
      | (None, w1) =>
          match get_xgettext_args self c with
          | None => Raise "ValueError" w1
          | Some args =>
              match output with
              | None => Raise "TypeError" w1
              | Some output => regenerate self c output args skip_push w1
              end
          end
      end.

(** [post_update]: the first statement,
    [output = self.get_new_base_filename()], and the rest. *)
Definition post_update (self : addon) (c : component)
    (previous_head : option string) (skip_push child : bool) (w : world)
    : res unit :=
  if has_attribute self "get_new_base_filename"
  then post_update_from self c (self_get_new_base_filename self)
         previous_head skip_push child w
  else Raise "AttributeError" w.

End WithCleanupPath.

End XGettextAddon.

(** ** A structural reading of [update_linguas], and the shapes of its
    inputs *)

Module Linguas.
Import UpdateLinguasAddon.

(** The document [update_linguas] leaves, read off line by line: the
    lines kept (with the rewritten one-line record, if any), the codes
    still to add, and whether a one-line record was rewritten. *)
Fixpoint walk (lines codes : list string) : list string * list string * bool :=
  match lines with
  | [] => ([], codes, false)
  | line :: rest =>
      let stripped := stripped_of line in
      if String.eqb stripped "" then
        let '(kept, codes', rewritten) := walk rest codes in
        (line :: kept, codes', rewritten)
      else if Py.contains " " stripped then
        if negb (String.eqb stripped (expected_line codes)) then
          ((expected_line codes +:+ Py.nl) :: rest, [], true)
        else (line :: rest, [], false)
      else if bool_decide (stripped ∈ codes) then
        let '(kept, codes', rewritten) :=
          walk rest (set_remove stripped codes) in
        (line :: kept, codes', rewritten)
      else walk rest codes
  end.

(** A string without white space and without a comment sign. *)
Fixpoint plain (s : string) : bool :=
  match s with
  | "" => true
  | String a s' => negb (Py.isspace a) && negb (Ascii.eqb a "#") && plain s'
  end.

(** A well-formed language code: not empty, no white space, no comment
    sign. *)
Definition code_ok (c : string) : Prop := c ≠ "" ∧ plain c = true.

(** A blank or comment-only line. *)
Definition blank (line : string) : Prop := stripped_of line = "".

(** The first line that lists several codes, if there is one, is followed
    by blank and comment lines only. *)
Fixpoint record_last (lines : list string) : Prop :=
  match lines with
  | [] => True
  | line :: rest =>
      if Py.contains " " (stripped_of line) then Forall blank rest
      else record_last rest
  end.

(** The first character, if any, is not white space. *)
Definition head_ok (s : string) : Prop :=
  match s with "" => True | String a _ => Py.isspace a = false end.

(** Strings that [stripped_of] gives back when they are written on a line
    of their own. *)
Definition tidy (s : string) : Prop :=
  Py.contains "#" s = false ∧ head_ok s ∧ Py.rstrip_with Py.isspace s = s.

(** The changed flag and the document of [update_linguas], from [walk]. *)
Definition walk_result (lines codes : list string) : bool * list string :=
  let '(kept, codes', rewritten) := walk lines codes in
  (rewritten || negb (length kept =? length lines)
   || negb (bool_decide (codes' = [])),
   kept ++ ((λ code, code +:+ Py.nl) <$> codes')).

End Linguas.

(** ** A structural reading of [UpdateConfigureAddon.sync_linguas] *)

Module Configure.
Import UpdateConfigureAddon.

(** The test the inner loop applies to a line before it replaces it. *)
Definition needs_change (expected line : string) : bool :=
  negb (Py.startswith (Py.strip line) "#")
  && Py.startswith (Py.strip line) key_prefix
  && negb (String.eqb line expected).

Definition file_needs_change (expected : string) (lines : list string) : bool :=
  existsb (needs_change expected) lines.

(** What the inner loop leaves of a line. *)
Definition edit (expected line : string) : string :=
  if needs_change expected line then expected else line.

(** The lines of the file at [path], as [readlines] gives them. *)
Definition read (fs : gmap string (list string)) (path : string) : list string :=
  default [] (fs !! path).

(** Every candidate file is there, as for the paths
    [get_configure_paths] yields. *)
Definition all_exist (fs : gmap string (list string)) (paths : list string) : Prop :=
  Forall (λ p, is_Some (fs !! p)) paths.

(** The candidate files that are opened for writing, in order: each file
    from the first one that needs a change on. *)
Fixpoint written_paths (expected : string) (fs : gmap string (list string))
    (added : bool) (paths : list string) : list string :=
  match paths with
  | [] => []
  | path :: rest =>
      let added' := added || file_needs_change expected (read fs path) in
      (if added' then [path] else []) ++ written_paths expected fs added' rest
  end.

End Configure.

(** ** A reading of the POT comparison by line number *)

Module Pot.
Import XGettextAddon.

(** The line is there, starts with the creation date header and ends with
    the escaped line feed, the closing quote and the line feed. *)
Definition creation_date_line (line : option string) : Prop :=
  ∃ text, line = Some text
    ∧ (∃ rest, text = creation_date_prefix +:+ rest)
    ∧ (∃ front, text = front +:+ creation_date_suffix).

(** Lines [i] of the two files count as the same. *)
Definition lines_agree (file_a file_b : list string) (i : nat) : Prop :=
  file_a !! i = file_b !! i
  ∨ (creation_date_line (file_a !! i) ∧ creation_date_line (file_b !! i)).

End Pot.

(** ** A reading of the merge batch item by item *)

Module Batch.
Import MsgmergeAddon.

(** The translation is not skipped by the loop: it is not a plain source
    translation, it has a file name, and the file is there. *)
Definition eligible (w : world) (t : translation) : bool :=
  negb ((is_source t && negb (is_template t))
        || negb (Py.truthy (get_filename t))
        || negb (path_exists (default "" (get_filename t)) w)).

(** The alert for one failed merge. *)
Definition alert_of (error : update_error) : alert :=
  Alert name (ue_cmd error) (Some (ue_output error)) (ue_str error).

(** The alert item [t] gives rise to, if its merge is attempted and
    fails. *)
Definition failure (c : component) (template : string) (args : list string)
    (w : world) (t : translation) : option alert :=
  if eligible w t
  then alert_of <$> update_bilingual c (default "" (get_filename t)) template args
  else None.

(** The files whose merge a list of events records, in order. *)
Definition attempted (events : list event) : list string :=
  omap (λ e, match e with
             | UpdateBilingual filename _ _ => Some filename
             | _ => None
             end) events.

(** The log entry of a run the change gate stops. *)
Definition skip_log : event :=
  LogInfo "%s addon skipped, new base was not updated in %s..%s".

(** The change gate of [update_translations] lets the run through. *)
Definition gate_open (c : component) (previous_head : option string) : Prop :=
  Py.truthy previous_head = false
  ∨ alert_name ∈ alert_set c
  ∨ new_base c ∈ list_changed_files c (default "" previous_head).

End Batch.

(** ** A reading of the stages of [XGettextAddon.post_update] *)

Module Regen.
Import XGettextAddon.



(** The log entry of a run the change gate stops. *)
Definition skip_log : event :=
  LogInfo "%s addon skipped, input files not updated in %s..%s".

Section WithCleanupPath.
Variable cleanup_path : string → string.




End WithCleanupPath.

End Regen.

(** ** The events of one run *)

(** What a run added to the trace it started from. *)
Definition events_since (w w' : world) : list event :=
  drop (length (w_trace w)) (w_trace w').

(** ** Sample inputs *)

Module Sample.

(** A component whose template is [template.pot], with one German
    catalogue, no alert stored, and [changed] as the files changed since
    the previous revision. *)
Definition component_with (changed : list string) : component :=
  Component "template.pot" (Some "template.pot") ∅ (λ _, changed)
            (λ _, None) [Translation false false (Some "de.po")]
            (λ _ _ _, None) None "".

Definition msgmerge_configuration : MsgmergeAddon.configuration :=
  MsgmergeAddon.Configuration None None None.

(** A working tree with the template, the catalogue and an input list
    that names the template. *)
Definition tree : gmap string (list string) :=
  <["POTFILES.in" := ["template.pot" +:+ Py.nl]]>
    (<["template.pot" := []]> (<["de.po" := []]> ∅)).


Definition start (fs : gmap string (list string)) : world := World fs [] [].

(** An xgettext add-on with default settings whose tool run succeeds and
    writes [lines].  As in the classes of the module, [self] has neither
    [get_new_base_filename] nor [new_base]. *)
Definition xgettext_addon (lines : list string) : XGettextAddon.addon :=
  XGettextAddon.Addon
    (XGettextAddon.Configuration None None None None None None None None)
    (λ _, false)
    (Some "template.pot") "template.pot"
    (λ dir, Py.path_join dir "tmpq3x8")
    (λ _, ToolOutcome true "" "" lines).

(** Two configure files: the first lists one language, the second
    already lists both. *)
Definition configure_tree : gmap string (list string) :=
  <["configure" := ["ALL_LINGUAS=" +:+ Py.dq +:+ "de" +:+ Py.dq +:+ Py.nl]]>
    (<["configure.ac" :=
         ["ALL_LINGUAS=" +:+ Py.dq +:+ "de fr" +:+ Py.dq +:+ Py.nl]]> ∅).

(** A batch of three catalogues of which the second fails to merge. *)
Definition batch_component : component :=
  Component "template.pot" (Some "template.pot") ∅ (λ _, [])
            (λ _, None)
            [Translation false false (Some "de.po");
             Translation false false (Some "fr.po");
             Translation false false (Some "es.po")]
            (λ filename _ _,
               if String.eqb filename "fr.po"
               then Some (UpdateError "msgmerge" "" "msgmerge failed")
               else None)
            None "".

Definition batch_tree : gmap string (list string) :=
  <["template.pot" := []]>
    (<["de.po" := []]> (<["fr.po" := []]> (<["es.po" := []]> ∅))).

End Sample.

(** ** More of Python's strings *)

Module PyMore.

(** [p in s] for strings: [p] starts [s] or occurs in its tail. *)
Fixpoint str_in (p s : string) : bool :=
  String.prefix p s
  || match s with
     | "" => false
     | String _ s' => str_in p s'
     end.

(** [s.split(c)] for a one-character separator, without a limit. *)
Fixpoint split_on (c : ascii) (s : string) : list string :=
  match s with
  | "" => [""]
  | String a s' =>
      if Ascii.eqb a c then "" :: split_on c s'
      else match split_on c s' with
           | [] => [String a ""]
           | part :: parts => String a part :: parts
           end
  end.

(** [s.replace(a, b)] for one-character [a] and [b]. *)
Fixpoint replace_char (a b : ascii) (s : string) : string :=
  match s with
  | "" => ""
  | String x s' => String (if Ascii.eqb x a then b else x) (replace_char a b s')
  end.

(** [str(z)] for an integer: its decimal numeral, with a minus sign when
    it is negative. *)
Definition str_of_int (z : Z) : string :=
  NilZero.string_of_int (Z.to_int z).

(** [handle.read()]: the lines of the file, one after the other; this is
    also the text [handle.writelines(lines)] writes. *)
Definition read_text (lines : list string) : string := String.concat "" lines.

(** [handle.readlines()] on a file opened in text mode, from the text of
    the file: a carriage return, with the line feed that follows it if
    there is one, is read as a line feed, and a line ends after its line
    feed.  [acc] holds the current line reversed, [after_cr] tells that
    the previous character was a carriage return. *)
Fixpoint readlines_go (acc : string) (after_cr : bool) (s : string)
    : list string :=
  match s with
  | "" => if String.eqb acc "" then [] else [String.rev acc]
  | String c s' =>
      if after_cr && Ascii.eqb c Py.LF then readlines_go acc false s'
      else if Ascii.eqb c Py.LF || Ascii.eqb c (ascii_of_nat 13) then
        String.rev (String Py.LF acc)
        :: readlines_go "" (Ascii.eqb c (ascii_of_nat 13)) s'
      else readlines_go (String c acc) false s'
  end.
Definition readlines (text : string) : list string :=
  readlines_go "" false text.

End PyMore.

(** ** [UpdateLinguasAddon], the methods around [update_linguas] *)

Module UpdateLinguasRun.
Import UpdateLinguasAddon.

(** [get_linguas_path]; [full_path] and [filemask] are the attributes of
    the component it reads when there is no template. *)
Definition get_linguas_path (c : component) (full_path filemask : string)
    : string :=
  let base :=
    if Py.truthy (get_new_base_filename c)
    then default "" (get_new_base_filename c)
    else Py.path_join full_path (PyMore.replace_char "*" "x" filemask) in
  Py.path_join (Py.dirname base) "LINGUAS".

(** [can_install]; [super_ok] is the answer of the base class. *)
Definition can_install (super_ok : bool) (c : component)
    (full_path filemask : string) (w : world) : bool :=
  if negb super_ok then false
  else
    let path := get_linguas_path c full_path filemask in
    Py.truthy (Some path) && path_exists path w.

(** [sync_linguas]; [codes] is the set the query over the translations
    of the component gives. *)
Definition sync_linguas (codes : list string) (path : string) (w : world)
    : res bool :=
  match w_fs w !! path with
  | None => Raise "FileNotFoundError" w
  | Some lines =>
      let '(changed, lines') := update_linguas lines codes in
      Ok changed (if changed then write_lines path lines' w else w)
  end.

(** [post_add]; the list is [translation.addon_commit_files]. *)
Definition post_add (codes : list string) (c : component)
    (full_path filemask : string) (addon_commit_files : list string)
    (w : world) : res (list string) :=
  let path := get_linguas_path c full_path filemask in
  match sync_linguas codes path w with
  | Ok changed w' =>
      Ok (if changed then addon_commit_files ++ [path] else addon_commit_files)
         w'
  | Raise exn w' => Raise exn w'
  end.

(** [daily]. *)
Definition daily (codes : list string) (c : component)
    (full_path filemask : string) (w : world) : res unit :=
  let path := get_linguas_path c full_path filemask in
  match sync_linguas codes path w with
  | Ok changed w' =>
      Ok () (if changed then emit (CommitAndPush [path] false) w' else w')
  | Raise exn w' => Raise exn w'
  end.

End UpdateLinguasRun.

(** ** [UpdateConfigureAddon], the methods around [sync_linguas] *)

Module UpdateConfigureRun.
Import UpdateConfigureAddon.

(** The three file names [get_configure_paths] tries, in order. *)
Definition configure_names : list string :=
  ["configure"; "configure.in"; "configure.ac"].

(** [list(get_configure_paths(component))]. *)
Definition get_configure_paths (full_path : string) (w : world) : list string :=
  filter (λ path, path_exists path w = true)
         (Py.path_join full_path <$> configure_names).

(** [can_install]; [super_ok] is the answer of the base class, and
    [decodable] tells of a file whether reading it as text succeeds, that
    is, does not raise [UnicodeDecodeError]. *)
Definition can_install (super_ok : bool) (decodable : string → bool)
    (full_path : string) (w : world) : bool :=
  if negb super_ok then false
  else
    existsb (λ name,
               decodable name
               && PyMore.str_in key_prefix
                    (PyMore.read_text (default [] (w_fs w !! name))))
            (get_configure_paths full_path w).

(** [post_add]; the list is [translation.addon_commit_files]. *)
Definition post_add (codes : list string) (full_path : string)
    (addon_commit_files : list string) (w : world) : res (list string) :=
  let paths := get_configure_paths full_path w in
  match sync_linguas codes paths w with
  | Ok added w' =>
      Ok (if added then addon_commit_files ++ paths else addon_commit_files) w'
  | Raise exn w' => Raise exn w'
  end.

(** [daily]. *)
Definition daily (codes : list string) (full_path : string) (w : world)
    : res unit :=
  let paths := get_configure_paths full_path w in
  match sync_linguas codes paths w with
  | Ok added w' =>
      Ok () (if added then emit (CommitAndPush paths false) w' else w')
  | Raise exn w' => Raise exn w'
  end.

End UpdateConfigureRun.

(** ** [GettextAuthorComments] *)

Module GettextAuthorComments.

(** What [pre_commit] does to the store: nothing, a [ValueError] out of
    the unpacking of the split author, or [updatecontributor(name, email)]
    followed by [save()]. *)
Inductive outcome :=
  | Untouched
  | ValueError
  | Updated (name : string) (email : option string).

Definition pre_commit (author : string) : outcome :=
  if PyMore.str_in "noreply@weblate.org" author then Untouched
  else if Py.contains "<" author then
    match PyMore.split_on "<" author with
    | [name; email] =>
        Updated (Py.strip name) (Some (Py.rstrip_with (Ascii.eqb ">") email))
    | _ => ValueError
    end
  else Updated author None.

End GettextAuthorComments.

(** ** Shapes of documents and of input lists *)

Module Shape.
Import UpdateLinguasAddon.

(** No line of the document lists several codes. *)
Definition one_per_line (lines : list string) : Prop :=
  Forall (λ line, Py.contains " " (stripped_of line) = false) lines.

(** The codes the document names: what is left of its lines that are
    neither blank nor comments. *)
Definition named_codes (lines : list string) : list string :=
  filter (λ t, t ≠ "") (stripped_of <$> lines).

(** The characters [load_file_list] strips from the end of a line. *)
Definition trailing (a : ascii) : bool :=
  Ascii.eqb a Py.LF || Ascii.eqb a " " || Ascii.eqb a (ascii_of_nat 9)
  || Ascii.eqb a (ascii_of_nat 13).

(** Every character of the string satisfies [p]. *)
Fixpoint all_chars (p : ascii → bool) (s : string) : bool :=
  match s with
  | "" => true
  | String a s' => p a && all_chars p s'
  end.

(** How often the character occurs in the string. *)
Fixpoint count_char (c : ascii) (s : string) : nat :=
  match s with
  | "" => 0
  | String a s' => (if Ascii.eqb a c then 1 else 0) + count_char c s'
  end.

(** A keyword, flag or comment tag that fits on a line of its own: not
    empty and free of line boundaries. *)
Definition fits_on_line (s : string) : Prop :=
  s ≠ ""
  ∧ all_chars (λ a, negb (XGettextAddon.is_linebreak a)) s = true.

(** A string without line feed and carriage return. *)
Definition no_line_break (s : string) : Prop :=
  all_chars (λ a, negb (Ascii.eqb a Py.LF || Ascii.eqb a (ascii_of_nat 13))) s
  = true.

(** A line with its line feed at the end and no other line feed or
    carriage return. *)
Definition whole_line (line : string) : Prop :=
  ∃ body, line = body +:+ Py.nl ∧ no_line_break body.

(** The test for a whole line. *)
Fixpoint is_whole_line (s : string) : bool :=
  match s with
  | "" => false
  | String a "" => Ascii.eqb a Py.LF
  | String a s' =>
      negb (Ascii.eqb a Py.LF || Ascii.eqb a (ascii_of_nat 13))
      && is_whole_line s'
  end.

(** The lines of a file as a read gives them: whole lines, where the last
    line may lack its line feed. *)
Fixpoint as_read (lines : list string) : Prop :=
  match lines with
  | [] => True
  | line :: rest =>
      (whole_line line ∨ (rest = [] ∧ line ≠ "" ∧ no_line_break line))
      ∧ as_read rest
  end.

(** The last character of a string. *)
Fixpoint last_char (s : string) : option ascii :=
  match s with
  | "" => None
  | String a "" => Some a
  | String _ s' => last_char s'
  end.

End Shape.

(** ** More sample inputs *)

Module MoreSamples.

(** A LINGUAS file with a header, a blank line, a code to keep and a code
    to drop. *)
Definition linguas_lines : list string :=
  ["# header" +:+ Py.nl; Py.nl; "fr" +:+ Py.nl; "xx" +:+ Py.nl].

Definition linguas_tree : gmap string (list string) :=
  <["LINGUAS" := linguas_lines]> ∅.

(** A configure file that assigns no language list. *)
Definition plain_configure_tree : gmap string (list string) :=
  <["configure" := ["AC_INIT" +:+ Py.nl]]> ∅.

(** A component whose template lies in the directory [po]. *)
Definition nested_component : component :=
  Component "po/app.pot" (Some "po/app.pot") ∅ (λ _, [])
            (λ _, None) [] (λ _ _ _, None) None "".

(** An xgettext add-on configured with two keywords. *)
Definition keyword_addon : XGettextAddon.addon :=
  XGettextAddon.Addon
    (XGettextAddon.Configuration None None None None None None
       (Some (Py.join Py.nl ["_"; "N_"])) None)
    (λ _, false)
    (Some "template.pot") "template.pot"
    (λ dir, Py.path_join dir "tmpq3x8")
    (λ _, ToolOutcome true "" "" []).

End MoreSamples.

(** * Properties *)

(** An event is none of the events of a list that is given by its
    elements. *)
Ltac not_in_events :=
  lazymatch goal with
  | |- ?e ∈ ?l → False => change (e ∉ l)
  | |- _ => idtac
  end;
  unfold Regen.skip_log, Batch.skip_log;
  repeat (rewrite ?not_elem_of_app, ?not_elem_of_cons);
  repeat split; try done; try apply not_elem_of_nil.

(** ** Strings *)

Section MoreStringFacts.
Import UpdateLinguasAddon Linguas.

Lemma app_cons a (s t : string) : String a s +:+ t = String a (s +:+ t).
Proof. reflexivity. Qed.

Lemma app_empty_l (t : string) : "" +:+ t = t.
Proof. reflexivity. Qed.

Lemma app_eq_empty (s t : string) : s +:+ t = "" → s = "" ∧ t = "".
Proof. destruct s; [by rewrite app_empty_l|by rewrite app_cons]. Qed.

Lemma contains_plain_space s : plain s = true → Py.contains " " s = false.
Proof.
  induction s as [|a s IH]; [done|]. simpl.
  intros [[Ha _]%andb_prop Hs]%andb_prop. rewrite IH by done.
  rewrite orb_false_r. apply negb_true_iff in Ha.
  destruct (Ascii.eqb_spec a " ") as [->|]; [done|done].
Qed.

Lemma rstrip_app_keep p s t :
  Py.rstrip_with p t ≠ "" → Py.rstrip_with p (s +:+ t) = s +:+ Py.rstrip_with p t.
Proof.
  intros Ht. induction s as [|a s IH]; [done|]. rewrite !app_cons. simpl.
  rewrite IH. destruct (s +:+ Py.rstrip_with p t) eqn:E; [|done].
  by apply app_eq_empty in E as [_ ?].
Qed.

Lemma rstrip_app_drop p s t :
  Py.rstrip_with p t = "" → Py.rstrip_with p (s +:+ t) = Py.rstrip_with p s.
Proof.
  intros Ht. induction s as [|a s IH]; [done|]. rewrite !app_cons. simpl.
  by rewrite IH.
Qed.

Lemma rstrip_plain s : plain s = true → Py.rstrip_with Py.isspace s = s.
Proof.
  induction s as [|a s IH]; [done|]. simpl.
  intros [[Ha _]%andb_prop Hs]%andb_prop. rewrite IH by done.
  apply negb_true_iff in Ha. rewrite Ha. by destruct s.
Qed.

Lemma lstrip_head_keep a s :
  Py.isspace a = false → Py.lstrip_with Py.isspace (String a s) = String a s.
Proof. intros H. simpl. by rewrite H. Qed.

End MoreStringFacts.

Section TokenFacts.
Import UpdateLinguasAddon Linguas.

Lemma contains_app c s t :
  Py.contains c (s +:+ t) = Py.contains c s || Py.contains c t.
Proof.
  induction s as [|a s IH]; [done|]. rewrite app_cons. simpl.
  by rewrite IH, orb_assoc.
Qed.

Lemma split_head_app s t :
  Py.contains "#" s = false →
  Py.split_head "#" (s +:+ t) = s +:+ Py.split_head "#" t.
Proof.
  induction s as [|a s IH]; [done|]. rewrite !app_cons. simpl.
  intros [Ha Hs]%orb_false_elim. rewrite Ha. by rewrite IH.
Qed.

Lemma plain_no_hash s : plain s = true → Py.contains "#" s = false.
Proof.
  induction s as [|a s IH]; [done|]. simpl.
  intros [[_ Ha]%andb_prop Hs]%andb_prop. rewrite IH by done.
  apply negb_true_iff in Ha. by rewrite Ha.
Qed.

Lemma plain_tidy s : plain s = true → tidy s.
Proof.
  intros Hs. split; [by apply plain_no_hash|]. split; [|by apply rstrip_plain].
  destruct s as [|a s]; [done|]. simpl in *.
  apply andb_prop in Hs as [[Ha _]%andb_prop _]. by apply negb_true_iff.
Qed.

Lemma stripped_of_tidy s : tidy s → stripped_of (s +:+ Py.nl) = s.
Proof.
  intros (Hh & Hhd & Hr). unfold stripped_of, Py.strip.
  rewrite split_head_app by done.
  change (Py.split_head "#" Py.nl) with Py.nl.
  destruct s as [|a s]; [done|].
  rewrite app_cons, lstrip_head_keep by done. rewrite <- app_cons.
  by rewrite rstrip_app_drop.
Qed.

Lemma join_cons2 sep x y l :
  Py.join sep (x :: y :: l) = x +:+ sep +:+ Py.join sep (y :: l).
Proof. reflexivity. Qed.

Lemma join_ne_empty l : Forall code_ok l → l ≠ [] → Py.join " " l ≠ "".
Proof.
  intros Hl Hne. destruct Hl as [|x l [Hx _] Hl]; [done|].
  destruct l as [|y l]; [done|]. rewrite join_cons2.
  intros [? _]%app_eq_empty. done.
Qed.

Lemma join_tidy l : Forall code_ok l → tidy (Py.join " " l).
Proof.
  induction 1 as [|x l [Hx Hp] Hl IH]; [done|].
  destruct l as [|y l]; [by apply plain_tidy|].
  rewrite join_cons2. destruct IH as (Ih & _ & Ir).
  destruct (plain_tidy x Hp) as (Xh & Xd & _).
  split; [|split].
  - rewrite !contains_app, Xh, Ih. done.
  - destruct x; [done|]. by rewrite app_cons.
  - rewrite !rstrip_app_keep; rewrite ?Ir; try done.
    + by apply join_ne_empty.
    + rewrite rstrip_app_keep; rewrite Ir; [|by apply join_ne_empty].
      intros [? _]%app_eq_empty. done.
Qed.

Lemma sorted_perm l : Py.sorted l ≡ₚ l.
Proof. apply merge_sort_Permutation. Qed.

Lemma expected_line_tidy codes :
  Forall code_ok codes → tidy (expected_line codes).
Proof. intros H. apply join_tidy. by rewrite sorted_perm. Qed.

Lemma expected_line_perm l1 l2 :
  l1 ≡ₚ l2 → expected_line l1 = expected_line l2.
Proof.
  intros H. unfold expected_line, Py.sorted. f_equal.
  apply (Sorted_unique String.le).
  - apply Sorted_merge_sort, _.
  - apply Sorted_merge_sort, _.
  - by rewrite !merge_sort_Permutation.
Qed.

End TokenFacts.

(** ** [update_linguas] is [walk] *)

Section ScanWalk.
Import UpdateLinguasAddon Linguas.

Lemma delete_all_nil lines : delete_all [] lines = lines.
Proof. reflexivity. Qed.

Lemma delete_all_cons i remove lines :
  delete_all (i :: remove) lines = delete i (delete_all remove lines).
Proof. unfold delete_all. by rewrite reverse_cons, foldl_snoc. Qed.

Lemma walk_length lines codes :
  length (walk lines codes).1.1 ≤ length lines.
Proof.
  revert codes. induction lines as [|line rest IH]; intros codes; simpl; [done|].
  destruct (String.eqb _ ""); [|destruct (Py.contains _ _)].
  - specialize (IH codes). destruct (walk rest codes) as [[??]?]. simpl in *. lia.
  - destruct (negb _); simpl; lia.
  - destruct (bool_decide _).
    + specialize (IH (set_remove (stripped_of line) codes)).
      destruct (walk rest _) as [[??]?]. simpl in *. lia.
    + specialize (IH codes). lia.
Qed.

Lemma scan_walk lines : ∀ pre codes remove changed,
  let st := scan (Py.enumerate_from (length pre) lines)
                 (LoopState (pre ++ lines) codes remove changed) in
  ∃ lines' removed,
    ls_lines st = pre ++ lines'
    ∧ ls_codes st = (walk lines codes).1.2
    ∧ ls_remove st = remove ++ removed
    ∧ ls_changed st = changed || (walk lines codes).2
    ∧ delete_all removed (pre ++ lines') = pre ++ (walk lines codes).1.1
    ∧ length (walk lines codes).1.1 + length removed = length lines.
Proof.
  induction lines as [|line rest IH]; intros pre codes remove changed; simpl.
  { exists [], []. rewrite !app_nil_r, orb_false_r. done. }
  assert (Hshift : ∀ st,
    scan (Py.enumerate_from (S (length pre)) rest) st
    = scan (Py.enumerate_from (length (pre ++ [line])) rest) st).
  { intros st. by rewrite length_app, Nat.add_1_r. }
  assert (Hmid : pre ++ line :: rest = (pre ++ [line]) ++ rest).
  { by rewrite <- app_assoc. }
  destruct (String.eqb (stripped_of line) "") eqn:Hblank;
    [|destruct (Py.contains " " (stripped_of line)) eqn:Hsp].
  - rewrite Hshift, Hmid.
    destruct (IH (pre ++ [line]) codes remove changed)
      as (lines' & removed & H1 & H2 & H3 & H4 & H5 & H6).
    destruct (walk rest codes) as [[kept codes'] rewritten]. simpl in *.
    exists (line :: lines'), removed.
    rewrite H1, H2, H3, H4, <- !app_assoc in *. simpl in *.
    repeat split; try done. lia.
  - destruct (negb (String.eqb _ _)) eqn:Hne; simpl.
    + exists ((expected_line codes +:+ Py.nl) :: rest), [].
      rewrite delete_all_nil, app_nil_r, orb_true_r, Nat.add_0_r.
      repeat split; try done.
      rewrite insert_app_r_alt by done. by rewrite Nat.sub_diag.
    + exists (line :: rest), [].
      rewrite delete_all_nil, app_nil_r, orb_false_r, Nat.add_0_r. done.
  - destruct (bool_decide _) eqn:Hin.
    + rewrite Hshift, Hmid.
      destruct (IH (pre ++ [line]) (set_remove (stripped_of line) codes)
                   remove changed)
        as (lines' & removed & H1 & H2 & H3 & H4 & H5 & H6).
      destruct (walk rest _) as [[kept codes'] rewritten]. simpl in *.
      exists (line :: lines'), removed.
      rewrite H1, H2, H3, H4, <- !app_assoc in *. simpl in *.
      repeat split; try done. lia.
    + rewrite Hshift, Hmid.
      destruct (IH (pre ++ [line]) codes (remove ++ [length pre]) changed)
        as (lines' & removed & H1 & H2 & H3 & H4 & H5 & H6).
      exists (line :: lines'), (length pre :: removed).
      rewrite H1, H2, H3, H4, <- !app_assoc. simpl.
      repeat split; try done.
      * rewrite delete_all_cons.
        replace (pre ++ line :: lines') with ((pre ++ [line]) ++ lines')
          by (by rewrite <- app_assoc).
        rewrite H5, <- app_assoc. simpl. apply delete_middle.
      * lia.
Qed.

Lemma update_linguas_walk lines codes :
  update_linguas lines codes = walk_result lines codes.
Proof.
  unfold update_linguas, walk_result.
  destruct (scan_walk lines [] codes [] false)
    as (lines' & removed & H1 & H2 & H3 & H4 & H5 & H6).
  simpl in *. fold (@Py.enumerate string lines) in *.
  rewrite H1, H2, H3, H4. clear H1 H2 H3 H4.
  destruct (walk lines codes) as [[kept codes'] rewritten]. simpl in *.
  destruct removed as [|i removed].
  - rewrite delete_all_nil in H5. subst lines'.
    rewrite Nat.add_0_r in H6. rewrite H6, Nat.eqb_refl. simpl.
    rewrite orb_false_r. destruct codes'; [|by rewrite orb_true_r].
    by rewrite app_nil_r, orb_false_r.
  - rewrite H5. simpl in H6.
    assert ((length kept =? length lines) = false) as ->
      by (apply Nat.eqb_neq; lia).
    simpl. rewrite orb_true_r. simpl.
    destruct codes'; [by rewrite app_nil_r|done].
Qed.

End ScanWalk.

(** ** What [walk] keeps, drops and rewrites *)

Section WalkFacts.
Import UpdateLinguasAddon Linguas.

Lemma set_remove_subseteq x codes : set_remove x codes ⊆ codes.
Proof. intros c [_ ?]%list_elem_of_filter. done. Qed.

Lemma set_remove_Forall (P : string → Prop) x codes :
  Forall P codes → Forall P (set_remove x codes).
Proof.
  rewrite !Forall_forall. intros H c Hc.
  by apply H, (set_remove_subseteq x).
Qed.

Lemma set_remove_not_in x codes : x ∉ set_remove x codes.
Proof. intros [? _]%list_elem_of_filter. done. Qed.

Lemma set_remove_absent x codes : x ∉ codes → set_remove x codes = codes.
Proof.
  induction codes as [|c codes IH]; [done|]. intros Hx.
  apply not_elem_of_cons in Hx as [Hne Hx]. unfold set_remove in *.
  rewrite filter_cons_True by done. by rewrite IH.
Qed.

Lemma set_remove_perm x l1 l2 :
  l1 ≡ₚ l2 → set_remove x l1 ≡ₚ set_remove x l2.
Proof. intros H. unfold set_remove. by rewrite H. Qed.

Lemma walk_codes_subseteq lines : ∀ codes, (walk lines codes).1.2 ⊆ codes.
Proof.
  induction lines as [|line rest IH]; intros codes; simpl; [done|].
  destruct (String.eqb _ ""); [|destruct (Py.contains _ _)].
  - specialize (IH codes). by destruct (walk rest codes) as [[??]?].
  - destruct (negb _); simpl; apply list_subseteq_nil.
  - destruct (bool_decide _).
    + specialize (IH (set_remove (stripped_of line) codes)).
      destruct (walk rest _) as [[??]?]. simpl in *.
      etrans; [done|apply set_remove_subseteq].
    + apply IH.
Qed.

(** A code still to be added names no line of the document. *)
Lemma walk_missing lines : ∀ codes c line,
  c ∈ (walk lines codes).1.2 → c ≠ "" → line ∈ lines → stripped_of line ≠ c.
Proof.
  induction lines as [|l rest IH]; intros codes c line; simpl.
  { intros _ _ H. by apply elem_of_nil in H. }
  destruct (String.eqb _ "") eqn:Hb; [|destruct (Py.contains _ _)].
  - specialize (IH codes c line).
    destruct (walk rest codes) as [[??]?]. simpl in *.
    intros Hc Hne [->|Hin]%elem_of_cons; [|by apply IH].
    apply String.eqb_eq in Hb. congruence.
  - destruct (negb _); simpl; intros H; by apply elem_of_nil in H.
  - destruct (bool_decide _) eqn:Hin.
    + pose proof (walk_codes_subseteq rest (set_remove (stripped_of l) codes)) as Hsub.
      specialize (IH (set_remove (stripped_of l) codes) c line).
      destruct (walk rest _) as [[??]?]. simpl in *.
      intros Hc Hne [->|Hl]%elem_of_cons; [|by apply IH].
      intros <-. by apply Hsub, set_remove_not_in in Hc.
    + apply bool_decide_eq_false in Hin.
      intros Hc Hne [->|Hl]%elem_of_cons; [|by eapply IH].
      intros <-. by apply walk_codes_subseteq in Hc.
Qed.

Lemma walk_same lines : ∀ codes,
  (walk lines codes).2 = false →
  length (walk lines codes).1.1 = length lines →
  (walk lines codes).1.1 = lines.
Proof.
  induction lines as [|l rest IH]; intros codes; simpl; [done|].
  destruct (String.eqb _ "") eqn:Hb; [|destruct (Py.contains _ _)].
  - specialize (IH codes). destruct (walk rest codes) as [[??]?]. simpl in *.
    intros ? [=]. f_equal. by apply IH.
  - by destruct (negb _).
  - destruct (bool_decide _).
    + specialize (IH (set_remove (stripped_of l) codes)).
      destruct (walk rest _) as [[??]?]. simpl in *.
      intros ? [=]. f_equal. by apply IH.
    + pose proof (walk_length rest codes). lia.
Qed.

Lemma walk_rewritten lines : ∀ codes,
  Forall code_ok codes →
  (walk lines codes).2 = true → (walk lines codes).1.1 ≠ lines.
Proof.
  induction lines as [|l rest IH]; intros codes Hok; simpl; [done|].
  destruct (String.eqb _ "") eqn:Hb; [|destruct (Py.contains _ _)].
  - specialize (IH codes Hok). destruct (walk rest codes) as [[??]?]. simpl in *.
    intros ? [=]. by apply IH.
  - destruct (negb _) eqn:Hne; simpl; [|done]. intros _ [= Hl].
    apply negb_true_iff, String.eqb_neq in Hne. apply Hne.
    rewrite <- Hl. by apply stripped_of_tidy, expected_line_tidy.
  - destruct (bool_decide _).
    + assert (Forall code_ok (set_remove (stripped_of l) codes)) as Hok'.
      { by apply set_remove_Forall. }
      specialize (IH _ Hok'). destruct (walk rest _) as [[??]?]. simpl in *.
      intros ? [=]. by apply IH.
    + intros _ Heq. pose proof (walk_length rest codes) as Hlen.
      rewrite Heq in Hlen. simpl in Hlen. lia.
Qed.

Lemma walk_blank lines codes :
  Forall blank lines → walk lines codes = (lines, codes, false).
Proof.
  induction 1 as [|l rest Hl _ IH]; simpl; [done|].
  rewrite Hl. simpl. by rewrite IH.
Qed.

Lemma stripped_of_code c :
  code_ok c →
  stripped_of (c +:+ Py.nl) = c
  ∧ String.eqb c "" = false ∧ Py.contains " " c = false.
Proof.
  intros [Hne Hp]. split; [by apply stripped_of_tidy, plain_tidy|].
  split; [by apply String.eqb_neq|by apply contains_plain_space].
Qed.

(** Lines that were appended for missing codes are found again. *)
Lemma walk_appended cs : ∀ codes2,
  Forall code_ok cs → NoDup cs → codes2 ≡ₚ cs →
  walk ((λ code, code +:+ Py.nl) <$> cs) codes2
  = ((λ code, code +:+ Py.nl) <$> cs, [], false).
Proof.
  induction cs as [|c cs IH]; intros codes2 Hok Hnd Hperm; simpl.
  { by apply Permutation_nil_r in Hperm as ->. }
  apply Forall_cons in Hok as [Hc Hok]. apply NoDup_cons in Hnd as [Hnin Hnd].
  destruct (stripped_of_code c Hc) as (-> & -> & ->).
  rewrite bool_decide_eq_true_2 by (rewrite Hperm; left).
  rewrite IH; [done..|].
  rewrite (set_remove_perm _ _ _ Hperm).
  assert (set_remove c (c :: cs) = cs) as ->; [|done].
  unfold set_remove. rewrite filter_cons_False by naive_solver.
  by apply set_remove_absent.
Qed.

End WalkFacts.

(** ** A second run finds nothing to do *)

Section SecondRun.
Import UpdateLinguasAddon Linguas.

Local Abbreviation with_nl := (fmap (M:=list) (λ code, code +:+ Py.nl)).

Lemma join_space x y l : Py.contains " " (Py.join " " (x :: y :: l)) = true.
Proof.
  rewrite join_cons2, !contains_app. change (Py.contains " " " ") with true.
  by rewrite orb_true_r.
Qed.

Lemma walk_result_snd lines codes :
  (walk_result lines codes).2
  = (walk lines codes).1.1 ++ with_nl (walk lines codes).1.2.
Proof. unfold walk_result. by destruct (walk lines codes) as [[??]?]. Qed.

Lemma walk_result_fst lines codes :
  (walk_result lines codes).1
  = (walk lines codes).2
    || negb (length (walk lines codes).1.1 =? length lines)
    || negb (bool_decide ((walk lines codes).1.2 = [])).
Proof. unfold walk_result. by destruct (walk lines codes) as [[??]?]. Qed.

(** The rewritten one-line record is read back as it was written. *)
Lemma walk_record_again codes codes2 rest :
  Forall code_ok codes → codes2 ≡ₚ codes → Forall blank rest →
  walk ((expected_line codes +:+ Py.nl) :: rest) codes2
  = ((expected_line codes +:+ Py.nl) :: rest, [], false).
Proof.
  intros Hok Hperm Hrest. simpl.
  rewrite (stripped_of_tidy _ (expected_line_tidy _ Hok)).
  rewrite (expected_line_perm _ _ Hperm), String.eqb_refl. simpl.
  assert (Hs : Py.sorted codes ≡ₚ codes) by apply sorted_perm.
  assert (Hoks : Forall code_ok (Py.sorted codes)) by (by rewrite Hs).
  unfold expected_line in *.
  destruct (Py.sorted codes) as [|c [|c' l]] eqn:E.
  - symmetry in Hs. apply Permutation_nil_r in Hs. subst codes.
    apply Permutation_nil_r in Hperm as ->. simpl.
    by rewrite walk_blank.
  - symmetry in Hs. apply Permutation_singleton_r in Hs. subst codes.
    apply Permutation_singleton_r in Hperm as ->.
    apply Forall_cons in Hoks as [Hc _].
    destruct (stripped_of_code c Hc) as (_ & Hne & Hsp).
    change (Py.join " " [c]) with c. rewrite Hne, Hsp.
    rewrite bool_decide_eq_true_2 by left.
    rewrite walk_blank by done.
    unfold set_remove. by rewrite filter_cons_False by naive_solver.
  - rewrite join_space.
    destruct (String.eqb _ "") eqn:Hb; [|done].
    apply String.eqb_eq in Hb. by apply join_ne_empty in Hb.
Qed.

Lemma walk_settled lines : ∀ codes codes2,
  Forall code_ok codes → NoDup codes → codes2 ≡ₚ codes →
  record_last lines →
  walk ((walk lines codes).1.1 ++ with_nl (walk lines codes).1.2) codes2
  = ((walk lines codes).1.1 ++ with_nl (walk lines codes).1.2, [], false).
Proof.
  induction lines as [|l rest IH]; intros codes codes2 Hok Hnd Hperm Hshape.
  { simpl. by apply walk_appended. }
  simpl in Hshape |- *.
  destruct (String.eqb (stripped_of l) "") eqn:Hb;
    [|destruct (Py.contains " " (stripped_of l)) eqn:Hsp].
  - assert (Py.contains " " (stripped_of l) = false) as Hsp.
    { apply String.eqb_eq in Hb. by rewrite Hb. }
    rewrite Hsp in Hshape.
    specialize (IH codes codes2 Hok Hnd Hperm Hshape).
    destruct (walk rest codes) as [[kept codes'] rw]. simpl in *.
    by rewrite Hb, IH.
  - destruct (negb (String.eqb _ _)) eqn:Hne; simpl.
    + rewrite app_nil_r. by apply walk_record_again.
    + apply negb_false_iff in Hne.
      rewrite Hb, Hsp, (expected_line_perm _ _ Hperm), Hne. simpl.
      by rewrite app_nil_r.
  - destruct (bool_decide (stripped_of l ∈ codes)) eqn:Hin.
    + assert (Forall code_ok (set_remove (stripped_of l) codes)) as Hok'
        by (by apply set_remove_Forall).
      assert (NoDup (set_remove (stripped_of l) codes)) as Hnd'
        by (by apply NoDup_filter).
      specialize (IH _ (set_remove (stripped_of l) codes2) Hok' Hnd'
                     (set_remove_perm _ _ _ Hperm) Hshape).
      destruct (walk rest _) as [[kept codes'] rw]. simpl in *.
      rewrite Hb, Hsp. apply bool_decide_eq_true in Hin.
      rewrite bool_decide_eq_true_2 by (by rewrite Hperm).
      by rewrite IH.
    + by apply IH.
Qed.

End SecondRun.

(** ** The configure editor *)

Section ConfigureFacts.
Import UpdateConfigureAddon Configure.

Lemma configure_scan expected lines : ∀ pre added,
  scan expected (Py.enumerate_from (length pre) lines) (pre ++ lines) added
  = (pre ++ (edit expected <$> lines),
     added || file_needs_change expected lines).
Proof.
  induction lines as [|l rest IH]; intros pre added; simpl.
  { by rewrite orb_false_r. }
  assert (Hstep : ∀ x added',
    scan expected (Py.enumerate_from (S (length pre)) rest)
         (pre ++ x :: rest) added'
    = (pre ++ x :: (edit expected <$> rest),
       added' || file_needs_change expected rest)).
  { intros x added'. specialize (IH (pre ++ [x]) added').
    rewrite length_app, Nat.add_1_r, <- !app_assoc in IH. done. }
  unfold edit, needs_change.
  destruct (Py.startswith (Py.strip l) "#"); simpl; [by rewrite Hstep|].
  destruct (Py.startswith (Py.strip l) key_prefix); simpl; [|by rewrite Hstep].
  destruct (String.eqb l expected); simpl; [by rewrite Hstep|].
  rewrite insert_app_r_alt, Nat.sub_diag by done. simpl.
  by rewrite Hstep, orb_true_r.
Qed.

Lemma configure_scan_file expected lines added :
  scan expected (Py.enumerate lines) lines added
  = (edit expected <$> lines, added || file_needs_change expected lines).
Proof. apply (configure_scan expected lines []). Qed.

Lemma edit_id expected lines :
  file_needs_change expected lines = false → edit expected <$> lines = lines.
Proof.
  induction lines as [|l rest IH]; [done|].
  intros H. simpl in H. apply orb_false_elim in H as [Hl Hrest].
  rewrite fmap_cons. unfold edit at 1. rewrite Hl. f_equal. by apply IH.
Qed.

Lemma edit_changes expected lines :
  file_needs_change expected lines = true → edit expected <$> lines ≠ lines.
Proof.
  induction lines as [|l rest IH]; [done|].
  intros Hn. simpl in Hn. rewrite fmap_cons. intros [= Hl Hrest].
  unfold edit in Hl. destruct (needs_change expected l) eqn:E.
  - unfold needs_change in E. apply andb_prop in E as [_ E].
    apply negb_true_iff, String.eqb_neq in E. congruence.
  - by apply IH.
Qed.

Lemma needs_change_edit expected l :
  needs_change expected (edit expected l) = false.
Proof.
  unfold edit. destruct (needs_change expected l) eqn:E; [|done].
  unfold needs_change. by rewrite String.eqb_refl, andb_false_r.
Qed.

Lemma edit_settled expected lines :
  file_needs_change expected (edit expected <$> lines) = false.
Proof.
  induction lines as [|l rest IH]; [done|]. rewrite fmap_cons. simpl.
  by rewrite needs_change_edit.
Qed.

End ConfigureFacts.

Section SyncPaths.
Import UpdateConfigureAddon Configure.

Lemma all_exist_insert fs p lines paths :
  all_exist fs paths → all_exist (<[p := lines]> fs) paths.
Proof.
  unfold all_exist. intros H. eapply Forall_impl; [exact H|].
  intros q Hq. simpl in *. rewrite lookup_insert_is_Some.
  destruct (decide (p = q)); auto.
Qed.

Lemma edit_idem expected (lines : list string) :
  edit expected <$> (edit expected <$> lines) = edit expected <$> lines.
Proof. apply edit_id, edit_settled. Qed.

Lemma read_insert fs p lines : read (<[p := lines]> fs) p = lines.
Proof. unfold read. by rewrite lookup_insert_eq. Qed.

Lemma read_insert_ne fs p q lines :
  p ≠ q → read (<[p := lines]> fs) q = read fs q.
Proof. intros. unfold read. by rewrite lookup_insert_ne. Qed.

Lemma written_paths_true expected fs paths :
  written_paths expected fs true paths = paths.
Proof. induction paths as [|p rest IH]; [done|]. simpl. by rewrite IH. Qed.

(** Once the flag is set, every remaining file is written. *)
Lemma sync_paths_true expected paths : ∀ w,
  all_exist (w_fs w) paths →
  ∃ w', sync_paths expected paths true w = Ok true w'
    ∧ w_alerts w' = w_alerts w
    ∧ w_trace w' = w_trace w ++ (OpenWrite <$> paths)
    ∧ ∀ q, w_fs w' !! q
           = if decide (q ∈ paths)
             then Some (edit expected <$> read (w_fs w) q)
             else w_fs w !! q.
Proof.
  induction paths as [|p rest IH]; intros w Hex.
  { exists w. rewrite fmap_nil, app_nil_r.
    by repeat split. }
  unfold all_exist in Hex. apply Forall_cons in Hex as [[lines Hp] Hex].
  fold (all_exist (w_fs w) rest) in Hex. cbn [sync_paths]. rewrite Hp.
  rewrite configure_scan_file. cbn [orb].
  destruct (IH (write_lines p (edit expected <$> lines) w))
    as (w' & -> & Ha & Ht & Hfs).
  { by apply all_exist_insert. }
  exists w'. split; [done|]. split; [done|]. split.
  { rewrite Ht, fmap_cons. cbn [write_lines emit w_trace].
    by rewrite <- app_assoc. }
  intros q. rewrite Hfs. cbn [write_lines emit w_fs].
  destruct (decide (q = p)) as [->|Hne].
  - rewrite read_insert, edit_idem, lookup_insert_eq.
    rewrite (decide_True (P := p ∈ p :: rest)) by left.
    unfold read. rewrite Hp. by destruct (decide _).
  - rewrite read_insert_ne, lookup_insert_ne by done.
    destruct (decide (q ∈ rest)), (decide (q ∈ p :: rest)) as [Hin|Hnin];
      try done.
    + exfalso. apply Hnin. by right.
    + apply elem_of_cons in Hin as [?|?]; done.
Qed.

Lemma sync_paths_false expected paths : ∀ w,
  all_exist (w_fs w) paths →
  ∃ added w', sync_paths expected paths false w = Ok added w'
    ∧ w_alerts w' = w_alerts w
    ∧ w_trace w'
      = w_trace w ++ (OpenWrite <$> written_paths expected (w_fs w) false paths)
    ∧ added = existsb (λ p, file_needs_change expected (read (w_fs w) p)) paths
    ∧ ∀ q, w_fs w' !! q
           = if decide (q ∈ written_paths expected (w_fs w) false paths)
             then Some (edit expected <$> read (w_fs w) q)
             else w_fs w !! q.
Proof.
  induction paths as [|p rest IH]; intros w Hex.
  { exists false, w. cbn [written_paths]. rewrite fmap_nil, app_nil_r.
    by repeat split. }
  unfold all_exist in Hex. apply Forall_cons in Hex as [[lines Hp] Hex].
  fold (all_exist (w_fs w) rest) in Hex.
  cbn [sync_paths written_paths existsb]. rewrite Hp.
  rewrite configure_scan_file. cbn [orb].
  assert (read (w_fs w) p = lines) as Hread by (unfold read; by rewrite Hp).
  rewrite Hread.
  destruct (file_needs_change expected lines) eqn:Hn; cbn [orb].
  - destruct (sync_paths_true expected rest
                (write_lines p (edit expected <$> lines) w))
      as (w' & -> & Ha & Ht & Hfs).
    { by apply all_exist_insert. }
    exists true, w'. split; [done|]. split; [done|].
    rewrite written_paths_true. split.
    { rewrite Ht, fmap_app, fmap_cons. cbn [write_lines emit w_trace].
      by rewrite <- !app_assoc. }
    split; [done|]. intros q. rewrite Hfs. cbn [write_lines emit w_fs app].
    destruct (decide (q = p)) as [->|Hne].
    + rewrite read_insert, edit_idem, lookup_insert_eq, Hread.
      rewrite (decide_True (P := p ∈ p :: rest)) by left.
      by destruct (decide _).
    + rewrite read_insert_ne, lookup_insert_ne by done.
      destruct (decide (q ∈ rest)), (decide (q ∈ p :: rest)) as [Hin|Hnin];
        try done.
      * exfalso. apply Hnin. by right.
      * apply elem_of_cons in Hin as [?|?]; done.
  - destruct (IH w Hex) as (added & w' & -> & Ha & Ht & Hadd & Hfs).
    by exists added, w'.
Qed.

Lemma written_paths_needing expected fs p paths : ∀ added,
  p ∈ paths → file_needs_change expected (read fs p) = true →
  p ∈ written_paths expected fs added paths.
Proof.
  induction paths as [|q rest IH]; intros added Hin Hn.
  { by apply elem_of_nil in Hin. }
  simpl. apply elem_of_cons in Hin as [<-|Hin].
  - rewrite Hn, orb_true_r. left.
  - apply elem_of_app. right. by apply IH.
Qed.

Lemma written_paths_subseteq expected fs paths : ∀ added p,
  p ∈ written_paths expected fs added paths → p ∈ paths.
Proof.
  induction paths as [|q rest IH]; intros added p; [done|]. cbn [written_paths].
  intros [Hin|Hin]%elem_of_app.
  - destruct (added || _); [|by apply elem_of_nil in Hin].
    apply list_elem_of_singleton in Hin as ->. left.
  - right. by eapply IH.
Qed.

Lemma written_paths_none expected fs paths :
  existsb (λ p, file_needs_change expected (read fs p)) paths = false →
  written_paths expected fs false paths = [].
Proof.
  induction paths as [|q rest IH]; [done|]. simpl.
  intros [-> Hrest]%orb_false_elim. simpl. by apply IH.
Qed.

End SyncPaths.

(** ** The POT comparison *)

Section PotFacts.
Import XGettextAddon Pot.

Lemma startswith_app s p :
  Py.startswith s p = true ↔ ∃ rest, s = p +:+ rest.
Proof.
  unfold Py.startswith. revert s.
  induction p as [|a p IH]; intros s.
  { split; [intros _; by exists s|intros _; by destruct s]. }
  destruct s as [|b s]; simpl.
  { split; [done|]. intros [rest H]. by rewrite app_cons in H. }
  destruct (ascii_dec a b) as [->|Hne].
  - rewrite IH. split; intros [rest H]; exists rest.
    + by rewrite app_cons, H.
    + rewrite app_cons in H. congruence.
  - split; [done|]. intros [rest H]. rewrite app_cons in H. congruence.
Qed.

Lemma endswith_app s p :
  Py.endswith s p = true ↔ ∃ front, s = front +:+ p.
Proof.
  induction s as [|a s IH].
  - change (Py.endswith "" p) with (String.eqb "" p || false).
    rewrite orb_false_r, String.eqb_eq. split.
    + intros <-. by exists "".
    + intros [front H]. symmetry in H. by apply app_eq_empty in H as [_ ->].
  - change (Py.endswith (String a s) p)
      with (String.eqb (String a s) p || Py.endswith s p).
    rewrite orb_true_iff, IH, String.eqb_eq. split.
    + intros [<-|[front ->]]; [by exists ""|by exists (String a front)].
    + intros [[|b front] H]; [by left|right].
      rewrite app_cons in H. injection H as -> ->. by exists front.
Qed.

Lemma is_pot_creation_date_spec line :
  is_pot_creation_date line = true ↔ creation_date_line line.
Proof.
  unfold creation_date_line. destruct line as [text|]; simpl.
  - rewrite andb_true_iff, startswith_app, endswith_app. split.
    + intros [??]. by exists text.
    + intros (? & [= <-] & ? & ?). done.
  - split; [done|]. by intros (? & ? & _).
Qed.

Lemma zip_longest_nil_l (l2 : list string) :
  zip_longest (A:=string) [] l2 = (λ y, (None, Some y)) <$> l2.
Proof. by destruct l2. Qed.

Lemma zip_longest_lookup (l1 l2 : list string) i :
  zip_longest l1 l2 !! i
  = if decide (i < length l1 `max` length l2)
    then Some (l1 !! i, l2 !! i) else None.
Proof.
  revert l2 i. induction l1 as [|x l1 IH]; intros l2 i.
  - rewrite zip_longest_nil_l, list_lookup_fmap. simpl.
    destruct (l2 !! i) as [y|] eqn:E; simpl.
    + apply lookup_lt_Some in E. by rewrite decide_True by lia.
    + apply lookup_ge_None in E. by rewrite decide_False by lia.
  - destruct l2 as [|y l2]; destruct i as [|i]; simpl; try done.
    + rewrite IH. simpl. rewrite Nat.max_0_r.
      destruct (decide (i < length l1)), (decide (S i < S (length l1)));
        try done; lia.
    + rewrite IH.
      destruct (decide (i < length l1 `max` length l2)),
               (decide (S i < S (length l1 `max` length l2)));
        try done; lia.
Qed.


Lemma same_pairs_spec pairs :
  same_pairs pairs = true
  ↔ ∀ i a b, pairs !! i = Some (a, b) →
      a = b ∨ (creation_date_line a ∧ creation_date_line b).
Proof.
  induction pairs as [|[a b] rest IH]; simpl.
  { split; [|done]. intros _ i a b H. by rewrite lookup_nil in H. }
  assert (Hstep : same_pairs rest = true
                  ∧ (a = b ∨ (creation_date_line a ∧ creation_date_line b))
                  ↔ ∀ i a' b', ((a, b) :: rest) !! i = Some (a', b') →
                      a' = b' ∨ (creation_date_line a' ∧ creation_date_line b')).
  { rewrite IH. split.
    - intros [Hrest Hhd] [|i] a' b' H; simpl in H; [by injection H as <- <-|].
      by eapply Hrest.
    - intros H. split; [|by apply (H 0)]. intros i a' b' Hi.
      by apply (H (S i)). }
  rewrite <- Hstep. clear Hstep IH.
  destruct (bool_decide (a = b)) eqn:Hab; simpl.
  - apply bool_decide_eq_true in Hab. tauto.
  - apply bool_decide_eq_false in Hab.
    rewrite <- !is_pot_creation_date_spec.
    destruct (is_pot_creation_date a), (is_pot_creation_date b); simpl;
      intuition congruence.
Qed.

End PotFacts.

(** ** Traces *)

Section TraceFacts.

Lemma events_since_app w w' evs :
  w_trace w' = w_trace w ++ evs → events_since w w' = evs.
Proof. unfold events_since. intros ->. by rewrite drop_app_length. Qed.

End TraceFacts.

(** ** The merge batch *)

Section BatchFacts.
Import MsgmergeAddon Batch.

Lemma eligible_fs w1 w t : w_fs w1 = w_fs w → eligible w1 t = eligible w t.
Proof. intros H. unfold eligible, path_exists. by rewrite H. Qed.

Lemma failures_fs c template args w1 w (ts : list translation) :
  w_fs w1 = w_fs w →
  omap (failure c template args w1) ts = omap (failure c template args w) ts.
Proof.
  intros H. induction ts as [|t rest IH]; [done|]. cbn [omap list_omap].
  assert (failure c template args w1 t = failure c template args w t) as ->.
  { unfold failure. by rewrite (eligible_fs w1 w t H). }
  by rewrite IH.
Qed.

Lemma eligible_filter_fs w1 w (ts : list translation) :
  w_fs w1 = w_fs w →
  filter (λ t, eligible w1 t = true) ts = filter (λ t, eligible w t = true) ts.
Proof.
  intros H. apply list_filter_iff. intros t. by rewrite (eligible_fs w1 w t H).
Qed.

Lemma merge_all_spec c template args ts : ∀ w,
  w_fs (merge_all c template args ts w) = w_fs w
  ∧ w_alerts (merge_all c template args ts w)
    = w_alerts w ++ omap (failure c template args w) ts
  ∧ ∃ evs, w_trace (merge_all c template args ts w) = w_trace w ++ evs
      ∧ attempted evs
        = (λ t, default "" (get_filename t)) <$> filter (λ t, eligible w t = true) ts
      ∧ Forall (λ e, ∀ format, e = LogInfo format →
                       format = "%s addon failed: %s") evs.
Proof.
  induction ts as [|t rest IH]; intros w.
  { simpl. rewrite !app_nil_r. split; [done|]. split; [done|].
    exists []. by rewrite app_nil_r. }
  cbn [merge_all omap list_omap].
  pose proof (λ w1 H, eligible_fs w1 w H) as Hel.
  pose proof (λ w1 H, failures_fs c template args w1 w rest H) as Hfl.
  pose proof (λ w1 H, eligible_filter_fs w1 w rest H) as Hft.
  unfold failure at 1. fold (eligible w t).
  destruct (eligible w t) eqn:Het.
  - unfold eligible in Het. apply negb_true_iff in Het. rewrite Het.
    fold (eligible w t) in *.
    rewrite filter_cons_True by (by unfold eligible; rewrite Het).
    destruct (update_bilingual c _ template args) as [error|] eqn:Hub; simpl.
    + set (w2 := log_info _ _).
      destruct (IH w2) as (Hfs & Hal & evs & Htr & Hat & Hlog).
      rewrite Hfs, Hal, Htr, (Hfl w2) by done.
      split; [done|].
      split; [subst w2; simpl; by rewrite <- app_assoc|].
      eexists (UpdateBilingual _ template args :: LogInfo _ :: evs).
      split; [subst w2; simpl; by rewrite <- !app_assoc|].
      split.
      * cbn [attempted omap list_omap]. fold (attempted evs).
        by rewrite Hat, (Hft w2).
      * repeat constructor; try done; by intros ? [= <-].
    + set (w1 := emit _ _).
      destruct (IH w1) as (Hfs & Hal & evs & Htr & Hat & Hlog).
      rewrite Hfs, Hal, Htr, (Hfl w1) by done.
      split; [done|]. split; [done|].
      eexists (UpdateBilingual _ template args :: evs).
      split; [subst w1; simpl; by rewrite <- !app_assoc|].
      split.
      * cbn [attempted omap list_omap]. fold (attempted evs).
        by rewrite Hat, (Hft w1).
      * constructor; [done|done].
  - unfold eligible in Het. apply negb_false_iff in Het. rewrite Het.
    fold (eligible w t) in *.
    rewrite filter_cons_False
      by (unfold eligible; rewrite Het; simpl; congruence).
    apply IH.
Qed.

End BatchFacts.

(** ** The stages of the POT regeneration *)

Section RegenFacts.
Import XGettextAddon Regen.


End RegenFacts.

Section PostUpdateFacts.
Import XGettextAddon Regen.
Variable cleanup_path : string → string.






End PostUpdateFacts.

(** ** The stages of the msgmerge run *)

Section MsgmergeFacts.
Import MsgmergeAddon Batch.

(** The change gate test of [update_translations], as one boolean. *)
Lemma gate_open_dec c previous_head :
  (unchanged_check_applies c alert_name previous_head
   && negb (bool_decide (new_base c ∈
              list_changed_files c (default "" previous_head))) = true)
  ↔ ¬ gate_open c previous_head.
Proof.
  unfold gate_open, unchanged_check_applies.
  rewrite !andb_true_iff, !negb_true_iff, !bool_decide_eq_false.
  destruct (Py.truthy previous_head); split.
  - intros [[_ Hal] Hin] [?|[?|?]]; done.
  - intros H. split; [split; [done|]|]; intros ?; apply H; auto.
  - by intros [[? _] _].
  - intros H. exfalso. apply H. by left.
Qed.

Lemma update_translations_shut cfg c previous_head w :
  ¬ gate_open c previous_head →
  update_translations cfg c previous_head w
  = Ok () (emit skip_log
             (emit (ListChangedFiles (default "" previous_head)) w)).
Proof.
  intros H. apply gate_open_dec in H. apply andb_prop in H as [Hc Hn].
  unfold update_translations. rewrite Hc.
  apply negb_true_iff in Hn. by rewrite Hn.
Qed.

Lemma update_translations_open cfg c previous_head w :
  gate_open c previous_head →
  ∃ w0 evs0,
    w_fs w0 = w_fs w ∧ w_alerts w0 = w_alerts w
    ∧ w_trace w0 = w_trace w ++ evs0
    ∧ (skip_log ∉ evs0) ∧ attempted evs0 = []
    ∧ update_translations cfg c previous_head w
      = (let template := get_new_base_filename c in
        if negb (Py.truthy template)
           || negb (path_exists (default "" template) w0) then
          Ok () (log_info "%s addon skipped, new base was not found"
                   (trigger_alerts
                      (alerts_append
                         (Alert name "msgmerge" template
                                "Template for new translations not found")
                         w0)))
        else
          match get_msgmerge_args cfg c with
          | None => Raise "ValueError" w0
          | Some args =>
              Ok () (trigger_alerts
                       (merge_all c (default "" template) args
                                  (translation_set c) w0))
          end).
Proof.
  intros H. unfold update_translations.
  destruct (unchanged_check_applies c alert_name previous_head) eqn:Hc.
  - assert (bool_decide (new_base c ∈
              list_changed_files c (default "" previous_head)) = true) as ->.
    { destruct (bool_decide _) eqn:Hb; [done|]. exfalso.
      apply (proj1 (gate_open_dec c previous_head)); [|done].
      by rewrite Hc, Hb. }
    cbn [negb].
    exists (emit (ListChangedFiles (default "" previous_head)) w),
           [ListChangedFiles (default "" previous_head)].
    repeat split; try done.
    unfold skip_log. rewrite not_elem_of_cons. split; [done|].
    apply not_elem_of_nil.
  - cbn [negb]. exists w, []. rewrite app_nil_r. repeat split; try done.
    apply not_elem_of_nil.
Qed.

End MsgmergeFacts.

(** ** Integers read from strings *)

Section IntFacts.
Import GettextCustomizeAddon Shape.

Lemma all_chars_app p s t :
  all_chars p (s +:+ t) = all_chars p s && all_chars p t.
Proof.
  induction s as [|a s IH]; [done|]. rewrite app_cons. cbn.
  by rewrite IH, andb_assoc.
Qed.

Lemma rstrip_rest p s :
  ∃ rest, s = Py.rstrip_with p s +:+ rest ∧ all_chars p rest = true.
Proof.
  induction s as [|a s (rest & IH & Hrest)]; [by exists ""|]. cbn.
  destruct (Py.rstrip_with p s) as [|b r] eqn:E.
  - destruct (p a) eqn:Ha.
    + exists (String a s). split; [done|]. cbn. rewrite Ha.
      rewrite app_empty_l in IH. by rewrite IH.
    + exists rest. rewrite app_cons. by rewrite <- IH.
  - exists rest. rewrite app_cons. by rewrite <- IH.
Qed.

Lemma lstrip_rest p s :
  ∃ lead, s = lead +:+ Py.lstrip_with p s ∧ all_chars p lead = true.
Proof.
  induction s as [|a s (lead & IH & Hlead)]; [by exists ""|]. cbn.
  destruct (p a) eqn:Ha.
  - exists (String a lead). split; [by rewrite app_cons, <- IH|].
    cbn. by rewrite Ha.
  - by exists "".
Qed.

Ltac digit_step :=
  cbn [NilEmpty.string_of_uint digits count_digits Pos.of_uint_acc
       Pos.of_uint];
  repeat match goal with
  | |- context [digit_of ?c] =>
      let v := eval vm_compute in (digit_of c) in
      change (digit_of c) with v
  end; cbn match.

Lemma digits_acc u : ∀ p,
  digits (Z.pos p) true (NilEmpty.string_of_uint u)
  = Some (Z.pos (Pos.of_uint_acc u p)).
Proof.
  induction u as [|u IH|u IH|u IH|u IH|u IH|u IH|u IH|u IH|u IH|u IH];
    intros p; [done|..]; digit_step;
    match goal with
    | |- digits ?a _ _ = Some (Z.pos (Pos.of_uint_acc _ ?q)) =>
        replace a with (Z.pos q) by lia
    end; apply IH.
Qed.

Lemma digits_zero u : ∀ b,
  u ≠ Decimal.Nil ∨ b = true →
  digits 0 b (NilEmpty.string_of_uint u) = Some (Z.of_N (Pos.of_uint u)).
Proof.
  induction u as [|u IH|u IH|u IH|u IH|u IH|u IH|u IH|u IH|u IH|u IH];
    intros b Hb;
    [by destruct Hb as [?| ->]
    |digit_step; apply IH; by right
    |digit_step; exact (digits_acc u _)..].
Qed.

Lemma count_digits_length s : count_digits s ≤ String.length s.
Proof.
  induction s as [|c s IH]; [done|]. cbn.
  destruct (digit_of c); lia.
Qed.

(** The numeral of a positive number is read back as the number. *)
Lemma numeral_of_pos p :
  String.length (NilZero.string_of_uint (Pos.to_uint p)) ≤ max_str_digits →
  numeral (NilZero.string_of_uint (Pos.to_uint p)) = Some (Z.pos p).
Proof.
  intros Hlen. unfold numeral.
  assert (digits 0 false (NilZero.string_of_uint (Pos.to_uint p))
          = Some (Z.pos p)) as ->.
  { unfold NilZero.string_of_uint.
    destruct (Pos.to_uint p) eqn:E;
      [by apply DecimalPos.Unsigned.to_uint_nonnil in E|..];
      rewrite <- E, digits_zero
        by (left; apply DecimalPos.Unsigned.to_uint_nonnil);
      by rewrite DecimalPos.Unsigned.of_to. }
  cbn [mbind option_bind].
  pose proof (count_digits_length
                (NilZero.string_of_uint (Pos.to_uint p))) as Hc.
  by rewrite (proj2 (Nat.ltb_ge _ _)) by lia.
Qed.

(** A numeral is a digit followed by digits. *)
Lemma numeral_shape p :
  ∃ c s d,
    NilZero.string_of_uint (Pos.to_uint p) = String c s
    ∧ digit_of c = Some d
    ∧ ∀ a, Shape.last_char (String c s) = Some a → int_space a = false.
Proof.
  unfold NilZero.string_of_uint.
  pose proof (DecimalPos.Unsigned.to_uint_nonnil p) as Hnn.
  assert (∀ u a, Shape.last_char (NilEmpty.string_of_uint u) = Some a →
                 int_space a = false) as Hlast.
  { induction u as [|u IH|u IH|u IH|u IH|u IH|u IH|u IH|u IH|u IH|u IH];
      intros a; [done|..]; cbn [NilEmpty.string_of_uint Shape.last_char];
      (destruct (NilEmpty.string_of_uint u) eqn:E;
       [by intros [= <-]|apply IH]). }
  destruct (Pos.to_uint p) as [|u|u|u|u|u|u|u|u|u|u] eqn:E; [done|..];
    cbn [NilEmpty.string_of_uint];
    (eexists _, _, _; split; [reflexivity|]; split; [by vm_compute|]);
    match goal with E : _ = ?d |- _ => exact (Hlast d) end.
Qed.

Lemma lstrip_keeps p c s :
  p c = false → Py.lstrip_with p (String c s) = String c s.
Proof. intros H. cbn. by rewrite H. Qed.

Lemma rstrip_keeps_last p s :
  (∀ a, Shape.last_char s = Some a → p a = false) → Py.rstrip_with p s = s.
Proof.
  induction s as [|b s IH]; [done|]. intros Hl. cbn.
  destruct s as [|c s].
  - cbn. by rewrite (Hl b).
  - rewrite IH by (intros a Ha; by apply Hl). done.
Qed.

Lemma digit_not_space c d : digit_of c = Some d → int_space c = false.
Proof.
  unfold digit_of, int_space. set (n := nat_of_ascii c).
  destruct (48 <=? n) eqn:H1; [|done]. destruct (n <=? 57) eqn:H2; [|done].
  intros _. apply Nat.leb_le in H1, H2.
  rewrite !orb_false_iff, andb_false_iff, !Nat.leb_gt, !Nat.eqb_neq. lia.
Qed.

Lemma digit_not_sign c d :
  digit_of c = Some d → Ascii.eqb c "+" = false ∧ Ascii.eqb c "-" = false.
Proof.
  intros H. split; apply Ascii.eqb_neq; intros ->; by vm_compute in H.
Qed.

Lemma digits_chars s : ∀ acc b z,
  digits acc b s = Some z → all_chars int_char s = true.
Proof.
  induction s as [|c s IH]; intros acc b z; [done|].
  cbn [digits all_chars]. unfold int_char at 1.
  destruct (digit_of c) as [d|] eqn:Hd.
  - intros H. rewrite (IH _ _ _ H).
    rewrite (bool_decide_eq_true_2 (is_Some (Some d))) by eauto.
    by rewrite orb_true_r.
  - destruct (Ascii.eqb c "_" && b) eqn:Hu; [|done].
    apply andb_prop in Hu as [-> _]. rewrite !orb_true_r.
    destruct s as [|c' s']; [done|].
    destruct (digit_of c'); [|done]. intros H. by rewrite (IH _ _ _ H).
Qed.

Lemma numeral_chars s z : numeral s = Some z → all_chars int_char s = true.
Proof.
  unfold numeral. destruct (digits 0 false s) as [z'|] eqn:Hd; [|done].
  intros _. by apply (digits_chars s 0%Z false z').
Qed.

(** [int] accepts only strings made of digits, signs, underscores and
    the white space it skips. *)
Lemma int_of_str_chars s z :
  int_of_str s = Some z → all_chars int_char s = true.
Proof.
  unfold int_of_str.
  destruct (lstrip_rest int_space s) as (lead & Hs & Hlead).
  destruct (rstrip_rest int_space (Py.lstrip_with int_space s))
    as (trail & Ht & Htrail).
  set (t := Py.rstrip_with int_space (Py.lstrip_with int_space s)) in *.
  intros Hint.
  assert (all_chars int_char t = true) as Hcore.
  { destruct t as [|c s']; [done|].
    destruct (Ascii.eqb c "+") eqn:Hplus.
    - cbn [all_chars]. unfold int_char at 1. rewrite Hplus.
      rewrite !orb_true_r. cbn [andb].
      by apply (numeral_chars s' z).
    - destruct (Ascii.eqb c "-") eqn:Hminus.
      + cbn [all_chars]. unfold int_char at 1. rewrite Hminus.
        rewrite !orb_true_r. cbn [andb].
        destruct (numeral s') as [z'|] eqn:Hn; [|done].
        by apply (numeral_chars s' z').
      + by apply (numeral_chars _ z). }
  assert (∀ u, all_chars int_space u = true → all_chars int_char u = true)
    as Hspace.
  { induction u as [|a u IHu]; [done|]. cbn [all_chars].
    intros [Ha Hu]%andb_prop. unfold int_char at 1. rewrite Ha.
    cbn [orb andb]. by apply IHu. }
  rewrite Hs, Ht, !all_chars_app, Hcore.
  by rewrite (Hspace lead Hlead), (Hspace trail Htrail).
Qed.

(** [int(str(z)) = z], as long as the numeral stays within the limit on
    the number of digits. *)
Lemma int_of_str_of_int z :
  String.length (PyMore.str_of_int z) ≤ max_str_digits →
  int_of_str (PyMore.str_of_int z) = Some z.
Proof.
  unfold PyMore.str_of_int.
  destruct z as [|p|p]; [intros _; by vm_compute|..];
    cbn [Z.to_int NilZero.string_of_int]; intros Hlen;
    destruct (numeral_shape p) as (c & s & d & Hs & Hd & Hlast);
    pose proof (digit_not_space c d Hd) as Hsp;
    pose proof (digit_not_sign c d Hd) as [Hplus Hminus].
  - pose proof (numeral_of_pos p Hlen) as Hnum.
    rewrite Hs in *. unfold int_of_str.
    rewrite lstrip_keeps, rstrip_keeps_last by done.
    by rewrite Hplus, Hminus.
  - assert (numeral (NilZero.string_of_uint (Pos.to_uint p))
            = Some (Z.pos p)) as Hnum.
    { apply numeral_of_pos. cbn [String.length] in Hlen. lia. }
    unfold int_of_str.
    rewrite lstrip_keeps by done.
    rewrite rstrip_keeps_last.
    + change (Ascii.eqb "-" "+") with false.
      change (Ascii.eqb "-" "-") with true. cbn match. by rewrite Hnum.
    + rewrite Hs. intros a. cbn [Shape.last_char]. apply Hlast.
Qed.

End IntFacts.

(** * The claims *)

Section Claims.
Import UpdateLinguasAddon Linguas.

(** C1, as amended.  For well-formed language codes (not empty, free of
    white space and of the comment sign), [update_linguas] returns
    [changed = true] exactly when the document it returns differs from the
    one it was given; and [UpdateConfigureAddon.sync_linguas], run over
    candidate files that all exist, returns [true] exactly when the
    contents of the files afterwards differ from those before. *)
Theorem changed_iff_differs (lines codes names paths : list string) (w : world) :
  Forall code_ok codes →
  Configure.all_exist (w_fs w) paths →
  ((update_linguas lines codes).1 = true
   ↔ (update_linguas lines codes).2 ≠ lines)
  ∧ ∃ added w',
      UpdateConfigureAddon.sync_linguas names paths w = Ok added w'
      ∧ (added = true ↔ w_fs w' ≠ w_fs w).
Proof.
  intros Hok Hex. split.
  - rewrite update_linguas_walk, walk_result_fst, walk_result_snd.
    pose proof (walk_same lines codes) as Hsame.
    pose proof (walk_rewritten lines codes Hok) as Hrew.
    pose proof (walk_missing lines codes) as Hmiss.
    pose proof (walk_codes_subseteq lines codes) as Hsub.
    destruct (walk lines codes) as [[kept codes'] rewritten]. simpl in *.
    split.
    + intros Hch Heq.
      destruct codes' as [|c codes'].
      * rewrite app_nil_r in Heq. subst kept.
        rewrite Nat.eqb_refl, orb_false_r in Hch. simpl in Hch.
        rewrite orb_false_r in Hch. by apply Hrew.
      * assert (c ∈ codes) as Hc by (apply Hsub; left).
        rewrite Forall_forall in Hok. destruct (Hok c Hc) as [Hne Hp].
        apply (Hmiss c (c +:+ Py.nl)); [left|done| |].
        -- rewrite <- Heq. apply elem_of_app. right. left.
        -- by apply stripped_of_tidy, plain_tidy.
    + intros Hne.
      destruct rewritten; [done|]. simpl.
      destruct (length kept =? length lines) eqn:Hlen; [|done]. simpl.
      destruct codes' as [|c codes']; [|done]. exfalso. apply Hne.
      rewrite app_nil_r. apply Hsame; [done|]. by apply Nat.eqb_eq.
  - unfold UpdateConfigureAddon.sync_linguas.
    set (expected := UpdateConfigureAddon.expected_line names).
    destruct (sync_paths_false expected paths w Hex)
      as (added & w' & Hrun & _ & _ & Hadd & Hfs).
    exists added, w'. split; [done|]. split.
    + intros ->. symmetry in Hadd. apply existsb_exists in Hadd as (p & Hin & Hn).
      apply list_elem_of_In in Hin. intros Heq.
      specialize (Hfs p). rewrite Heq in Hfs.
      rewrite decide_True in Hfs
        by (by apply written_paths_needing).
      unfold Configure.all_exist in Hex. rewrite Forall_forall in Hex.
      destruct (Hex p Hin) as [ls Hls].
      unfold Configure.read in Hfs, Hn. rewrite Hls in Hfs, Hn. simpl in *.
      injection Hfs as Hfs. symmetry in Hfs. by apply edit_changes in Hfs.
    + intros Hne. destruct added; [done|]. exfalso. apply Hne.
      apply map_eq. intros q. rewrite Hfs.
      rewrite written_paths_none by done.
      destruct (decide (q ∈ [])) as [H|]; [by apply elem_of_nil in H|done].
Qed.

(** C2, as amended.  On the one-line document [en fr de], desired codes
    fr, de, es (in any iteration order) give the line [de es fr] with
    [changed = true]; the codes de, en, fr already on the line give the
    sorted line [de en fr], again with [changed = true], because the line
    was not in sorted order; on that sorted line the same codes give
    [changed = false]. *)
Theorem legacy_line_rewritten (codes codes' : list string) :
  codes ≡ₚ ["fr"; "de"; "es"] →
  codes' ≡ₚ ["de"; "en"; "fr"] →
  update_linguas ["en fr de" +:+ Py.nl] codes = (true, ["de es fr" +:+ Py.nl])
  ∧ update_linguas ["en fr de" +:+ Py.nl] codes'
    = (true, ["de en fr" +:+ Py.nl])
  ∧ update_linguas ["de en fr" +:+ Py.nl] codes'
    = (false, ["de en fr" +:+ Py.nl]).
Proof.
  intros H H'. rewrite !update_linguas_walk. unfold walk_result, walk.
  change (stripped_of ("en fr de" +:+ Py.nl)) with "en fr de".
  change (stripped_of ("de en fr" +:+ Py.nl)) with "de en fr".
  rewrite (expected_line_perm _ _ H), (expected_line_perm _ _ H').
  by vm_compute.
Qed.

(** C5, as amended.  When the codes are well formed and a line that lists
    several codes, if the document has one, is followed by blank and
    comment lines only, a second run of [update_linguas] on the document
    the first run returned, with the same set of codes (in any iteration
    order), returns [changed = false]. *)
Theorem second_run_unchanged (lines codes codes2 : list string) :
  Forall code_ok codes → NoDup codes → codes2 ≡ₚ codes →
  record_last lines →
  (update_linguas (update_linguas lines codes).2 codes2).1 = false.
Proof.
  intros Hok Hnd Hperm Hshape.
  rewrite (update_linguas_walk lines codes), walk_result_snd.
  rewrite update_linguas_walk, walk_result_fst.
  rewrite (walk_settled lines codes codes2) by done. simpl.
  by rewrite Nat.eqb_refl.
Qed.


(** C10.  [GettextCustomizeAddon.get_xgettext_args] returns what
    [get_msgmerge_args] returns, and that is the list the specification
    gives for the configured width: the single argument [--no-wrap] when
    the width is not 77, the empty list when it is.  The width is the
    stored one: without a stored width it is 77 and the list is empty; a
    stored integer decides by its value; a stored string decides by the
    integer [int] reads from it, which for the decimal numeral of an
    integer is that integer; a string [int] rejects makes both methods
    raise alike, and [int] rejects every string that holds a character
    other than a digit, a sign, an underscore and the white space it
    skips. *)
Theorem customize_args_agree (cfg : GettextCustomizeAddon.configuration) :
  GettextCustomizeAddon.get_xgettext_args cfg
  = GettextCustomizeAddon.get_msgmerge_args cfg
  ∧ GettextCustomizeAddon.get_msgmerge_args cfg
    = GettextCustomizeAddon.spec_args
      <$> GettextCustomizeAddon.configured_width cfg
  ∧ GettextCustomizeAddon.spec_args 77 = []
  ∧ (∀ w, GettextCustomizeAddon.spec_args w = ["--no-wrap"] ↔ w ≠ 77%Z)
  ∧ match GettextCustomizeAddon.width cfg with
    | None => GettextCustomizeAddon.get_msgmerge_args cfg = Some []
    | Some (PyInt z) =>
        GettextCustomizeAddon.get_msgmerge_args cfg
        = Some (if decide (z = 77%Z) then [] else ["--no-wrap"])
    | Some (PyStr s) =>
        GettextCustomizeAddon.get_msgmerge_args cfg
        = (λ z : Z, if decide (z = 77%Z) then [] else ["--no-wrap"])
          <$> GettextCustomizeAddon.int_of_str s
    end
  ∧ (∀ z : Z,
       GettextCustomizeAddon.width cfg = Some (PyStr (PyMore.str_of_int z)) →
       String.length (PyMore.str_of_int z)
       ≤ GettextCustomizeAddon.max_str_digits →
       GettextCustomizeAddon.get_msgmerge_args cfg
       = Some (if decide (z = 77%Z) then [] else ["--no-wrap"]))
  ∧ (∀ s z,
       GettextCustomizeAddon.int_of_str s = Some z →
       Shape.all_chars GettextCustomizeAddon.int_char s = true).
Proof.
  assert (∀ z : Z,
            (if bool_decide (z ≠ 77%Z) then ["--no-wrap"] else [])
            = (if decide (z = 77%Z) then [] else ["--no-wrap"] : list string))
    as Hflip.
  { intros z. destruct (decide (z = 77%Z)) as [->|?].
    - by rewrite bool_decide_eq_false_2 by (by intros []).
    - by rewrite bool_decide_eq_true_2. }
  split; [done|]. split.
  { unfold GettextCustomizeAddon.get_msgmerge_args.
    destruct (GettextCustomizeAddon.configured_width cfg) as [w|]; [|done].
    simpl. unfold GettextCustomizeAddon.spec_args. f_equal.
    rewrite Hflip. destruct (decide (w = 77%Z)) as [->|?].
    - by rewrite bool_decide_eq_true_2.
    - by rewrite bool_decide_eq_false_2. }
  split; [done|]. split.
  { intros w. unfold GettextCustomizeAddon.spec_args.
    destruct (decide (w = 77%Z)) as [->|?].
    - by rewrite bool_decide_eq_true_2.
    - by rewrite bool_decide_eq_false_2. }
  unfold GettextCustomizeAddon.get_msgmerge_args,
    GettextCustomizeAddon.configured_width.
  split.
  - destruct (GettextCustomizeAddon.width cfg) as [[z|s]|].
    + change (default (PyInt 77) (Some (PyInt z))) with (PyInt z).
      cbn [GettextCustomizeAddon.py_int mbind option_bind].
      by rewrite Hflip.
    + change (default (PyInt 77) (Some (PyStr s))) with (PyStr s).
      cbn [GettextCustomizeAddon.py_int].
      destruct (GettextCustomizeAddon.int_of_str s) as [z|]; [|done].
      cbn [mbind option_bind fmap option_fmap option_map].
      by rewrite Hflip.
    + done.
  - split; [|apply int_of_str_chars]. intros z -> Hlen.
    change (default (PyInt 77) (Some (PyStr (PyMore.str_of_int z))))
      with (PyStr (PyMore.str_of_int z)).
    cbn [GettextCustomizeAddon.py_int].
    rewrite int_of_str_of_int by done. cbn [mbind option_bind].
    by rewrite Hflip.
Qed.


(** C4, as amended.  [UpdateConfigureAddon.sync_linguas], run over
    candidate files that all exist, opens for writing each candidate file
    from the first one that needs a change on, in order: a file is written
    back when an assignment line of it or of an earlier candidate needed
    changing.  A file in which no line needed changing keeps its lines
    even when it is written back, and when no candidate needs a change
    nothing is written. *)
Theorem configure_files_written (names paths : list string) (w : world) :
  Configure.all_exist (w_fs w) paths →
  let expected := UpdateConfigureAddon.expected_line names in
  let w' := res_world (UpdateConfigureAddon.sync_linguas names paths w) in
  events_since w w'
  = OpenWrite <$> Configure.written_paths expected (w_fs w) false paths
  ∧ (∀ q, Configure.file_needs_change expected (Configure.read (w_fs w) q)
          = false →
          w_fs w' !! q = w_fs w !! q)
  ∧ (existsb (λ p, Configure.file_needs_change expected
                     (Configure.read (w_fs w) p)) paths = false →
     events_since w w' = []).
Proof.
  intros Hex expected w'. subst w'.
  unfold UpdateConfigureAddon.sync_linguas. fold expected.
  destruct (sync_paths_false expected paths w Hex)
    as (added & w' & -> & _ & Htr & _ & Hfs).
  cbn [res_world]. rewrite (events_since_app _ _ _ Htr).
  split; [done|]. split.
  - intros q Hq. rewrite Hfs. destruct (decide _) as [Hin|]; [|done].
    rewrite edit_id by done. unfold Configure.read.
    destruct (w_fs w !! q) as [ls|] eqn:E; [done|].
    apply written_paths_subseteq in Hin.
    unfold Configure.all_exist in Hex. rewrite Forall_forall in Hex.
    destruct (Hex q Hin) as [ls Hls]. congruence.
  - intros Hnone. by rewrite written_paths_none.
Qed.

(** C7, the defect.  [XGettextAddon.post_update] reads the name of the
    final template from [self], where every other method of the module
    reads it from [component]; an instance without the attribute
    [get_new_base_filename] makes the run raise [AttributeError] at its
    first statement.  Nothing of what the claim describes takes place: no
    temporary file is asked for, the tool is not run, the template is not
    replaced and nothing is committed; files, alerts and trace are as
    they were. *)
Theorem template_never_promoted (cleanup_path : string → string)
    (self : XGettextAddon.addon) (c : component)
    (previous_head : option string) (skip_push child : bool) (w : world) :
  XGettextAddon.has_attribute self "get_new_base_filename" = false →
  XGettextAddon.post_update cleanup_path self c previous_head
    skip_push child w
  = Raise "AttributeError" w
  ∧ events_since w
      (res_world (XGettextAddon.post_update cleanup_path self c
                    previous_head skip_push child w)) = [].
Proof.
  intros Hself. unfold XGettextAddon.post_update. rewrite Hself.
  split; [done|]. cbn [res_world]. apply events_since_app.
  by rewrite app_nil_r.
Qed.

(** C8.  The change gate of [MsgmergeAddon.update_translations] decides as
    the claim says: with a previous revision, no pending alert of the
    add-on and the template not among the changed files the run is
    skipped, and nothing but the question for the changed files and the
    skip entry of the log happens; otherwise the run goes on: the log has
    no skip entry, a run that returns has handed its alerts over, and with
    the template found and the arguments built the merge of every
    eligible translation file is attempted.  With [readme.md] as only
    changed file the run is skipped, with the template changed it merges.
    [XGettextAddon.post_update] does not get as far as its gate: an
    instance without the attribute [get_new_base_filename] raises
    [AttributeError] at the first statement, whether the gate would let
    the run through or not. *)
Theorem change_gate_decides (cleanup_path : string → string)
    (cfg : MsgmergeAddon.configuration) (self : XGettextAddon.addon)
    (c : component) (previous_head : option string)
    (skip_push child : bool) (w : world) :
  let open :=
    Py.truthy previous_head = false
    ∨ MsgmergeAddon.alert_name ∈ alert_set c
    ∨ new_base c ∈ list_changed_files c (default "" previous_head) in
  let run := MsgmergeAddon.update_translations cfg c previous_head w in
  (¬ open →
   run = Ok () (emit Batch.skip_log
                  (emit (ListChangedFiles (default "" previous_head)) w)))
  ∧ (open →
     (Batch.skip_log ∉ events_since w (res_world run))
     ∧ (∀ w', run = Ok () w' →
              TriggerAlerts (w_alerts w') ∈ events_since w w')
     ∧ (∀ template args,
          get_new_base_filename c = Some template → template ≠ "" →
          is_Some (w_fs w !! template) →
          MsgmergeAddon.get_msgmerge_args cfg c = Some args →
          ∃ w',
            run = Ok () w'
            ∧ Batch.attempted (events_since w w')
              = (λ t, default "" (get_filename t))
                <$> filter (λ t, Batch.eligible w t = true)
                      (translation_set c)))
  ∧ (XGettextAddon.has_attribute self "get_new_base_filename" = false →
     XGettextAddon.post_update cleanup_path self c previous_head
       skip_push child w
     = Raise "AttributeError" w)
  ∧ events_since (Sample.start Sample.tree)
      (res_world (MsgmergeAddon.update_translations
                    Sample.msgmerge_configuration
                    (Sample.component_with ["readme.md"]) (Some "abc")
                    (Sample.start Sample.tree)))
    = [ListChangedFiles "abc"; Batch.skip_log]
  ∧ events_since (Sample.start Sample.tree)
      (res_world (MsgmergeAddon.update_translations
                    Sample.msgmerge_configuration
                    (Sample.component_with ["template.pot"]) (Some "abc")
                    (Sample.start Sample.tree)))
    = [ListChangedFiles "abc";
       UpdateBilingual "de.po" "template.pot" ["--previous"];
       TriggerAlerts []]
  ∧ XGettextAddon.post_update id (Sample.xgettext_addon ["msgid"])
      (Sample.component_with ["template.pot"]) (Some "abc") false false
      (Sample.start Sample.tree)
    = Raise "AttributeError" (Sample.start Sample.tree)
  ∧ XGettextAddon.post_update id (Sample.xgettext_addon ["msgid"])
      (Sample.component_with ["template.pot"]) None false false
      (Sample.start Sample.tree)
    = Raise "AttributeError" (Sample.start Sample.tree).
Proof.
  intros open run. subst open run.
  fold (Batch.gate_open c previous_head).
  split; [by apply update_translations_shut|].
  split; [|split; [|by vm_compute]].
  - intros Ho.
    destruct (update_translations_open cfg c previous_head w Ho)
      as (w0 & evs0 & Hfs & Hal & Htr & Hns & Hatt & Hrun).
    rewrite Hrun. clear Hrun. cbn zeta.
    split; [|split].
    + destruct (negb _ || negb _).
      * cbn [res_world].
        rewrite (events_since_app w _ (evs0 ++ [TriggerAlerts _; LogInfo _]))
          by (cbn; by rewrite Htr, <- !app_assoc).
        not_in_events.
      * destruct (MsgmergeAddon.get_msgmerge_args cfg c) as [args|].
        -- cbn [res_world].
           destruct (merge_all_spec c (default "" (get_new_base_filename c))
                       args (translation_set c) w0)
             as (_ & _ & evs & Hm & _ & Hlog).
           rewrite (events_since_app w _ (evs0 ++ evs ++ [TriggerAlerts _]))
             by (cbn; by rewrite Hm, Htr, <- !app_assoc).
           intros Hin.
           apply elem_of_app in Hin as [Hin|Hin]; [done|].
           apply elem_of_app in Hin as [Hin|Hin].
           ++ rewrite Forall_forall in Hlog.
              by specialize (Hlog _ Hin _ eq_refl).
           ++ by apply list_elem_of_singleton in Hin.
        -- cbn [res_world]. by rewrite (events_since_app w _ evs0).
    + intros w'. destruct (negb _ || negb _).
      * intros [= <-].
        rewrite (events_since_app w _ (evs0 ++ [TriggerAlerts _; LogInfo _]))
          by (cbn; by rewrite Htr, <- !app_assoc).
        cbn. apply elem_of_app. right. left.
      * destruct (MsgmergeAddon.get_msgmerge_args cfg c) as [args|]; [|done].
        intros [= <-].
        destruct (merge_all_spec c (default "" (get_new_base_filename c))
                    args (translation_set c) w0)
          as (_ & _ & evs & Hm & _ & _).
        rewrite (events_since_app w _ (evs0 ++ evs ++ [TriggerAlerts _]))
          by (cbn; by rewrite Hm, Htr, <- !app_assoc).
        cbn. rewrite !elem_of_app. right. right. left.
    + intros template args Htpl Hne Hex Hargs.
      rewrite Htpl, Hargs.
      change (default "" (Some template)) with template.
      assert (Py.truthy (Some template) = true) as ->.
      { simpl. by apply negb_true_iff, String.eqb_neq. }
      assert (path_exists template w0 = true) as ->.
      { unfold path_exists. rewrite Hfs. by apply bool_decide_eq_true_2. }
      cbn [negb orb].
      destruct (merge_all_spec c template args (translation_set c) w0)
        as (Hmfs & Hmal & evs & Hmtr & Hmatt & _).
      eexists. split; [done|].
      rewrite (events_since_app w _ (evs0 ++ evs ++ [TriggerAlerts _]))
        by (cbn; by rewrite Hmtr, Htr, <- !app_assoc).
      unfold Batch.attempted in *. rewrite !omap_app, Hatt, Hmatt.
      cbn. rewrite app_nil_r. by rewrite (eligible_filter_fs w0 w).
  - intros Hself. unfold XGettextAddon.post_update. by rewrite Hself.
Qed.

(** C9.  When the change gate is open, the template is found and the arguments
    are built, [MsgmergeAddon.update_translations] returns normally; it
    attempts the merge of every eligible translation file, in order,
    whether earlier merges failed or not, and records one alert for each
    merge that failed with [UpdateError] and none for the others, before
    it hands the alerts over. *)
Theorem merge_failures_isolated (cfg : MsgmergeAddon.configuration)
    (c : component) (previous_head : option string) (w : world)
    (template : string) (args : list string) :
  Batch.gate_open c previous_head →
  get_new_base_filename c = Some template → template ≠ "" →
  is_Some (w_fs w !! template) →
  MsgmergeAddon.get_msgmerge_args cfg c = Some args →
  ∃ w',
    MsgmergeAddon.update_translations cfg c previous_head w = Ok () w'
    ∧ Batch.attempted (events_since w w')
      = (λ t, default "" (get_filename t))
        <$> filter (λ t, Batch.eligible w t = true) (translation_set c)
    ∧ w_alerts w'
      = w_alerts w ++ omap (Batch.failure c template args w) (translation_set c)
    ∧ last (events_since w w') = Some (TriggerAlerts (w_alerts w')).
Proof.
  intros Hopen Htpl Hne Hex Hargs.
  destruct (update_translations_open cfg c previous_head w Hopen)
    as (w0 & evs0 & Hfs & Hal & Htr & _ & Hatt & Hrun).
  rewrite Hrun, Htpl, Hargs. clear Hrun. cbn zeta.
  change (default "" (Some template)) with template.
  assert (Py.truthy (Some template) = true) as ->.
  { simpl. by apply negb_true_iff, String.eqb_neq. }
  assert (path_exists template w0 = true) as ->.
  { unfold path_exists. rewrite Hfs. by apply bool_decide_eq_true_2. }
  cbn [negb orb].
  destruct (merge_all_spec c template args (translation_set c) w0)
    as (Hmfs & Hmal & evs & Hmtr & Hmatt & _).
  eexists. split; [done|].
  rewrite (events_since_app w _ (evs0 ++ evs ++ [TriggerAlerts _]))
    by (cbn; by rewrite Hmtr, Htr, <- !app_assoc).
  split; [|split].
  - unfold Batch.attempted in *. rewrite !omap_app, Hatt, Hmatt.
    cbn. rewrite app_nil_r. by rewrite (eligible_filter_fs w0 w).
  - cbn. by rewrite Hmal, Hal, (failures_fs _ _ _ w0 w).
  - rewrite !app_assoc. by rewrite last_snoc.
Qed.

End Claims.

(** * Concrete runs *)

Section Runs.
Import UpdateLinguasAddon Linguas.

(** C1, the claim as stated fails: with the codes [a] and [b#] the line
    [a b#] is replaced by itself, so [changed] is [true] although the
    document is the one that was given. *)
Lemma changed_without_difference :
  ¬ ((update_linguas ["a b#" +:+ Py.nl] ["a"; "b#"]).1 = true
     ↔ (update_linguas ["a b#" +:+ Py.nl] ["a"; "b#"]).2
       ≠ ["a b#" +:+ Py.nl]).
Proof.
  assert (update_linguas ["a b#" +:+ Py.nl] ["a"; "b#"]
          = (true, ["a b#" +:+ Py.nl])) as -> by (by vm_compute).
  simpl. intros [H _]. by apply H.
Qed.

(** C2, the claim as stated fails: the codes already on the line
    [en fr de] make [update_linguas] rewrite it, with [changed = true]. *)
Lemma legacy_line_same_codes_changed :
  (update_linguas ["en fr de" +:+ Py.nl] ["de"; "en"; "fr"]).1 ≠ false.
Proof. by vm_compute. Qed.

(** C5, the claim as stated fails: a one-line record followed by another
    line, with the single desired code [de], is changed by the first run
    and changed again by the second. *)
Lemma second_run_changes :
  (update_linguas
     (update_linguas ["en fr" +:+ Py.nl; "de" +:+ Py.nl] ["de"]).2 ["de"]).1
  ≠ false.
Proof. by vm_compute. Qed.


(** C4, the claim as stated fails: of two configure files the second
    needs no change, yet it is opened for writing because the first one
    was changed. *)
Lemma unchanged_file_written :
  let w := Sample.start Sample.configure_tree in
  Configure.file_needs_change
    (UpdateConfigureAddon.expected_line ["de"; "fr"])
    (Configure.read (w_fs w) "configure.ac") = false
  ∧ OpenWrite "configure.ac"
    ∈ events_since w
        (res_world (UpdateConfigureAddon.sync_linguas ["de"; "fr"]
                      ["configure"; "configure.ac"] w)).
Proof.
  split; [by vm_compute|].
  assert (events_since (Sample.start Sample.configure_tree)
            (res_world (UpdateConfigureAddon.sync_linguas ["de"; "fr"]
                          ["configure"; "configure.ac"]
                          (Sample.start Sample.configure_tree)))
          = [OpenWrite "configure"; OpenWrite "configure.ac"]) as ->
    by (by vm_compute).
  right. left.
Qed.

(** The amended C1 at work: codes fr and de against a document with a
    comment, a blank line and the code fr, and two configure files. *)
Lemma changed_iff_differs_witness :
  let lines := ["# header" +:+ Py.nl; Py.nl; "fr" +:+ Py.nl] in
  let w := Sample.start Sample.configure_tree in
  ((update_linguas lines ["fr"; "de"]).1 = true
   ↔ (update_linguas lines ["fr"; "de"]).2 ≠ lines)
  ∧ ∃ added w',
      UpdateConfigureAddon.sync_linguas ["de"; "fr"]
        ["configure"; "configure.ac"] w = Ok added w'
      ∧ (added = true ↔ w_fs w' ≠ w_fs w).
Proof.
  apply (changed_iff_differs
           ["# header" +:+ Py.nl; Py.nl; "fr" +:+ Py.nl] ["fr"; "de"]
           ["de"; "fr"] ["configure"; "configure.ac"]
           (Sample.start Sample.configure_tree)).
  - repeat constructor; done.
  - unfold Configure.all_exist.
    repeat (apply Forall_cons; split; [eexists; vm_compute; reflexivity|]).
    by apply Forall_nil.
Defined.

(** The amended C2 at work, with the codes in the order given. *)
Lemma legacy_line_rewritten_witness :
  update_linguas ["en fr de" +:+ Py.nl] ["fr"; "de"; "es"]
  = (true, ["de es fr" +:+ Py.nl])
  ∧ update_linguas ["en fr de" +:+ Py.nl] ["de"; "en"; "fr"]
    = (true, ["de en fr" +:+ Py.nl])
  ∧ update_linguas ["de en fr" +:+ Py.nl] ["de"; "en"; "fr"]
    = (false, ["de en fr" +:+ Py.nl]).
Proof.
  apply (legacy_line_rewritten ["fr"; "de"; "es"] ["de"; "en"; "fr"]);
    reflexivity.
Defined.

(** The amended C4 at work on the two configure files. *)
Lemma configure_files_written_witness :
  let w := Sample.start Sample.configure_tree in
  let expected := UpdateConfigureAddon.expected_line ["de"; "fr"] in
  let w' := res_world (UpdateConfigureAddon.sync_linguas ["de"; "fr"]
                         ["configure"; "configure.ac"] w) in
  events_since w w'
  = OpenWrite <$> Configure.written_paths expected (w_fs w) false
                    ["configure"; "configure.ac"]
  ∧ (∀ q, Configure.file_needs_change expected (Configure.read (w_fs w) q)
          = false →
          w_fs w' !! q = w_fs w !! q)
  ∧ (existsb (λ p, Configure.file_needs_change expected
                     (Configure.read (w_fs w) p))
       ["configure"; "configure.ac"] = false →
     events_since w w' = []).
Proof.
  apply (configure_files_written ["de"; "fr"] ["configure"; "configure.ac"]
           (Sample.start Sample.configure_tree)).
  unfold Configure.all_exist.
  repeat (apply Forall_cons; split; [eexists; vm_compute; reflexivity|]).
  by apply Forall_nil.
Defined.

(** The amended C5 at work: a header, a blank line, a kept code and a
    code to drop; the code de is added; the second run takes the codes in
    the other order. *)
Lemma second_run_unchanged_witness :
  let lines := ["# header" +:+ Py.nl; Py.nl; "fr" +:+ Py.nl; "xx" +:+ Py.nl] in
  (update_linguas (update_linguas lines ["fr"; "de"]).2 ["de"; "fr"]).1 = false.
Proof.
  apply (second_run_unchanged
           ["# header" +:+ Py.nl; Py.nl; "fr" +:+ Py.nl; "xx" +:+ Py.nl]
           ["fr"; "de"] ["de"; "fr"]).
  - repeat constructor; done.
  - repeat constructor; rewrite ?elem_of_cons, ?elem_of_nil; intuition discriminate.
  - apply perm_swap.
  - exact I.
Defined.

(** C7, the defect at work: the template changed since the previous
    revision and the tool would write a new line, yet the run raises at
    its first statement and the trace stays empty. *)
Lemma template_never_promoted_witness :
  let self := Sample.xgettext_addon ["msgid"] in
  let c := Sample.component_with ["template.pot"] in
  let w := Sample.start Sample.tree in
  XGettextAddon.post_update id self c (Some "abc") false false w
  = Raise "AttributeError" w
  ∧ events_since w
      (res_world (XGettextAddon.post_update id self c (Some "abc")
                    false false w)) = [].
Proof.
  apply (template_never_promoted id (Sample.xgettext_addon ["msgid"])
           (Sample.component_with ["template.pot"]) (Some "abc") false false
           (Sample.start Sample.tree)).
  reflexivity.
Defined.

(** C9 at work: of three catalogues the second fails to merge; all three
    are attempted and one alert is recorded. *)
Lemma merge_failures_isolated_witness :
  let w := Sample.start Sample.batch_tree in
  ∃ w',
    MsgmergeAddon.update_translations Sample.msgmerge_configuration
      Sample.batch_component None w = Ok () w'
    ∧ Batch.attempted (events_since w w')
      = (λ t, default "" (get_filename t))
        <$> filter (λ t, Batch.eligible w t = true)
              (translation_set Sample.batch_component)
    ∧ w_alerts w'
      = w_alerts w
        ++ omap (Batch.failure Sample.batch_component "template.pot"
                   ["--previous"] w)
             (translation_set Sample.batch_component)
    ∧ last (events_since w w') = Some (TriggerAlerts (w_alerts w')).
Proof.
  apply (merge_failures_isolated Sample.msgmerge_configuration
           Sample.batch_component None (Sample.start Sample.batch_tree)
           "template.pot" ["--previous"]).
  - by left.
  - reflexivity.
  - discriminate.
  - eexists; vm_compute; reflexivity.
  - reflexivity.
Defined.

End Runs.

(** * Further properties of the code *)

(** ** The LINGUAS editor *)

Section LinguasMore.
Import UpdateLinguasAddon Linguas Shape.

Local Abbreviation with_nl := (fmap (M:=list) (λ code, code +:+ Py.nl)).

Lemma update_linguas_snd lines codes :
  (update_linguas lines codes).2
  = (walk lines codes).1.1 ++ with_nl (walk lines codes).1.2.
Proof. by rewrite update_linguas_walk, walk_result_snd. Qed.

Lemma update_linguas_fst lines codes :
  (update_linguas lines codes).1
  = (walk lines codes).2
    || negb (length (walk lines codes).1.1 =? length lines)
    || negb (bool_decide ((walk lines codes).1.2 = [])).
Proof. by rewrite update_linguas_walk, walk_result_fst. Qed.

Lemma unchanged_flag_same lines codes :
  (update_linguas lines codes).1 = false →
  (update_linguas lines codes).2 = lines.
Proof.
  rewrite update_linguas_fst, update_linguas_snd.
  intros [[Hrw Hlen]%orb_false_elim Hcodes]%orb_false_elim.
  apply negb_false_iff, bool_decide_eq_true in Hcodes. rewrite Hcodes.
  rewrite app_nil_r. apply walk_same; [done|].
  by apply negb_false_iff, Nat.eqb_eq in Hlen.
Qed.

(** X1.  When [update_linguas] returns [changed = false], the document it
    returns is the document it was given, whatever the codes are. *)
Theorem unchanged_flag_means_same_document (lines codes : list string) :
  (update_linguas lines codes).1 = false →
  (update_linguas lines codes).2 = lines.
Proof. apply unchanged_flag_same. Qed.

Lemma walk_blank_sublist lines : ∀ codes,
  filter (λ line, stripped_of line = "") lines
  `sublist_of` (walk lines codes).1.1.
Proof.
  induction lines as [|l rest IH]; intros codes; [done|]. cbn [walk].
  destruct (String.eqb (stripped_of l) "") eqn:Hb.
  - apply String.eqb_eq in Hb. rewrite filter_cons_True by done.
    specialize (IH codes). destruct (walk rest codes) as [[??]?].
    by apply sublist_skip.
  - apply String.eqb_neq in Hb. rewrite filter_cons_False by done.
    destruct (Py.contains " " (stripped_of l)).
    + destruct (negb _); cbn; apply sublist_cons, sublist_filter.
    + destruct (bool_decide _).
      * specialize (IH (set_remove (stripped_of l) codes)).
        destruct (walk rest _) as [[??]?]. by apply sublist_cons.
      * apply IH.
Qed.

(** X2.  Blank lines and comment lines are never dropped and never
    reordered: taken in order, they form a sublist of the document
    [update_linguas] returns, for every document and every code set. *)
Theorem comments_and_blanks_survive (lines codes : list string) :
  filter (λ line, stripped_of line = "") lines
  `sublist_of` (update_linguas lines codes).2.
Proof.
  rewrite update_linguas_snd. apply sublist_inserts_r, walk_blank_sublist.
Qed.

Lemma walk_one_per_line lines : ∀ codes,
  one_per_line lines →
  (walk lines codes).1.1 `sublist_of` lines
  ∧ (walk lines codes).1.2 `sublist_of` codes
  ∧ (walk lines codes).2 = false.
Proof.
  induction lines as [|l rest IH]; intros codes Hone; [done|].
  apply Forall_cons in Hone as [Hl Hone]. cbn [walk]. rewrite Hl.
  destruct (String.eqb (stripped_of l) "").
  - destruct (IH codes Hone) as (? & ? & ?).
    destruct (walk rest codes) as [[??]?]. split; [by apply sublist_skip|done].
  - destruct (bool_decide _).
    + destruct (IH (set_remove (stripped_of l) codes) Hone) as (? & ? & ?).
      destruct (walk rest _) as [[??]?]. cbn in *.
      split; [by apply sublist_skip|]. split; [|done].
      etrans; [done|]. apply sublist_filter.
    + destruct (IH codes Hone) as (? & ? & ?).
      split; [by apply sublist_cons|done].
Qed.

(** X3.  On a document with one code per line [update_linguas] only deletes
    lines and appends lines: what it returns is a sublist of the given
    lines, in their order, followed by one new line for each code of a
    sublist of the desired codes. *)
Theorem lines_deleted_or_appended (lines codes : list string) :
  one_per_line lines →
  ∃ kept missing,
    (update_linguas lines codes).2
    = kept ++ ((λ code, code +:+ Py.nl) <$> missing)
    ∧ kept `sublist_of` lines
    ∧ missing `sublist_of` codes.
Proof.
  intros Hone. destruct (walk_one_per_line lines codes Hone) as (? & ? & _).
  eexists _, _. by rewrite update_linguas_snd.
Qed.

Lemma named_codes_app l1 l2 :
  named_codes (l1 ++ l2) = named_codes l1 ++ named_codes l2.
Proof. unfold named_codes. by rewrite fmap_app, filter_app. Qed.

Lemma named_codes_appended cs :
  Forall code_ok cs → named_codes (with_nl cs) = cs.
Proof.
  induction 1 as [|c cs Hc _ IH]; [done|]. unfold named_codes in *.
  rewrite !fmap_cons. destruct (stripped_of_code c Hc) as (-> & _ & _).
  rewrite filter_cons_True by apply Hc. by rewrite IH.
Qed.

Lemma set_remove_present x codes :
  NoDup codes → x ∈ codes → x :: set_remove x codes ≡ₚ codes.
Proof.
  induction 1 as [|c codes Hnin Hnd IH]; intros Hin.
  { by apply elem_of_nil in Hin. }
  destruct (decide (c = x)) as [->|Hne].
  - assert (set_remove x (x :: codes) = codes) as ->; [|done].
    unfold set_remove. rewrite filter_cons_False by (by intros []).
    by apply set_remove_absent.
  - assert (set_remove x (c :: codes) = c :: set_remove x codes) as ->
      by (unfold set_remove; by rewrite filter_cons_True).
    apply elem_of_cons in Hin as [->|Hin]; [done|].
    rewrite Permutation_swap. by rewrite IH.
Qed.

Lemma named_codes_blank l ls :
  stripped_of l = "" → named_codes (l :: ls) = named_codes ls.
Proof.
  intros H. unfold named_codes. rewrite fmap_cons.
  by rewrite filter_cons_False by (by intros []).
Qed.

Lemma named_codes_code l ls :
  stripped_of l ≠ "" → named_codes (l :: ls) = stripped_of l :: named_codes ls.
Proof.
  intros H. unfold named_codes. rewrite fmap_cons.
  by rewrite filter_cons_True.
Qed.

Lemma walk_named lines : ∀ codes,
  one_per_line lines → NoDup codes →
  named_codes (walk lines codes).1.1 ++ (walk lines codes).1.2 ≡ₚ codes.
Proof.
  induction lines as [|l rest IH]; intros codes Hone Hnd; [done|].
  apply Forall_cons in Hone as [Hl Hone]. cbn [walk]. rewrite Hl.
  destruct (String.eqb (stripped_of l) "") eqn:Hb.
  - specialize (IH codes Hone Hnd). apply String.eqb_eq in Hb.
    destruct (walk rest codes) as [[??]?]. cbn [fst snd] in *.
    by rewrite named_codes_blank.
  - apply String.eqb_neq in Hb. destruct (bool_decide _) eqn:Hin.
    + apply bool_decide_eq_true in Hin.
      specialize (IH (set_remove (stripped_of l) codes) Hone
                     (NoDup_filter _ _ Hnd)).
      destruct (walk rest _) as [[??]?]. cbn [fst snd] in *.
      rewrite named_codes_code by done. cbn [app]. rewrite IH.
      by apply set_remove_present.
    + by apply IH.
Qed.

(** X4.  Set reconciliation: on a document with one code per line and for
    well-formed codes, the codes named by the lines of the returned
    document are exactly the desired codes, each once. *)
Theorem document_names_desired_codes (lines codes : list string) :
  one_per_line lines → Forall code_ok codes → NoDup codes →
  named_codes (update_linguas lines codes).2 ≡ₚ codes.
Proof.
  intros Hone Hok Hnd. rewrite update_linguas_snd, named_codes_app.
  rewrite named_codes_appended; [by apply walk_named|].
  rewrite Forall_forall in Hok |- *. intros c Hc.
  by apply Hok, (walk_codes_subseteq lines codes).
Qed.

End LinguasMore.

(** ** The methods around the LINGUAS editor *)

Section LinguasRunFacts.
Import UpdateLinguasAddon Linguas UpdateLinguasRun.

Lemma update_linguas_differs lines codes :
  Forall code_ok codes →
  (update_linguas lines codes).1 = true →
  (update_linguas lines codes).2 ≠ lines.
Proof.
  intros Hok. rewrite update_linguas_fst, update_linguas_snd.
  pose proof (walk_rewritten lines codes Hok) as Hrew.
  pose proof (walk_missing lines codes) as Hmiss.
  pose proof (walk_codes_subseteq lines codes) as Hsub.
  destruct (walk lines codes) as [[kept codes'] rewritten]. cbn [fst snd] in *.
  intros Hch Heq. destruct codes' as [|c codes'].
  - rewrite app_nil_r in Heq. subst kept.
    rewrite Nat.eqb_refl, orb_false_r in Hch. cbn in Hch.
    rewrite orb_false_r in Hch. by apply Hrew.
  - assert (c ∈ codes) as Hc by (apply Hsub; left).
    rewrite Forall_forall in Hok. destruct (Hok c Hc) as [Hne Hp].
    apply (Hmiss c (c +:+ Py.nl)); [left|done| |].
    + rewrite <- Heq. apply elem_of_app. right. left.
    + by apply stripped_of_tidy, plain_tidy.
Qed.

Lemma sync_linguas_run codes path lines w :
  w_fs w !! path = Some lines →
  sync_linguas codes path w
  = Ok (update_linguas lines codes).1
       (if (update_linguas lines codes).1
        then write_lines path (update_linguas lines codes).2 w else w).
Proof.
  intros H. unfold sync_linguas. rewrite H.
  by destruct (update_linguas lines codes).
Qed.

(** X5.  With well-formed codes and the LINGUAS file in place, [daily] and
    [post_add] leave the file holding the document [update_linguas]
    returns and touch nothing else; when that document differs from the
    file they write the file once and commit it ([daily]) or add its path
    to the files to commit ([post_add]), and when it does not they write
    and commit nothing. *)
Theorem linguas_committed_when_rewritten (codes : list string)
    (c : component) (full_path filemask : string) (lines : list string)
    (addon_commit_files : list string) (w : world) :
  let path := get_linguas_path c full_path filemask in
  let document := (update_linguas lines codes).2 in
  Forall code_ok codes →
  w_fs w !! path = Some lines →
  ∃ w1 w2,
    daily codes c full_path filemask w = Ok () w1
    ∧ post_add codes c full_path filemask addon_commit_files w
      = Ok (if decide (document = lines) then addon_commit_files
            else addon_commit_files ++ [path]) w2
    ∧ w_fs w1 = <[path := document]> (w_fs w)
    ∧ w_fs w2 = <[path := document]> (w_fs w)
    ∧ events_since w w1
      = (if decide (document = lines) then []
         else [OpenWrite path; CommitAndPush [path] false])
    ∧ events_since w w2
      = (if decide (document = lines) then [] else [OpenWrite path]).
Proof.
  intros path document Hok Hfile. unfold daily, post_add. fold path.
  rewrite (sync_linguas_run codes path lines w Hfile). fold document.
  pose proof (unchanged_flag_same lines codes) as Hsame.
  pose proof (update_linguas_differs lines codes Hok) as Hdiff.
  fold document in Hsame, Hdiff.
  destruct (update_linguas lines codes).1;
    destruct (decide (document = lines)) as [He|He];
    try (by destruct (Hdiff eq_refl)); try (by destruct (He (Hsame eq_refl))).
  - eexists _, _. repeat split.
    + apply events_since_app. cbn. by rewrite <- app_assoc.
    + by apply events_since_app.
  - eexists _, _. repeat split.
    + rewrite He. by rewrite insert_id.
    + rewrite He. by rewrite insert_id.
    + apply events_since_app. by rewrite app_nil_r.
    + apply events_since_app. by rewrite app_nil_r.
Qed.

End LinguasRunFacts.

(** ** Substrings *)

Section SubstringFacts.

Lemma string_app_assoc (a b c : string) : (a +:+ b) +:+ c = a +:+ b +:+ c.
Proof. induction a as [|x a IH]; [done|]. by rewrite !app_cons, IH. Qed.

Lemma string_app_nil_r (a : string) : a +:+ "" = a.
Proof. induction a as [|x a IH]; [done|]. by rewrite app_cons, IH. Qed.

Lemma str_in_spec p s :
  PyMore.str_in p s = true ↔ ∃ front rest, s = front +:+ p +:+ rest.
Proof.
  induction s as [|a s IH].
  - change (PyMore.str_in p "") with (Py.startswith "" p || false).
    rewrite orb_false_r, startswith_app. split.
    + intros [rest H]. by exists "", rest.
    + intros (front & rest & H). symmetry in H.
      apply app_eq_empty in H as [-> H]. by exists rest.
  - change (PyMore.str_in p (String a s))
      with (Py.startswith (String a s) p || PyMore.str_in p s).
    rewrite orb_true_iff, IH, startswith_app. split.
    + intros [[rest H]|(front & rest & ->)].
      * by exists "", rest.
      * by exists (String a front), rest.
    + intros ([|b front] & rest & H).
      * left. by exists rest.
      * right. rewrite app_cons in H. injection H as -> ->. by exists front, rest.
Qed.

Lemma lstrip_suffix p s : ∃ front, s = front +:+ Py.lstrip_with p s.
Proof.
  induction s as [|a s [front IH]]; [by exists ""|]. cbn.
  destruct (p a); [|by exists ""]. exists (String a front).
  by rewrite app_cons, <- IH.
Qed.

Lemma rstrip_prefix p s : ∃ rest, s = Py.rstrip_with p s +:+ rest.
Proof.
  induction s as [|a s [rest IH]]; [by exists ""|]. cbn.
  destruct (Py.rstrip_with p s) as [|b r] eqn:E.
  - destruct (p a).
    + by exists (String a s).
    + exists rest. rewrite app_cons. by rewrite <- IH.
  - exists rest. rewrite app_cons. by rewrite <- IH.
Qed.

Lemma strip_infix s : ∃ front rest, s = front +:+ Py.strip s +:+ rest.
Proof.
  unfold Py.strip. destruct (lstrip_suffix Py.isspace s) as [front Hf].
  destruct (rstrip_prefix Py.isspace (Py.lstrip_with Py.isspace s))
    as [rest Hr].
  exists front, rest. by rewrite <- Hr.
Qed.

Lemma str_in_stripped p line :
  Py.startswith (Py.strip line) p = true → PyMore.str_in p line = true.
Proof.
  intros [rest H]%startswith_app. apply str_in_spec.
  destruct (strip_infix line) as (front & back & Hl).
  exists front, (rest +:+ back). by rewrite Hl, H, string_app_assoc.
Qed.

Lemma read_text_cons line lines :
  PyMore.read_text (line :: lines) = line +:+ PyMore.read_text lines.
Proof.
  unfold PyMore.read_text. destruct lines as [|l ls]; cbn.
  - by rewrite string_app_nil_r.
  - done.
Qed.

Lemma str_in_read_text p line lines :
  line ∈ lines → PyMore.str_in p line = true →
  PyMore.str_in p (PyMore.read_text lines) = true.
Proof.
  intros Hin (front & rest & ->)%str_in_spec. apply str_in_spec.
  induction lines as [|l ls IH]; [by apply elem_of_nil in Hin|].
  rewrite read_text_cons. apply elem_of_cons in Hin as [<-|Hin].
  - exists front, (rest +:+ PyMore.read_text ls).
    by rewrite !string_app_assoc.
  - destruct (IH Hin) as (f & r & ->). exists (l +:+ f), r.
    by rewrite string_app_assoc.
Qed.

End SubstringFacts.

(** ** The methods around the configure editor *)

Section ConfigureRunFacts.
Import UpdateConfigureAddon Configure UpdateConfigureRun.

Lemma world_eq w w' :
  w_fs w = w_fs w' → w_alerts w = w_alerts w' → w_trace w = w_trace w' →
  w = w'.
Proof. destruct w, w'. cbn. by intros -> -> ->. Qed.

Lemma sync_changed_iff names paths w :
  all_exist (w_fs w) paths →
  ∃ added w',
    sync_linguas names paths w = Ok added w'
    ∧ (added = true ↔ w_fs w' ≠ w_fs w)
    ∧ (added = false → w' = w)
    ∧ w_alerts w' = w_alerts w
    ∧ w_trace w'
      = w_trace w
        ++ (OpenWrite <$> written_paths (expected_line names) (w_fs w)
                            false paths).
Proof.
  intros Hex. unfold sync_linguas.
  set (expected := expected_line names).
  destruct (sync_paths_false expected paths w Hex)
    as (added & w' & Hrun & Hal & Htr & Hadd & Hfs).
  assert (Hnone : added = false → w_fs w' = w_fs w).
  { intros ->. apply map_eq. intros q. rewrite Hfs.
    rewrite written_paths_none by done.
    destruct (decide (q ∈ [])) as [H|]; [by apply elem_of_nil in H|done]. }
  exists added, w'. split; [done|]. split; [split|split; [|done]].
  - intros ->. symmetry in Hadd.
    apply existsb_exists in Hadd as (p & Hin & Hn).
    apply list_elem_of_In in Hin. intros Heq.
    specialize (Hfs p). rewrite Heq in Hfs.
    rewrite decide_True in Hfs by (by apply written_paths_needing).
    unfold all_exist in Hex. rewrite Forall_forall in Hex.
    destruct (Hex p Hin) as [ls Hls].
    unfold read in Hfs, Hn. rewrite Hls in Hfs, Hn. cbn in *.
    injection Hfs as Hfs. symmetry in Hfs. by apply edit_changes in Hfs.
  - intros Hne. destruct added; [done|]. by destruct (Hne (Hnone eq_refl)).
  - intros ->. apply world_eq; [by apply Hnone|done|].
    rewrite Htr, written_paths_none by done. by rewrite app_nil_r.
Qed.

Lemma configure_paths_exist full_path w :
  all_exist (w_fs w) (get_configure_paths full_path w).
Proof.
  unfold all_exist, get_configure_paths. apply Forall_forall.
  intros p [Hp _]%list_elem_of_filter. unfold path_exists in Hp.
  by apply bool_decide_eq_true in Hp.
Qed.

(** X7.  [daily] and [post_add] of the configure add-on never fail on a
    missing file, whatever the working tree holds, because they only edit
    the candidate files that are there.  They commit all candidate files
    ([daily]), or add them all to the files to commit ([post_add]),
    exactly when the contents of the files changed. *)
Theorem configure_committed_when_changed (codes : list string)
    (full_path : string) (addon_commit_files : list string) (w : world) :
  let paths := get_configure_paths full_path w in
  ∃ added w',
    (added = true ↔ w_fs w' ≠ w_fs w)
    ∧ daily codes full_path w
      = Ok () (if added then emit (CommitAndPush paths false) w' else w')
    ∧ post_add codes full_path addon_commit_files w
      = Ok (if added then addon_commit_files ++ paths
            else addon_commit_files) w'.
Proof.
  intros paths. unfold daily, post_add. fold paths.
  destruct (sync_changed_iff codes paths w (configure_paths_exist full_path w))
    as (added & w' & -> & Hiff & _).
  by exists added, w'.
Qed.

(** X9.  The configure editor touches assignment lines only: in every file
    the number of lines is kept, and a line is either left as it was or
    replaced by the expected assignment, the latter only when the line,
    stripped, starts with the key and is not a comment. *)
Theorem configure_touches_assignments_only (names paths : list string)
    (w : world) (q : string) (lines : list string) :
  all_exist (w_fs w) paths →
  w_fs w !! q = Some lines →
  ∃ lines',
    w_fs (res_world (sync_linguas names paths w)) !! q = Some lines'
    ∧ length lines' = length lines
    ∧ ∀ i line line',
        lines !! i = Some line → lines' !! i = Some line' →
        line' = line
        ∨ (line' = expected_line names
           ∧ Py.startswith (Py.strip line) key_prefix = true
           ∧ Py.startswith (Py.strip line) "#" = false).
Proof.
  intros Hex Hq. unfold sync_linguas.
  set (expected := expected_line names).
  destruct (sync_paths_false expected paths w Hex)
    as (added & w' & -> & _ & _ & _ & Hfs).
  cbn [res_world]. rewrite Hfs. unfold read. rewrite Hq.
  change (default [] (Some lines)) with lines.
  destruct (decide _).
  - eexists. split; [done|]. split; [by rewrite length_fmap|].
    intros i line line' Hi. rewrite list_lookup_fmap, Hi. intros [= <-].
    unfold edit, needs_change.
    destruct (Py.startswith (Py.strip line) "#"); cbn; [by left|].
    destruct (Py.startswith (Py.strip line) key_prefix); cbn; [|by left].
    destruct (negb _); [by right|by left].
  - exists lines. split; [done|]. split; [done|].
    intros i line line' Hi. rewrite Hi. intros [= <-]. by left.
Qed.

(** X10.  When [can_install] finds the key in none of the candidate files,
    all of them readable as text, there is nothing for the add-on to do:
    [daily] returns with the world untouched, for every list of codes. *)
Theorem nothing_to_do_without_key (codes : list string)
    (decodable : string → bool) (full_path : string) (w : world) :
  (∀ p, p ∈ get_configure_paths full_path w → decodable p = true) →
  can_install true decodable full_path w = false →
  daily codes full_path w = Ok () w.
Proof.
  intros Hdec Hcan. unfold daily.
  set (paths := get_configure_paths full_path w) in *.
  destruct (sync_changed_iff codes paths w (configure_paths_exist full_path w))
    as (added & w' & Hrun & _ & Hsame & _ & Htr).
  rewrite Hrun.
  assert (Hnone : existsb (λ p, file_needs_change (expected_line codes)
                                  (read (w_fs w) p)) paths = false).
  { apply not_true_is_false. intros (p & Hin & Hn)%existsb_exists.
    apply list_elem_of_In in Hin.
    apply existsb_exists in Hn as (line & Hline & Hn).
    apply list_elem_of_In in Hline.
    unfold needs_change in Hn.
    apply andb_prop in Hn as [[_ Hkey]%andb_prop _].
    assert (existsb (λ name, decodable name
                             && PyMore.str_in key_prefix
                                  (PyMore.read_text
                                     (default [] (w_fs w !! name)))) paths
            = true) as Hyes.
    2: { unfold can_install in Hcan. cbn [negb] in Hcan.
         fold paths in Hcan. by rewrite Hyes in Hcan. }
    apply existsb_exists. exists p. split; [by apply list_elem_of_In|].
    rewrite (Hdec p Hin). cbn.
    apply (str_in_read_text _ line); [done|by apply str_in_stripped]. }
  destruct added.
  - exfalso.
    destruct (sync_paths_false (expected_line codes) paths w
                (configure_paths_exist full_path w))
      as (added2 & w2 & Hrun2 & _ & _ & Hadd2 & _).
    unfold sync_linguas in Hrun. rewrite Hrun2 in Hrun.
    injection Hrun as -> _. by rewrite Hnone in Hadd2.
  - by rewrite Hsame.
Qed.

End ConfigureRunFacts.

(** ** Stripping and splitting *)

Section StripFacts.
Import Shape.

Lemma rstrip_last p s a :
  last_char (Py.rstrip_with p s) = Some a → p a = false.
Proof.
  induction s as [|b s IH]; [done|]. cbn.
  destruct (Py.rstrip_with p s) as [|c r] eqn:E.
  - destruct (p b) eqn:Hb; [done|]. cbn. by intros [= <-].
  - cbn in *. done.
Qed.

Lemma rstrip_keeps p s :
  (∀ a, last_char s = Some a → p a = false) → Py.rstrip_with p s = s.
Proof.
  induction s as [|b s IH]; [done|]. intros Hl. cbn.
  destruct s as [|c s].
  - cbn. by rewrite (Hl b).
  - rewrite IH by (intros a Ha; by apply Hl). done.
Qed.

Lemma lstrip_all_space s :
  Py.lstrip_with Py.isspace s = "" → ∀ t,
  Py.lstrip_with Py.isspace (s +:+ t) = Py.lstrip_with Py.isspace t.
Proof.
  induction s as [|a s IH]; [done|]. cbn.
  destruct (Py.isspace a) eqn:Ha; [|done]. intros H t.
  rewrite app_cons. cbn. rewrite Ha. by apply IH.
Qed.

Lemma lstrip_some s t :
  Py.lstrip_with Py.isspace s ≠ "" →
  Py.lstrip_with Py.isspace (s +:+ t) = Py.lstrip_with Py.isspace s +:+ t.
Proof.
  induction s as [|a s IH]; [done|]. cbn. rewrite app_cons. cbn.
  destruct (Py.isspace a); [by apply IH|done].
Qed.

(** A white space character at the end does not change what [strip]
    gives. *)
Lemma strip_snoc_space s a :
  Py.isspace a = true → Py.strip (s +:+ String a "") = Py.strip s.
Proof.
  intros Ha. unfold Py.strip.
  destruct (Py.lstrip_with Py.isspace s) as [|b r] eqn:E.
  - rewrite lstrip_all_space by done. cbn. by rewrite Ha.
  - rewrite lstrip_some by (by rewrite E). rewrite E.
    apply rstrip_app_drop. cbn. by rewrite Ha.
Qed.

Lemma split_on_none c s :
  Py.contains c s = false → PyMore.split_on c s = [s].
Proof.
  induction s as [|a s IH]; [done|]. cbn.
  intros [Ha Hs]%orb_false_elim. rewrite Ha. by rewrite IH.
Qed.

Lemma split_on_first c s t :
  Py.contains c s = false →
  PyMore.split_on c (s +:+ String c t) = s :: PyMore.split_on c t.
Proof.
  induction s as [|a s IH]; intros Hs.
  - rewrite app_empty_l. cbn. by rewrite Ascii.eqb_refl.
  - cbn in Hs. apply orb_false_elim in Hs as [Ha Hs].
    rewrite app_cons. cbn. rewrite Ha. by rewrite IH.
Qed.

Lemma split_on_length c s :
  length (PyMore.split_on c s) = S (count_char c s).
Proof.
  induction s as [|a s IH]; [done|]. cbn.
  destruct (Ascii.eqb a c); cbn; [by rewrite IH|].
  destruct (PyMore.split_on c s); cbn in *; lia.
Qed.

Lemma contains_count c s : Py.contains c s = true ↔ 0 < count_char c s.
Proof.
  induction s as [|a s IH]; cbn; [split; [done|lia]|].
  destruct (Ascii.eqb a c); cbn; [split; [lia|done]|]. by rewrite IH.
Qed.

End StripFacts.

(** ** [GettextAuthorComments.pre_commit] *)

Section AuthorFacts.
Import Shape GettextAuthorComments.

(** X11.  An author written as a name, a space and an address in angle
    brackets is read back as that name and that address: when neither
    holds an opening bracket, the name has no white space around it, the
    address does not end with a closing bracket and the author is not the
    no-reply address, [pre_commit] updates the contributor with exactly
    the two. *)
Theorem author_read_back (name email : string) :
  let author := name +:+ " <" +:+ email +:+ ">" in
  Py.contains "<" name = false → Py.contains "<" email = false →
  Py.strip name = name →
  last_char email ≠ Some ">"%char →
  PyMore.str_in "noreply@weblate.org" author = false →
  pre_commit author = Updated name (Some email).
Proof.
  intros author Hn He Hstrip Hlast Hno. unfold pre_commit. rewrite Hno.
  assert (author = (name +:+ " ") +:+ String "<" (email +:+ ">")) as Hauthor.
  { unfold author. by rewrite string_app_assoc. }
  assert (Py.contains "<" (name +:+ " ") = false) as Hn'.
  { by rewrite contains_app, Hn. }
  assert (Py.contains "<" (email +:+ ">") = false) as He'.
  { by rewrite contains_app, He. }
  assert (Py.contains "<" author = true) as ->.
  { rewrite Hauthor, contains_app. cbn. by rewrite orb_true_r. }
  rewrite Hauthor, split_on_first, split_on_none by done.
  rewrite strip_snoc_space, Hstrip by done.
  rewrite rstrip_app_drop by done.
  rewrite rstrip_keeps; [done|].
  intros a Ha. destruct (Ascii.eqb_spec ">" a) as [<-|]; done.
Qed.

(** X12.  An author with two or more opening angle brackets makes
    [pre_commit] raise [ValueError] out of the unpacking of the split,
    unless it is the no-reply address, which is left alone; so the store
    is updated only for authors with at most one opening bracket. *)
Theorem author_with_two_brackets_raises (author : string) :
  2 ≤ count_char "<" author →
  pre_commit author
  = if PyMore.str_in "noreply@weblate.org" author
    then Untouched else ValueError.
Proof.
  intros Hcount. unfold pre_commit.
  destruct (PyMore.str_in _ author); [done|].
  rewrite (proj2 (contains_count "<" author)) by lia.
  pose proof (split_on_length "<" author) as Hlen.
  destruct (PyMore.split_on "<" author) as [|a [|b [|c l]]]; cbn in Hlen;
    [lia..|done].
Qed.

End AuthorFacts.

(** ** [XGettextAddon.load_file_list] *)

Section FileListFacts.
Import Shape XGettextAddon.

(** X13.  [load_file_list] answers one entry for each line that is not
    empty and does not start with the comment sign, in the order of the
    lines.  An entry is its line without its line feeds and, before
    them, its spaces, tabs and carriage returns: the line is the entry,
    then spaces, tabs and carriage returns only, then line feeds only,
    where the part before the line feeds does not end with a line feed
    and the entry does not end with a space, a tab or a carriage return.
    White space at the start of a line is kept.  The input list
    [# comment], [src/a.c] with two spaces after it, an empty line and
    [src/b.c] gives the entries [src/a.c], the empty entry and
    [src/b.c]. *)
Theorem file_list_entries (lines : list string) :
  Forall2
    (λ entry line,
       ∃ blanks feeds,
         line = entry +:+ blanks +:+ feeds
         ∧ all_chars (λ a, Ascii.eqb a Py.LF) feeds = true
         ∧ all_chars (λ a, Ascii.eqb a " " || Ascii.eqb a (ascii_of_nat 9)
                           || Ascii.eqb a (ascii_of_nat 13)) blanks = true
         ∧ last_char (entry +:+ blanks) ≠ Some Py.LF
         ∧ (∀ a, last_char entry = Some a →
                 a ≠ " "%char ∧ a ≠ ascii_of_nat 9 ∧ a ≠ ascii_of_nat 13))
    (load_file_list lines)
    (filter (λ line, line ≠ "" ∧ Py.startswith line "#" = false) lines)
  ∧ load_file_list ["# comment" +:+ Py.nl; "src/a.c  " +:+ Py.nl; Py.nl;
                    "src/b.c" +:+ Py.nl]
    = ["src/a.c"; ""; "src/b.c"].
Proof.
  split; [|by vm_compute].
  unfold load_file_list.
  set (blank := λ a, Ascii.eqb a " " || Ascii.eqb a (ascii_of_nat 9)
                     || Ascii.eqb a (ascii_of_nat 13)).
  set (feed := λ a, Ascii.eqb a Py.LF).
  assert (Hfilter :
    filter (λ line, nonempty line && negb (Py.startswith line "#") = true) lines
    = filter (λ line, line ≠ "" ∧ Py.startswith line "#" = false) lines).
  { apply list_filter_iff. intros line. unfold nonempty.
    rewrite andb_true_iff, !negb_true_iff, String.eqb_neq. done. }
  rewrite Hfilter. apply Forall2_fmap_l, Forall_Forall2_diag, Forall_forall.
  intros line _.
  destruct (rstrip_rest feed line) as (t1 & H1 & Ht1).
  destruct (rstrip_rest blank (Py.rstrip_with feed line)) as (t2 & H2 & Ht2).
  exists t2, t1. split; [|split; [done|split; [done|split]]].
  - by rewrite <- string_app_assoc, <- H2.
  - rewrite <- H2. intros Hl. apply rstrip_last in Hl.
    unfold feed in Hl. by rewrite Ascii.eqb_refl in Hl.
  - intros a Ha. apply rstrip_last in Ha. unfold blank in Ha.
    apply orb_false_elim in Ha as [[Ha1 Ha2]%orb_false_elim Ha3].
    repeat split; intros ->; by rewrite Ascii.eqb_refl in *.
Qed.

End FileListFacts.

(** ** More on the POT comparison *)

Section PotMore.
Import XGettextAddon Pot.

Lemma pot_files_same_agree file_a file_b :
  pot_files_same file_a file_b = true ↔ ∀ i, lines_agree file_a file_b i.
Proof.
  unfold pot_files_same, lines_agree. rewrite same_pairs_spec. split.
  - intros H i.
    destruct (decide (i < length file_a `max` length file_b)) as [Hi|Hi].
    + apply (H i). by rewrite zip_longest_lookup, decide_True.
    + left. rewrite !(proj2 (lookup_ge_None _ _)) by lia. done.
  - intros H i a b. rewrite zip_longest_lookup.
    destruct (decide _); [|done]. intros [= <- <-]. apply H.
Qed.

Lemma creation_date_line_some line :
  creation_date_line line → is_Some line.
Proof. intros (text & -> & _). by eexists. Qed.

(** X14.  [pot_files_same] is an equivalence on files: every file is the
    same as itself, the answer does not depend on the order of the two
    files, and two files that are each the same as a third are the same.
    Files it finds the same have the same number of lines. *)
Theorem pot_files_same_equivalence (file_a file_b file_c : list string) :
  pot_files_same file_a file_a = true
  ∧ pot_files_same file_a file_b = pot_files_same file_b file_a
  ∧ (pot_files_same file_a file_b = true →
     pot_files_same file_b file_c = true →
     pot_files_same file_a file_c = true)
  ∧ (pot_files_same file_a file_b = true → length file_a = length file_b).
Proof.
  assert (Hsym : ∀ x y, pot_files_same x y = true → pot_files_same y x = true).
  { intros x y. rewrite !pot_files_same_agree. intros H i.
    destruct (H i) as [Heq|[??]]; [by left|by right]. }
  split; [|split; [|split]].
  - apply pot_files_same_agree. intros i. by left.
  - destruct (pot_files_same file_a file_b) eqn:Hab.
    + symmetry. by apply Hsym.
    + destruct (pot_files_same file_b file_a) eqn:Hba; [|done].
      apply Hsym in Hba. congruence.
  - rewrite !pot_files_same_agree. intros Hab Hbc i.
    destruct (Hab i) as [Heq|[Ha Hb]], (Hbc i) as [Heq'|[Hb' Hc]].
    + left. congruence.
    + right. by rewrite Heq.
    + right. by rewrite <- Heq'.
    + by right.
  - rewrite pot_files_same_agree. intros H.
    destruct (Nat.lt_total (length file_a) (length file_b)) as [Hlt|[?|Hlt]];
      [|done|].
    + exfalso. destruct (H (length file_a)) as [Heq|[Ha _]].
      * rewrite (proj2 (lookup_ge_None file_a _)) in Heq by lia.
        symmetry in Heq. apply lookup_ge_None in Heq. lia.
      * apply creation_date_line_some, lookup_lt_is_Some in Ha. lia.
    + exfalso. destruct (H (length file_b)) as [Heq|[_ Hb]].
      * rewrite (proj2 (lookup_ge_None file_b _)) in Heq by lia.
        apply lookup_ge_None in Heq. lia.
      * apply creation_date_line_some, lookup_lt_is_Some in Hb. lia.
Qed.

End PotMore.

(** ** Failures of the two orchestrators *)

Section OrchestratorFailures.
Import MsgmergeAddon XGettextAddon Regen.
Variable cleanup_path : string → string.

(** X15.  When the change gate is open and the template for new
    translations is not named or not there, [update_translations] returns
    normally with one alert for the missing template, hands the alerts
    over, and attempts no merge and changes no file. *)
Theorem missing_template_alerts_once (cfg : MsgmergeAddon.configuration)
    (c : component) (previous_head : option string) (w : world) :
  Batch.gate_open c previous_head →
  Py.truthy (get_new_base_filename c)
  && path_exists (default "" (get_new_base_filename c)) w = false →
  ∃ w',
    update_translations cfg c previous_head w = Ok () w'
    ∧ w_fs w' = w_fs w
    ∧ w_alerts w'
      = w_alerts w
        ++ [Alert MsgmergeAddon.name "msgmerge" (get_new_base_filename c)
                  "Template for new translations not found"]
    ∧ Batch.attempted (events_since w w') = []
    ∧ TriggerAlerts (w_alerts w') ∈ events_since w w'.
Proof.
  intros Hopen Hmiss.
  destruct (update_translations_open cfg c previous_head w Hopen)
    as (w0 & evs0 & Hfs & Hal & Htr & _ & Hatt & Hrun).
  rewrite Hrun. clear Hrun. cbn zeta.
  assert (path_exists (default "" (get_new_base_filename c)) w0
          = path_exists (default "" (get_new_base_filename c)) w) as ->.
  { unfold path_exists. by rewrite Hfs. }
  rewrite <- negb_andb, Hmiss. cbn [negb].
  eexists. split; [done|]. cbn. rewrite Hfs, Hal.
  split; [done|]. split; [done|].
  rewrite (events_since_app w _ (evs0 ++ [TriggerAlerts _; LogInfo _]))
    by (cbn; by rewrite Htr, Hal, <- !app_assoc).
  split.
  - unfold Batch.attempted in *. rewrite omap_app, Hatt. done.
  - apply elem_of_app. right. left.
Qed.



End OrchestratorFailures.

(** ** Directories *)

Section DirectoryFacts.
Import Shape.

Local Abbreviation slash := (Ascii.eqb "/").

Lemma no_slash_start f : Py.contains "/" f = false → Py.startswith f "/" = false.
Proof.
  destruct f as [|a f]; [done|].
  unfold Py.startswith. cbn [Py.contains String.prefix].
  intros [Ha _]%orb_false_elim.
  destruct (ascii_dec "/" a) as [<-|]; [|done].
  by rewrite Ascii.eqb_refl in Ha.
Qed.

Lemma dirname_head_plain f : Py.contains "/" f = false → Py.dirname_head f = "".
Proof.
  induction f as [|a f IH]; [done|]. cbn.
  intros [Ha Hf]%orb_false_elim. by rewrite Hf, Ha.
Qed.

Lemma dirname_head_join d f :
  Py.contains "/" f = false →
  Py.dirname_head (d +:+ String "/" f) = d +:+ "/".
Proof.
  intros Hf. induction d as [|a d IH].
  - rewrite !app_empty_l. cbn. by rewrite Hf.
  - rewrite !app_cons. cbn [Py.dirname_head].
    rewrite contains_app. cbn [Py.contains]. rewrite Ascii.eqb_refl.
    cbn [orb]. rewrite orb_true_r. by rewrite IH.
Qed.

Lemma last_char_snoc s a : last_char (s +:+ String a "") = Some a.
Proof.
  induction s as [|b s IH]; [done|]. rewrite app_cons. cbn.
  destruct (s +:+ String a "") eqn:E; [|done].
  by apply app_eq_empty in E as [_ ?].
Qed.

Lemma rstrip_idem p s :
  Py.rstrip_with p (Py.rstrip_with p s) = Py.rstrip_with p s.
Proof. apply rstrip_keeps. intros a. apply rstrip_last. Qed.

Lemma rstrip_empty_all p s : Py.rstrip_with p s = "" → all_chars p s = true.
Proof.
  intros H. destruct (rstrip_rest p s) as (rest & Hs & Hrest).
  rewrite H, app_empty_l in Hs. by rewrite Hs.
Qed.

Lemma all_slashes_end h :
  h ≠ "" → all_chars slash h = true → ∃ front, h = front +:+ "/".
Proof.
  induction h as [|a h IH]; [done|]. intros _. cbn [all_chars].
  intros [Ha Hh]%andb_prop. apply Ascii.eqb_eq in Ha as <-.
  destruct h as [|b h]; [by exists ""|].
  destruct (IH ltac:(done) Hh) as [front ->]. by exists (String "/" front).
Qed.

Lemma dirname_of_join base f :
  Py.contains "/" f = false →
  Py.dirname (Py.path_join (Py.dirname base) f) = Py.dirname base.
Proof.
  intros Hf. unfold Py.dirname at 2 3.
  set (h := Py.dirname_head base).
  destruct (Py.rstrip_with slash h) as [|b r] eqn:Hr.
  - unfold Py.path_join. rewrite (no_slash_start f Hf).
    destruct h as [|a h'] eqn:Hh.
    + cbn [String.eqb orb]. rewrite app_empty_l.
      unfold Py.dirname. by rewrite (dirname_head_plain f Hf).
    + rewrite <- Hh in *.
      destruct (all_slashes_end h) as [front Hfront];
        [by rewrite Hh|by apply rstrip_empty_all|].
      assert (Py.endswith h "/" = true) as ->.
      { apply endswith_app. by exists front. }
      rewrite orb_true_r. unfold Py.dirname.
      assert (h +:+ f = front +:+ String "/" f) as ->.
      { by rewrite Hfront, string_app_assoc. }
      rewrite dirname_head_join, <- Hfront, Hr by done. done.
  - rewrite <- Hr. set (d := Py.rstrip_with slash h).
    assert (d ≠ "") as Hd by (unfold d; by rewrite Hr).
    assert (Py.endswith d "/" = false) as Hend.
    { apply not_true_is_false. intros [front Hfront]%endswith_app.
      assert (last_char d = Some "/"%char) as Hl
        by (rewrite Hfront; apply last_char_snoc).
      by apply rstrip_last in Hl. }
    unfold Py.path_join. rewrite (no_slash_start f Hf), Hend.
    rewrite (proj2 (String.eqb_neq d "")) by done. cbn [orb].
    unfold Py.dirname.
    change (d +:+ "/" +:+ f) with (d +:+ String "/" f).
    rewrite dirname_head_join by done.
    rewrite rstrip_app_drop by done. unfold d. rewrite rstrip_idem.
    fold d. by destruct d.
Qed.

(** X18.  The files the add-ons look for beside the template lie in the
    directory of the template: with a template file name at hand, the
    LINGUAS file, and the input list whenever its configured name holds no
    slash (as the default [POTFILES.in]), have the directory of the
    template as their directory. *)
Theorem files_beside_template (self : XGettextAddon.addon) (c : component)
    (full_path filemask base : string) :
  get_new_base_filename c = Some base → base ≠ "" →
  Py.contains "/"
    (default "POTFILES.in"
       (XGettextAddon.files_from (XGettextAddon.instance_configuration self)))
  = false →
  Py.dirname (UpdateLinguasRun.get_linguas_path c full_path filemask)
  = Py.dirname base
  ∧ ∃ path,
      XGettextAddon.get_files_from self c = Some path
      ∧ Py.dirname path = Py.dirname base.
Proof.
  intros Hbase Hne Hname. split.
  - unfold UpdateLinguasRun.get_linguas_path. rewrite Hbase. cbn [Py.truthy].
    rewrite (proj2 (String.eqb_neq base "")) by done. cbn [negb].
    change (default "" (Some base)) with base. by apply dirname_of_join.
  - unfold XGettextAddon.get_files_from. rewrite Hbase. eexists.
    split; [done|]. by apply dirname_of_join.
Qed.

End DirectoryFacts.

(** ** Settings with one entry per line *)

Section SplitlinesFacts.
Import Shape XGettextAddon.

Lemma rev_app_rev_app a : ∀ b c,
  String.rev_app (String.rev_app a b) c = String.rev_app b (a +:+ c).
Proof.
  induction a as [|x a IH]; intros b c; [done|]. cbn. by rewrite IH.
Qed.

Lemma rev_app_nonempty a : ∀ b, b ≠ "" → String.rev_app a b ≠ "".
Proof. induction a as [|x a IH]; intros b Hb; [done|]. cbn. by apply IH. Qed.

Lemma splitlines_go_word k : ∀ acc t,
  all_chars (λ a, negb (is_linebreak a)) k = true →
  splitlines_go acc false (k +:+ t)
  = splitlines_go (String.rev_app k acc) false t.
Proof.
  induction k as [|a k IH]; intros acc t; [done|]. cbn [all_chars].
  intros [Ha Hk]%andb_prop. apply negb_true_iff in Ha.
  rewrite app_cons. cbn [splitlines_go andb]. rewrite Ha. by rewrite IH.
Qed.

Lemma rev_app_app u : ∀ v w,
  String.rev_app u v +:+ w = String.rev_app u (v +:+ w).
Proof. induction u as [|y u IH]; intros v w; [done|]. cbn. by rewrite IH. Qed.

Lemma splitlines_word k acc :
  String.rev (String.rev_app k acc) = String.rev acc +:+ k.
Proof.
  unfold String.rev.
  by rewrite rev_app_rev_app, rev_app_app, string_app_nil_r, app_empty_l.
Qed.

(** Settings written one entry per line come back as the entries. *)
Lemma splitlines_join ks :
  Forall fits_on_line ks → splitlines (Py.join Py.nl ks) = ks.
Proof.
  unfold splitlines. induction 1 as [|k ks [Hne Hfree] Hks IH]; [done|].
  destruct ks as [|k2 ks].
  - change (Py.join Py.nl [k]) with k.
    rewrite <- (string_app_nil_r k) at 1. rewrite splitlines_go_word by done.
    cbn [splitlines_go].
    assert (String.rev_app k "" ≠ "") as Hrev.
    { destruct k as [|a k]; [done|]. cbn. by apply rev_app_nonempty. }
    rewrite (proj2 (String.eqb_neq _ "")) by done.
    by rewrite splitlines_word.
  - rewrite join_cons2. change (Py.nl +:+ ?x) with (String Py.LF x).
    rewrite splitlines_go_word by done. cbn [splitlines_go andb].
    change (is_linebreak Py.LF) with true. cbn match.
    change (Ascii.eqb Py.LF (ascii_of_nat 13)) with false.
    rewrite splitlines_word. by rewrite IH.
Qed.

Lemma filter_nonempty ks :
  Forall fits_on_line ks → filter (λ k, nonempty k = true) ks = ks.
Proof.
  induction 1 as [|k ks [Hne _] _ IH]; [done|].
  rewrite filter_cons_True; [by rewrite IH|].
  unfold nonempty. by apply negb_true_iff, String.eqb_neq.
Qed.

Lemma args_between (x k f : list string) :
  ∃ before after, Some ((x ++ k) ++ f) = Some (before ++ k ++ after).
Proof. exists x, f. by rewrite <- app_assoc. Qed.

Lemma args_between_more (x k f b : list string) :
  ∃ before after, Some (((x ++ k) ++ f) ++ b) = Some (before ++ k ++ after).
Proof. exists x, (f ++ b). by rewrite <- !app_assoc. Qed.

(** X19.  Keywords configured one per line reach the tool one argument
    each: when the keyword setting is a list of keywords joined by line
    feeds, each keyword not empty and free of line boundaries, and no
    customize add-on is installed, the arguments [get_xgettext_args]
    builds hold, one after the other and in the order given, one
    [--keyword=] argument for each keyword; and [splitlines] gives back
    the list that was joined. *)
Theorem keywords_one_argument_each (self : addon) (c : component)
    (ks : list string) :
  keywords (instance_configuration self) = Some (Py.join Py.nl ks) →
  Forall fits_on_line ks →
  customize_addon c = None →
  splitlines (Py.join Py.nl ks) = ks
  ∧ ∃ before after,
      get_xgettext_args self c
      = Some (before ++ ((λ keyword, "--keyword=" +:+ keyword) <$> ks)
              ++ after).
Proof.
  intros Hkw Hks Hcust. split; [by apply splitlines_join|].
  unfold get_xgettext_args. rewrite Hkw, Hcust.
  change (default "" (Some (Py.join Py.nl ks))) with (Py.join Py.nl ks).
  cbn zeta. rewrite (splitlines_join ks), (filter_nonempty ks) by done.
  destruct (nonempty (report_source_bugs c)).
  - apply args_between_more.
  - apply args_between.
Qed.

End SplitlinesFacts.

(** ** The further properties at work *)

Section MoreRuns.
Import UpdateLinguasAddon Linguas Shape.

(** X1 at work: a file that names the desired codes. *)
Lemma unchanged_flag_means_same_document_witness :
  (update_linguas ["de" +:+ Py.nl; "fr" +:+ Py.nl] ["de"; "fr"]).2
  = ["de" +:+ Py.nl; "fr" +:+ Py.nl].
Proof.
  apply (unchanged_flag_means_same_document
           ["de" +:+ Py.nl; "fr" +:+ Py.nl] ["de"; "fr"]).
  vm_compute. reflexivity.
Defined.

(** X3 at work: the code xx is deleted and the code de appended. *)
Lemma lines_deleted_or_appended_witness :
  ∃ kept missing,
    (update_linguas MoreSamples.linguas_lines ["fr"; "de"]).2
    = kept ++ ((λ code, code +:+ Py.nl) <$> missing)
    ∧ kept `sublist_of` MoreSamples.linguas_lines
    ∧ missing `sublist_of` ["fr"; "de"].
Proof.
  apply (lines_deleted_or_appended MoreSamples.linguas_lines ["fr"; "de"]).
  repeat constructor.
Defined.

(** X4 at work on the same file. *)
Lemma document_names_desired_codes_witness :
  named_codes (update_linguas MoreSamples.linguas_lines ["fr"; "de"]).2
  ≡ₚ ["fr"; "de"].
Proof.
  apply (document_names_desired_codes MoreSamples.linguas_lines ["fr"; "de"]).
  - repeat constructor.
  - repeat constructor; done.
  - repeat constructor; rewrite ?elem_of_cons, ?elem_of_nil;
      intuition discriminate.
Defined.

(** X5 at work: the LINGUAS file beside the template is rewritten and
    committed. *)
Lemma linguas_committed_when_rewritten_witness :
  let w := Sample.start MoreSamples.linguas_tree in
  let c := Sample.component_with [] in
  let path := UpdateLinguasRun.get_linguas_path c "" "*.po" in
  let document := (update_linguas MoreSamples.linguas_lines ["fr"; "de"]).2 in
  ∃ w1 w2,
    UpdateLinguasRun.daily ["fr"; "de"] c "" "*.po" w = Ok () w1
    ∧ UpdateLinguasRun.post_add ["fr"; "de"] c "" "*.po" [] w
      = Ok (if decide (document = MoreSamples.linguas_lines) then []
            else [] ++ [path]) w2
    ∧ w_fs w1 = <[path := document]> (w_fs w)
    ∧ w_fs w2 = <[path := document]> (w_fs w)
    ∧ events_since w w1
      = (if decide (document = MoreSamples.linguas_lines) then []
         else [OpenWrite path; CommitAndPush [path] false])
    ∧ events_since w w2
      = (if decide (document = MoreSamples.linguas_lines) then []
         else [OpenWrite path]).
Proof.
  apply (linguas_committed_when_rewritten ["fr"; "de"]
           (Sample.component_with []) "" "*.po" MoreSamples.linguas_lines []
           (Sample.start MoreSamples.linguas_tree)).
  - repeat constructor; done.
  - vm_compute. reflexivity.
Defined.

(** X9 at work on the file that is out of date. *)
Lemma configure_touches_assignments_only_witness :
  let w := Sample.start Sample.configure_tree in
  let lines := ["ALL_LINGUAS=" +:+ Py.dq +:+ "de" +:+ Py.dq +:+ Py.nl] in
  ∃ lines',
    w_fs (res_world (UpdateConfigureAddon.sync_linguas ["de"; "fr"]
                       ["configure"; "configure.ac"] w)) !! "configure"
    = Some lines'
    ∧ length lines' = length lines
    ∧ ∀ i line line',
        lines !! i = Some line → lines' !! i = Some line' →
        line' = line
        ∨ (line' = UpdateConfigureAddon.expected_line ["de"; "fr"]
           ∧ Py.startswith (Py.strip line) UpdateConfigureAddon.key_prefix
             = true
           ∧ Py.startswith (Py.strip line) "#" = false).
Proof.
  apply (configure_touches_assignments_only ["de"; "fr"]
           ["configure"; "configure.ac"] (Sample.start Sample.configure_tree)
           "configure").
  - unfold Configure.all_exist.
    repeat (apply Forall_cons; split; [eexists; vm_compute; reflexivity|]).
    by apply Forall_nil.
  - vm_compute. reflexivity.
Defined.

(** X10 at work: a configure file without a language list. *)
Lemma nothing_to_do_without_key_witness :
  let w := Sample.start MoreSamples.plain_configure_tree in
  UpdateConfigureRun.daily ["de"] "" w = Ok () w.
Proof.
  apply (nothing_to_do_without_key ["de"] (λ _, true) ""
           (Sample.start MoreSamples.plain_configure_tree)).
  - reflexivity.
  - vm_compute. reflexivity.
Defined.

(** X11 at work. *)
Lemma author_read_back_witness :
  GettextAuthorComments.pre_commit "Jane Doe <jane@example.org>"
  = GettextAuthorComments.Updated "Jane Doe" (Some "jane@example.org").
Proof.
  apply (author_read_back "Jane Doe" "jane@example.org").
  - reflexivity.
  - reflexivity.
  - reflexivity.
  - discriminate.
  - reflexivity.
Defined.

(** X12 at work: an author with two addresses. *)
Lemma author_with_two_brackets_raises_witness :
  let author := "Jane Doe <jane@example.org> <jd@example.org>" in
  GettextAuthorComments.pre_commit author
  = if PyMore.str_in "noreply@weblate.org" author
    then GettextAuthorComments.Untouched
    else GettextAuthorComments.ValueError.
Proof.
  apply (author_with_two_brackets_raises
           "Jane Doe <jane@example.org> <jd@example.org>").
  vm_compute. lia.
Defined.

(** X15 at work: the template is not in the working tree. *)
Lemma missing_template_alerts_once_witness :
  let c := Sample.component_with [] in
  let w := Sample.start ∅ in
  ∃ w',
    MsgmergeAddon.update_translations Sample.msgmerge_configuration c None w
    = Ok () w'
    ∧ w_fs w' = w_fs w
    ∧ w_alerts w'
      = w_alerts w
        ++ [Alert MsgmergeAddon.name "msgmerge" (get_new_base_filename c)
                  "Template for new translations not found"]
    ∧ Batch.attempted (events_since w w') = []
    ∧ TriggerAlerts (w_alerts w') ∈ events_since w w'.
Proof.
  apply (missing_template_alerts_once Sample.msgmerge_configuration
           (Sample.component_with []) None (Sample.start ∅)).
  - by left.
  - vm_compute. reflexivity.
Defined.


(** X18 at work: a template in the directory po. *)
Lemma files_beside_template_witness :
  let self := Sample.xgettext_addon [] in
  let c := MoreSamples.nested_component in
  Py.dirname (UpdateLinguasRun.get_linguas_path c "" "po/*.po")
  = Py.dirname "po/app.pot"
  ∧ ∃ path,
      XGettextAddon.get_files_from self c = Some path
      ∧ Py.dirname path = Py.dirname "po/app.pot".
Proof.
  apply (files_beside_template (Sample.xgettext_addon [])
           MoreSamples.nested_component "" "po/*.po" "po/app.pot").
  - reflexivity.
  - discriminate.
  - reflexivity.
Defined.

(** X19 at work: two keywords. *)
Lemma keywords_one_argument_each_witness :
  XGettextAddon.splitlines (Py.join Py.nl ["_"; "N_"]) = ["_"; "N_"]
  ∧ ∃ before after,
      XGettextAddon.get_xgettext_args MoreSamples.keyword_addon
        (Sample.component_with [])
      = Some (before ++ ((λ keyword, "--keyword=" +:+ keyword)
                         <$> ["_"; "N_"])
              ++ after).
Proof.
  apply (keywords_one_argument_each MoreSamples.keyword_addon
           (Sample.component_with []) ["_"; "N_"]).
  - reflexivity.
  - repeat constructor; done.
  - reflexivity.
Defined.

End MoreRuns.

(** ** Runs without the file, and the arguments of the merge *)

Section RunEdges.
Import UpdateLinguasRun.

(** X20.  The LINGUAS run needs its file: when the file is in the working
    tree, [daily] and [post_add] return; when it is not, both raise
    [FileNotFoundError] out of [open] and leave the world as it is: no
    file written, no commit, no alert.  An add-on that [can_install]
    accepted has the file. *)
Theorem linguas_run_needs_file (codes : list string) (c : component)
    (full_path filemask : string) (addon_commit_files : list string)
    (w : world) :
  let path := get_linguas_path c full_path filemask in
  (if path_exists path w
   then (∃ w', daily codes c full_path filemask w = Ok () w')
        ∧ (∃ files w',
             post_add codes c full_path filemask addon_commit_files w
             = Ok files w')
   else daily codes c full_path filemask w = Raise "FileNotFoundError" w
        ∧ post_add codes c full_path filemask addon_commit_files w
          = Raise "FileNotFoundError" w)
  ∧ (can_install true c full_path filemask w = true →
     path_exists path w = true).
Proof.
  intros path. split.
  - unfold path_exists, daily, post_add, sync_linguas. fold path.
    destruct (w_fs w !! path) as [lines|] eqn:Hfile.
    + rewrite bool_decide_eq_true_2 by eauto.
      destruct (UpdateLinguasAddon.update_linguas lines codes)
        as [changed lines'].
      split; eauto.
    + rewrite bool_decide_eq_false_2; [done|]. by intros [? ?].
  - unfold can_install. cbn [negb]. fold path.
    by intros [_ ?]%andb_prop.
Qed.

(** X21.  The arguments of msgmerge: [get_msgmerge_args] raises only when
    the customize add-on is installed with a width stored as a string
    that [int] rejects; otherwise it returns some of
    [--no-fuzzy-matching], [--previous], [--no-location] and [--no-wrap],
    each at most once and in this order, where [--previous] is given
    unless the setting is switched off, [--no-fuzzy-matching] when fuzzy
    matching is switched off, [--no-location] when it is switched on, and
    [--no-wrap] exactly when the customize add-on is installed with a
    stored width other than 77: an integer that is not 77, or a string
    from which [int] reads an integer that is not 77. *)
Theorem msgmerge_args_shape (cfg : MsgmergeAddon.configuration)
    (c : component) :
  match MsgmergeAddon.get_msgmerge_args cfg c with
  | Some args =>
      args `sublist_of`
        ["--no-fuzzy-matching"; "--previous"; "--no-location"; "--no-wrap"]
      ∧ ("--no-fuzzy-matching" ∈ args
         ↔ default true (MsgmergeAddon.fuzzy cfg) = false)
      ∧ ("--previous" ∈ args
         ↔ default true (MsgmergeAddon.previous cfg) = true)
      ∧ ("--no-location" ∈ args
         ↔ default false (MsgmergeAddon.no_location cfg) = true)
      ∧ ("--no-wrap" ∈ args
         ↔ ∃ custom,
             customize_addon c = Some custom
             ∧ match GettextCustomizeAddon.width custom with
               | None => False
               | Some (PyInt z) => z ≠ 77%Z
               | Some (PyStr s) =>
                   ∃ z, GettextCustomizeAddon.int_of_str s = Some z
                        ∧ z ≠ 77%Z
               end)
  | None =>
      ∃ custom s,
        customize_addon c = Some custom
        ∧ GettextCustomizeAddon.width custom = Some (PyStr s)
        ∧ GettextCustomizeAddon.int_of_str s = None
  end.
Proof.
  assert (∀ custom,
            match GettextCustomizeAddon.configured_width custom with
            | Some width =>
                width ≠ 77%Z
                ↔ match GettextCustomizeAddon.width custom with
                  | None => False
                  | Some (PyInt z) => z ≠ 77%Z
                  | Some (PyStr s) =>
                      ∃ z, GettextCustomizeAddon.int_of_str s = Some z
                           ∧ z ≠ 77%Z
                  end
            | None =>
                ∃ s, GettextCustomizeAddon.width custom = Some (PyStr s)
                     ∧ GettextCustomizeAddon.int_of_str s = None
            end) as Hstored.
  { intros custom. unfold GettextCustomizeAddon.configured_width.
    destruct (GettextCustomizeAddon.width custom) as [[z|s]|].
    - change (default (PyInt 77) (Some (PyInt z))) with (PyInt z).
      by cbn [GettextCustomizeAddon.py_int].
    - change (default (PyInt 77) (Some (PyStr s))) with (PyStr s).
      cbn [GettextCustomizeAddon.py_int].
      destruct (GettextCustomizeAddon.int_of_str s) as [z|] eqn:Hint;
        [|by exists s].
      split; [by exists z|]. by intros (z' & [= <-] & ?).
    - change (default (PyInt 77) None) with (PyInt 77).
      cbn [GettextCustomizeAddon.py_int]. by split. }
  unfold MsgmergeAddon.get_msgmerge_args,
    GettextCustomizeAddon.get_msgmerge_args.
  destruct (customize_addon c) as [custom|] eqn:Hcustom.
  - specialize (Hstored custom).
    destruct (GettextCustomizeAddon.configured_width custom)
      as [width|] eqn:Hwidth.
    2: { destruct Hstored as (s & Hs & Hnone). by exists custom, s. }
    cbn [mbind option_bind].
    destruct (default true (MsgmergeAddon.fuzzy cfg)),
      (default true (MsgmergeAddon.previous cfg)),
      (default false (MsgmergeAddon.no_location cfg)),
      (decide (width ≠ 77%Z)) as [Hw|Hw];
      rewrite ?(bool_decide_eq_true_2 _ Hw), ?(bool_decide_eq_false_2 _ Hw);
      cbn [negb app];
      (split;
       [repeat first [apply sublist_nil | apply sublist_skip
                     | apply sublist_cons]|]);
      rewrite ?elem_of_cons, ?elem_of_nil;
      repeat split; try (intuition (discriminate || done)).
    all: try (intros _; right; right; right; left; reflexivity).
    all: try (intros _; exists custom; split; [done|]; by apply Hstored).
    all: try (intros (custom' & [= <-] & Hst); exfalso; apply Hw;
              by apply Hstored).
    all: try (intros _; eauto 10).
  - destruct (default true (MsgmergeAddon.fuzzy cfg)),
      (default true (MsgmergeAddon.previous cfg)),
      (default false (MsgmergeAddon.no_location cfg));
      cbn [negb app];
      (split;
       [repeat first [apply sublist_nil | apply sublist_skip
                     | apply sublist_cons]|]);
      rewrite ?elem_of_cons, ?elem_of_nil;
      repeat split; try (intuition (discriminate || done)).
    all: try (by intros (? & [=] & _)).
Qed.

End RunEdges.

(** ** Written files, read again *)

Section ReadBackFacts.
Import Shape.

Lemma is_whole_line_spec s : is_whole_line s = true → whole_line s.
Proof.
  induction s as [|a s IH]; [done|]. cbn [is_whole_line].
  destruct s as [|b s].
  - intros ->%Ascii.eqb_eq. by exists "".
  - intros [Ha Hs]%andb_prop. destruct (IH Hs) as (body & -> & Hbody).
    exists (String a body). split; [by rewrite app_cons|].
    unfold no_line_break in *. cbn [all_chars]. by rewrite Ha, Hbody.
Qed.

Lemma no_line_break_app s t :
  no_line_break s → no_line_break t → no_line_break (s +:+ t).
Proof.
  unfold no_line_break. intros Hs Ht. by rewrite all_chars_app, Hs, Ht.
Qed.

Lemma plain_no_line_break s : Linguas.plain s = true → no_line_break s.
Proof.
  unfold no_line_break.
  induction s as [|a s IH]; [done|]. cbn [Linguas.plain all_chars].
  intros [[Ha _]%andb_prop Hs]%andb_prop. rewrite IH by done.
  rewrite andb_true_r. apply negb_true_iff in Ha. apply negb_true_iff.
  apply orb_false_intro; apply Ascii.eqb_neq; intros ->; by vm_compute in Ha.
Qed.

Lemma join_no_line_break l :
  Forall no_line_break l → no_line_break (Py.join " " l).
Proof.
  induction 1 as [|x l Hx Hl IH]; [done|]. destruct l as [|y l]; [done|].
  rewrite join_cons2. apply no_line_break_app; [done|].
  by apply no_line_break_app.
Qed.

Lemma readlines_go_body body : ∀ acc rest,
  no_line_break body →
  PyMore.readlines_go acc false (body +:+ rest)
  = PyMore.readlines_go (String.rev_app body acc) false rest.
Proof.
  unfold no_line_break.
  induction body as [|a body IH]; intros acc rest; [done|].
  cbn [all_chars]. intros [Ha Hbody]%andb_prop.
  apply negb_true_iff in Ha. rewrite app_cons.
  cbn [PyMore.readlines_go andb]. rewrite Ha. by apply IH.
Qed.

Lemma readlines_go_line body rest :
  no_line_break body →
  PyMore.readlines_go "" false ((body +:+ Py.nl) +:+ rest)
  = (body +:+ Py.nl) :: PyMore.readlines_go "" false rest.
Proof.
  intros Hbody. rewrite string_app_assoc.
  change (Py.nl +:+ rest) with (String Py.LF rest).
  rewrite readlines_go_body by done.
  cbn [PyMore.readlines_go andb]. rewrite Ascii.eqb_refl. cbn [orb].
  change (Ascii.eqb Py.LF (ascii_of_nat 13)) with false. f_equal.
  unfold String.rev. cbn [String.rev_app]. by rewrite rev_app_rev_app.
Qed.

Lemma readlines_unterminated line :
  line ≠ "" → no_line_break line →
  PyMore.readlines_go "" false line = [line].
Proof.
  intros Hne Hline. rewrite <- (string_app_nil_r line) at 1.
  rewrite readlines_go_body by done. cbn [PyMore.readlines_go].
  assert (String.rev_app line "" ≠ "") as Hrev.
  { destruct line as [|a line]; [done|]. cbn. by apply rev_app_nonempty. }
  rewrite (proj2 (String.eqb_neq _ "")) by done.
  by rewrite splitlines_word.
Qed.

(** Lines as a read gives them are read back as they are written. *)
Lemma readlines_as_read lines :
  as_read lines → PyMore.readlines (PyMore.read_text lines) = lines.
Proof.
  induction lines as [|line rest IH]; [done|].
  intros [[(body & -> & Hbody)|(-> & Hne & Hline)] Hrest].
  - rewrite read_text_cons. unfold PyMore.readlines.
    rewrite readlines_go_line by done. f_equal. by apply IH.
  - by apply readlines_unterminated.
Qed.

Lemma whole_lines_as_read lines : Forall whole_line lines → as_read lines.
Proof. induction 1; [done|]. split; [by left|done]. Qed.

End ReadBackFacts.

Section LinguasReadBack.
Import UpdateLinguasAddon Linguas Shape UpdateLinguasRun.

Lemma code_whole_line code : code_ok code → whole_line (code +:+ Py.nl).
Proof. intros [_ Hp]. exists code. split; [done|by apply plain_no_line_break]. Qed.

Lemma expected_whole_line codes :
  Forall code_ok codes → whole_line (expected_line codes +:+ Py.nl).
Proof.
  intros Hok. exists (expected_line codes). split; [done|].
  apply join_no_line_break, Forall_forall. intros code Hin.
  rewrite sorted_perm in Hin. rewrite Forall_forall in Hok.
  by apply plain_no_line_break, Hok.
Qed.

Lemma walk_whole_lines lines : ∀ codes,
  Forall whole_line lines → Forall code_ok codes →
  Forall whole_line (walk lines codes).1.1.
Proof.
  induction lines as [|line rest IH]; intros codes Hlines Hok;
    cbn [walk]; [by apply Forall_nil|].
  apply Forall_cons in Hlines as [Hline Hrest].
  destruct (String.eqb _ ""); [|destruct (Py.contains _ _)].
  - specialize (IH codes Hrest Hok).
    destruct (walk rest codes) as [[??]?]. cbn [fst] in *.
    by apply Forall_cons.
  - destruct (negb _); cbn [fst]; apply Forall_cons; split; try done.
    by apply expected_whole_line.
  - destruct (bool_decide _).
    + specialize (IH (set_remove (stripped_of line) codes) Hrest
                    (set_remove_Forall _ _ _ Hok)).
      destruct (walk rest _) as [[??]?]. cbn [fst] in *.
      by apply Forall_cons.
    + by apply IH.
Qed.

Lemma document_whole_lines lines codes :
  Forall whole_line lines → Forall code_ok codes →
  Forall whole_line (update_linguas lines codes).2.
Proof.
  intros Hlines Hok. rewrite update_linguas_snd. apply Forall_app. split.
  - by apply walk_whole_lines.
  - apply Forall_fmap, Forall_forall. intros code Hin. cbn.
    apply code_whole_line. rewrite Forall_forall in Hok. apply Hok.
    by apply (walk_codes_subseteq lines codes).
Qed.

(** X6.  A second [daily] run right after the first does nothing: with
    well-formed codes, the same code set (in any iteration order) and a
    LINGUAS file of whole lines (each with its line feed, the last one
    too) whose several-codes line, if any, is followed by blank and
    comment lines only, the file the first run leaves is read again as
    the lines that were written, and the second run returns the world the
    first one left. *)
Theorem linguas_daily_settles (codes codes2 : list string) (c : component)
    (full_path filemask : string) (lines : list string) (w : world) :
  let path := get_linguas_path c full_path filemask in
  Forall code_ok codes → NoDup codes → codes2 ≡ₚ codes →
  record_last lines → Forall whole_line lines →
  w_fs w !! path = Some lines →
  ∃ w' document,
    daily codes c full_path filemask w = Ok () w'
    ∧ w_fs w' !! path = Some document
    ∧ PyMore.readlines (PyMore.read_text document) = document
    ∧ daily codes2 c full_path filemask w' = Ok () w'.
Proof.
  intros path Hok Hnd Hperm Hshape Hlines Hfile. unfold daily. fold path.
  rewrite (sync_linguas_run codes path lines w Hfile).
  assert (Hsecond : (update_linguas (update_linguas lines codes).2 codes2).1
                    = false).
  { rewrite (update_linguas_snd lines codes), update_linguas_fst.
    rewrite (walk_settled lines codes codes2) by done. cbn.
    by rewrite Nat.eqb_refl. }
  pose proof (unchanged_flag_same lines codes) as Hsame.
  pose proof (document_whole_lines lines codes Hlines Hok) as Hdoc.
  destruct (update_linguas lines codes).1 eqn:Hfirst.
  - eexists _, (update_linguas lines codes).2. split; [done|].
    split; [cbn; apply lookup_insert_eq|].
    split; [by apply readlines_as_read, whole_lines_as_read|].
    erewrite sync_linguas_run; [|cbn; apply lookup_insert_eq].
    by rewrite Hsecond.
  - exists w, lines. split; [done|]. split; [done|].
    split; [by apply readlines_as_read, whole_lines_as_read|].
    rewrite Hsame in Hsecond by done.
    rewrite (sync_linguas_run codes2 path lines w Hfile).
    by rewrite Hsecond.
Qed.

End LinguasReadBack.

Section ConfigureReadBack.
Import UpdateConfigureAddon Configure Shape.

Lemma configure_expected_whole_line names :
  Forall no_line_break names → whole_line (expected_line names).
Proof.
  intros Hnames. exists (key_prefix +:+ Py.join " " names +:+ Py.dq).
  unfold expected_line. split; [by rewrite !string_app_assoc|].
  apply no_line_break_app; [done|].
  apply no_line_break_app; [by apply join_no_line_break|done].
Qed.

Lemma edit_as_read expected lines :
  whole_line expected → as_read lines → as_read (edit expected <$> lines).
Proof.
  intros Hexp. induction lines as [|line rest IH]; [done|].
  intros [Hline Hrest]. rewrite fmap_cons. split; [|by apply IH].
  unfold edit. destruct (needs_change expected line); [by left|].
  destruct Hline as [?|(-> & ? & ?)]; [by left|by right].
Qed.

(** X8.  The configure editor settles: run over candidate files that all
    exist and hold lines as a read gives them, with codes free of line
    feeds and carriage returns, every candidate file is read again after
    the first [sync_linguas] as the lines it then holds, and a second
    [sync_linguas] with the same codes returns [false] and leaves the
    world as the first run left it. *)
Theorem configure_sync_settles (names paths : list string) (w : world) :
  all_exist (w_fs w) paths →
  Forall no_line_break names →
  (∀ p, p ∈ paths → as_read (read (w_fs w) p)) →
  ∃ added w',
    sync_linguas names paths w = Ok added w'
    ∧ (∀ p, p ∈ paths →
         PyMore.readlines (PyMore.read_text (read (w_fs w') p))
         = read (w_fs w') p)
    ∧ sync_linguas names paths w' = Ok false w'.
Proof.
  intros Hex Hnames Hread. unfold sync_linguas.
  set (expected := expected_line names).
  destruct (sync_paths_false expected paths w Hex)
    as (added & w' & Hrun & Hal & Htr & Hadd & Hfs).
  exists added, w'. split; [done|]. split.
  { intros p Hp. apply readlines_as_read. unfold read. rewrite Hfs.
    destruct (decide _).
    - apply edit_as_read; [by apply configure_expected_whole_line|].
      by apply Hread.
    - by apply Hread. }
  assert (Hex' : all_exist (w_fs w') paths).
  { unfold all_exist in *. rewrite Forall_forall in Hex |- *.
    intros p Hp. rewrite Hfs. destruct (decide _); [done|by apply Hex]. }
  assert (Hsettled : existsb (λ p, file_needs_change expected
                                     (read (w_fs w') p)) paths = false).
  { apply not_true_is_false. intros (p & Hin & Hn)%existsb_exists.
    apply list_elem_of_In in Hin. unfold read in Hn. rewrite Hfs in Hn.
    destruct (decide (p ∈ written_paths expected (w_fs w) false paths))
      as [Hw|Hw].
    - change (file_needs_change expected
                (edit expected <$> read (w_fs w) p) = true) in Hn.
      by rewrite edit_settled in Hn.
    - apply Hw. by apply written_paths_needing. }
  destruct (sync_paths_false expected paths w' Hex')
    as (added2 & w2 & -> & Hal2 & Htr2 & Hadd2 & Hfs2).
  rewrite Hsettled in Hadd2. subst added2. f_equal.
  apply world_eq; [|done|].
  - apply map_eq. intros q. rewrite Hfs2, written_paths_none by done.
    destruct (decide (q ∈ [])) as [H|]; [by apply elem_of_nil in H|done].
  - rewrite Htr2, written_paths_none by done. by rewrite app_nil_r.
Qed.

End ConfigureReadBack.

Section ReadBackRuns.
Import Shape.

(** X6 at work: the second daily run, with the codes in the other order,
    leaves the world of the first as it is. *)
Lemma linguas_daily_settles_witness :
  let c := Sample.component_with [] in
  let path := UpdateLinguasRun.get_linguas_path c "" "*.po" in
  ∃ w' document,
    UpdateLinguasRun.daily ["fr"; "de"] c "" "*.po"
      (Sample.start MoreSamples.linguas_tree) = Ok () w'
    ∧ w_fs w' !! path = Some document
    ∧ PyMore.readlines (PyMore.read_text document) = document
    ∧ UpdateLinguasRun.daily ["de"; "fr"] c "" "*.po" w' = Ok () w'.
Proof.
  apply (linguas_daily_settles ["fr"; "de"] ["de"; "fr"]
           (Sample.component_with []) "" "*.po" MoreSamples.linguas_lines
           (Sample.start MoreSamples.linguas_tree)).
  - repeat constructor; done.
  - repeat constructor; rewrite ?elem_of_cons, ?elem_of_nil;
      intuition discriminate.
  - apply perm_swap.
  - exact I.
  - repeat (apply Forall_cons; split; [by apply is_whole_line_spec|]).
    by apply Forall_nil.
  - vm_compute. reflexivity.
Defined.

(** X8 at work on two configure files of which one is out of date. *)
Lemma configure_sync_settles_witness :
  let paths := ["configure"; "configure.ac"] in
  ∃ added w',
    UpdateConfigureAddon.sync_linguas ["de"; "fr"] paths
      (Sample.start Sample.configure_tree)
    = Ok added w'
    ∧ (∀ p, p ∈ paths →
         PyMore.readlines (PyMore.read_text (Configure.read (w_fs w') p))
         = Configure.read (w_fs w') p)
    ∧ UpdateConfigureAddon.sync_linguas ["de"; "fr"] paths w' = Ok false w'.
Proof.
  apply (configure_sync_settles ["de"; "fr"] ["configure"; "configure.ac"]
           (Sample.start Sample.configure_tree)).
  - unfold Configure.all_exist.
    repeat (apply Forall_cons; split; [eexists; vm_compute; reflexivity|]).
    by apply Forall_nil.
  - repeat (apply Forall_cons; split; [reflexivity|]). by apply Forall_nil.
  - intros p Hp. apply whole_lines_as_read.
    apply elem_of_cons in Hp as [->|Hp];
      [|apply elem_of_cons in Hp as [->|Hp];
        [|by apply elem_of_nil in Hp]].
    + apply Forall_cons. split; [by apply is_whole_line_spec|].
      by apply Forall_nil.
    + apply Forall_cons. split; [by apply is_whole_line_spec|].
      by apply Forall_nil.
Defined.

End ReadBackRuns.
